(** * Routing-and-retrieval orchestration engine: embedding and verification

  A shallow embedding of the Python sources under [backend/app]
  ([agents/orchestrator.py], [agents/travel_support.py],
  [agents/booking.py], [agents/policy.py], [retrieval/rag.py],
  [retrieval/cag.py], [retrieval/hybrid.py], [chains/graph.py]) followed
  by the theorems that settle the properties stated for them.

  Conventions of the embedding:
  - a Python [str] is a [string] whose characters are the code points
    below 256 (one [ascii] per code point);
  - a Python [float] is a binary64 value ([PrimFloat.float]), with the
    IEEE-754 operations of the kernel;
  - a Python [dict] used as a map is a [gmap]; a dict with a fixed set
    of keys is a record;
  - exceptions are the [Raise] results of a state-and-error monad whose
    state is the log of calls made to the external services. *)

From Stdlib Require Import ZArith Ascii String Floats DecimalString DecimalNat Lia.
From stdpp Require Import gmap strings list.

Set Warnings "-inexact-float,-register-all".

(** ** Python strings *)

Module PyStr.

(** [str.lower()] on one code point: the ASCII capitals and the Latin-1
    capitals U+00C0..U+00DE (U+00D7, the multiplication sign, apart)
    move up by 32; every other code point below 256 is unchanged. *)
Definition lower_char (c : ascii) : ascii :=
  let n := N_of_ascii c in
  if ((65 <=? n) && (n <=? 90) || (192 <=? n) && (n <=? 222) && negb (n =? 215))%N
  then ascii_of_N (n + 32) else c.

Fixpoint lower (s : string) : string :=
  match s with
  | EmptyString => EmptyString
  | String c s' => String (lower_char c) (lower s')
  end.

(** [s.startswith(p)] *)
Fixpoint startswith (p s : string) : bool :=
  match p, s with
  | EmptyString, _ => true
  | String _ _, EmptyString => false
  | String a p', String b s' => Ascii.eqb a b && startswith p' s'
  end.

(** [sub in s] *)
Fixpoint contains (sub s : string) : bool :=
  startswith sub s ||
  match s with
  | EmptyString => false
  | String _ s' => contains sub s'
  end.

(** [s.find(sub)]: the lowest index where [sub] occurs, or -1. *)
Fixpoint find_from (sub s : string) (i : Z) : Z :=
  if startswith sub s then i
  else match s with
       | EmptyString => (-1)%Z
       | String _ s' => find_from sub s' (i + 1)%Z
       end.

Definition find (sub s : string) : Z := find_from sub s 0.

(** [s.rfind(sub)]: the highest index where [sub] occurs, or -1. *)
Fixpoint rfind_from (sub s : string) (i : Z) : Z :=
  match s with
  | EmptyString => if startswith sub s then i else (-1)%Z
  | String _ s' =>
      let r := rfind_from sub s' (i + 1)%Z in
      if (0 <=? r)%Z then r
      else if startswith sub s then i else (-1)%Z
  end.

Definition rfind (sub s : string) : Z := rfind_from sub s 0.

(** [s[a:b]] for [0 <= a]; [b] is clipped at the end of [s]. *)
Definition slice (s : string) (a b : Z) : string :=
  String.substring (Z.to_nat a) (Z.to_nat (b - a)) s.

(** [c.isspace()] for the code points below 256. *)
Definition isspace (c : ascii) : bool :=
  let n := N_of_ascii c in
  ((9 <=? n) && (n <=? 13) || (28 <=? n) && (n <=? 32)
   || (n =? 133) || (n =? 160))%N.

Fixpoint lstrip (s : string) : string :=
  match s with
  | EmptyString => EmptyString
  | String c s' => if isspace c then lstrip s' else s
  end.

Fixpoint rstrip (s : string) : string :=
  match s with
  | EmptyString => EmptyString
  | String c s' =>
      match rstrip s' with
      | EmptyString => if isspace c then EmptyString else String c EmptyString
      | r => String c r
      end
  end.

(** [s.strip()] *)
Definition strip (s : string) : string := rstrip (lstrip s).

(** [s.split()]: the maximal runs of non-whitespace code points. *)
Fixpoint split_from (s cur : string) : list string :=
  match s with
  | EmptyString => match cur with EmptyString => [] | _ => [cur] end
  | String c s' =>
      if isspace c
      then match cur with
           | EmptyString => split_from s' EmptyString
           | _ => cur :: split_from s' EmptyString
           end
      else split_from s' (cur +:+ String c EmptyString)
  end.

Definition split (s : string) : list string := split_from s EmptyString.

(** [sep.join(parts)] *)
Definition join (sep : string) (parts : list string) : string :=
  String.concat sep parts.

(** [str(n)] for a non-negative integer, as f-strings print it. *)
Definition of_nat (n : nat) : string := NilZero.string_of_uint (Nat.to_uint n).

(** Truthiness of a string: non-empty. *)
Definition truthy (s : string) : bool :=
  match s with EmptyString => false | _ => true end.

End PyStr.

(** ** Python floats *)

Module PyFloat.

(** [min(a, b)]: the first argument unless the second is strictly smaller. *)
Definition min (a b : float) : float := if (b <? a)%float then b else a.

(** [max(a, b)]: the first argument unless the second is strictly larger. *)
Definition max (a b : float) : float := if (a <? b)%float then b else a.

(** An [int] promoted to [float] in mixed arithmetic; exact below 2^53. *)
Definition of_nat (n : nat) : float :=
  PrimFloat.of_uint63 (Uint63.of_Z (Z.of_nat n)).

End PyFloat.


(** ** Exceptions, results and the effect monad *)

Inductive Exn :=
| JSONDecodeError | AttributeError | TypeError | ValueError | OverflowError
| IndexError | ValidationError | ServiceError.

Inductive Result (A : Type) :=
| Ok (a : A)
| Raise (e : Exn).
Arguments Ok {A} a.
Arguments Raise {A} e.

(** Messages handed to a chat model ([langchain_core.messages]). *)
Inductive LcMessage :=
| SystemMessage (content : string)
| HumanMessage (content : string).

(** What a chat model is built with: the provider and its sampling
  temperature ([ChatBedrock] in the orchestrator, [ChatOpenAI] in the
  three agents). *)
Inductive Provider := Bedrock | OpenAI.

Record ChatModel := { provider : Provider; temperature : float }.

(** The result of [collection.query] (ChromaDB): one inner list per query
  embedding; a value may be [None]. *)
Module Chroma.

Record QueryResult := {
  documents : option (list (list string));
  metadatas : option (list (list (gmap string string)));
  distances : option (list (list float));
}.

End Chroma.

(** Python values as [json.loads] returns them. *)
Inductive pyobj :=
| PyNone
| PyBool (b : bool)
| PyInt (z : Z)
| PyFloat (f : float)
| PyStr (s : string)
| PyList (l : list pyobj)
| PyDict (d : gmap string pyobj).

(** A call to an external service, as it is logged. *)
Inductive Event :=
| LlmInvoke (llm : ChatModel) (messages : list LcMessage)
| EmbedQuery (text : string)
| CollectionQuery (query_embedding : list float) (n_results : Z)
  (where_clause : gmap string string)
| ReadCorpus (agent_type : string)
| GetCollection (collection_name : option string).

(** The external collaborators. A service answers from the calls made so
  far and from its arguments, so two calls with the same arguments may
  be answered differently; [Raise] is a provider failure. [json_loads]
  and [float_of_str] are the library functions [json.loads] and
  [float] on a [str]. [read_corpus] is what reading the corpus
  directory yields: the texts of its files with the metadata-marker
  lines removed and the surrounding whitespace trimmed.
  [get_collection] is [client.get_collection(name)] of the vector
  store, [None] standing for the name the configuration gives; it
  raises when the collection does not exist. *)
Class Services := {
llm_invoke : list Event -> ChatModel -> list LcMessage -> Result string;
embed_query : list Event -> string -> Result (list float);
collection_query :
  list Event -> list float -> Z -> gmap string string -> Result Chroma.QueryResult;
read_corpus : list Event -> list string;
json_loads : string -> Result pyobj;
float_of_str : string -> Result float;
get_collection : list Event -> option string -> Result unit;
}.

(** A computation: from the log of calls so far to a value or an
  exception, and the extended log. *)
Definition IO (A : Type) : Type := list Event -> Result A * list Event.

#[global] Instance Result_ret : MRet Result := fun A a => Ok a.

#[global] Instance Result_bind : MBind Result := fun A B k r =>
match r with
| Ok a => k a
| Raise e => Raise e
end.

#[global] Instance Result_fmap : FMap Result := fun A B f r =>
match r with
| Ok a => Ok (f a)
| Raise e => Raise e
end.

#[global] Instance IO_ret : MRet IO := fun A a tr => (Ok a, tr).

#[global] Instance IO_bind : MBind IO := fun A B k m tr =>
match m tr with
| (Ok a, tr') => k a tr'
| (Raise e, tr') => (Raise e, tr')
end.

(** [raise e] *)
Definition raise {A} (e : Exn) : IO A := fun tr => (Raise e, tr).

(** A pure step that may raise. *)
Definition lift {A} (r : Result A) : IO A := fun tr => (r, tr).

(** [try: body  except Exception as e: handler e] *)
Definition try_except {A} (body : IO A) (handler : Exn -> IO A) : IO A :=
fun tr =>
  match body tr with
  | (Ok a, tr') => (Ok a, tr')
  | (Raise e, tr') => handler e tr'
  end.

(** A call to a service: logged, then answered by the service from the
  log as it stood before the call. *)
Definition call {A} (ev : Event) (answer : list Event -> Result A) : IO A :=
fun tr => (answer tr, tr ++ [ev]).

(** ** Dynamic typing: the operations the sources apply to parsed JSON *)

Module PyObj.

(** [o.get(key, default)]: only a [dict] has the method. *)
Definition get (o : pyobj) (key : string) (dflt : pyobj) : Result pyobj :=
  match o with
  | PyDict d => Ok (default dflt (d !! key))
  | _ => Raise AttributeError
  end.

(** [o in names] for a list of [str] literals: [==] holds only between
    a [str] and an equal [str]. *)
Definition in_strs (o : pyobj) (names : list string) : bool :=
  match o with
  | PyStr s => bool_decide (s ∈ names)
  | _ => false
  end.

(** [float(z)] for an [int]: rounded to the nearest binary64 value,
    ties to even; [OverflowError] beyond the largest one. *)
Definition float_of_int (z : Z) : Result float :=
  let f := SF2Prim (binary_normalize prec emax z 0 false) in
  if PrimFloat.is_infinity f then Raise OverflowError else Ok f.

(** [float(o)] *)
Definition to_float `{Services} (o : pyobj) : Result float :=
  match o with
  | PyFloat f => Ok f
  | PyInt z => float_of_int z
  | PyBool b => Ok (if b then 1%float else 0%float)
  | PyStr s => float_of_str s
  | PyNone | PyList _ | PyDict _ => Raise TypeError
  end.

End PyObj.

(** ** [app.models.state] *)

Module State.

Inductive AgentType := travel_support | booking_payments | policy.

Definition value (a : AgentType) : string :=
  match a with
  | travel_support => "travel_support"
  | booking_payments => "booking_payments"
  | policy => "policy"
  end.

Definition of_value (s : string) : option AgentType :=
  if String.eqb s "travel_support" then Some travel_support
  else if String.eqb s "booking_payments" then Some booking_payments
  else if String.eqb s "policy" then Some policy
  else None.

Record AgentRoutingDecision := {
  agent_type : AgentType;
  confidence : float;
  reasoning : string;
}.

(** Modelled from the spec: the declaration of [AgentRoutingDecision]
    ([app/models/state.py]) is not among the sources. The data model
    gives it the fields [category] (one of the three variants),
    [confidence] (a float in [0.0, 1.0]) and [reasoning] (text); the
    constructor below validates exactly that and raises
    [ValidationError] otherwise, as a Pydantic model does. *)
Definition AgentRoutingDecision_init
    (agent_type : pyobj) (confidence : float) (reasoning : pyobj)
  : Result AgentRoutingDecision :=
  match agent_type, reasoning with
  | PyStr a, PyStr r =>
      match of_value a with
      | Some t =>
          if ((0 <=? confidence) && (confidence <=? 1))%float
          then Ok {| agent_type := t; confidence := confidence; reasoning := r |}
          else Raise ValidationError
      | None => Raise ValidationError
      end
  | _, _ => Raise ValidationError
  end.

End State.

(** ** [app/agents/orchestrator.py] *)

Module OrchestratorAgent.

Definition llm : ChatModel := {| provider := Bedrock; temperature := 0.3 |}.

Definition dq : string := String (ascii_of_nat 34) EmptyString.

Definition system_prompt : string :=
  "You are a routing agent for a travel agency customer service system.
Your job is to analyze customer queries and route them to the most appropriate specialized agent.

Available agents:
1. travel_support - Handles questions about destinations, travel tips, itineraries, general travel advice
2. booking_payments - Handles questions about pricing, packages, payments, invoices, booking costs
3. policy - Handles questions about cancellation policies, refunds, terms of service, travel insurance, baggage policies

Analyze the query and respond with ONLY a JSON object in this exact format:
{
    " +:+ dq +:+ "agent_type" +:+ dq +:+ ": " +:+ dq +:+ "travel_support" +:+ dq
  +:+ " | " +:+ dq +:+ "booking_payments" +:+ dq +:+ " | " +:+ dq +:+ "policy" +:+ dq +:+ ",
    " +:+ dq +:+ "confidence" +:+ dq +:+ ": 0.0-1.0,
    " +:+ dq +:+ "reasoning" +:+ dq +:+ ": " +:+ dq +:+ "brief explanation" +:+ dq +:+ "
}

Be precise and choose the most appropriate agent based on the query's primary concern.".

Definition booking_keywords : list string :=
  ["price"; "cost"; "payment"; "invoice"; "booking"; "package";
   "how much"; "pricing"; "pay"; "refund"; "charge"].

Definition policy_keywords : list string :=
  ["policy"; "cancel"; "cancellation"; "terms"; "insurance";
   "baggage"; "refund policy"; "tos"; "terms of service"].

(** [sum(1 for kw in keywords if kw in query_lower)] *)
Definition keyword_score (keywords : list string) (query_lower : string) : nat :=
  sum_list ((fun _ => 1) <$> List.filter (fun kw => PyStr.contains kw query_lower) keywords).

Definition _fallback_routing (query : string) : Result State.AgentRoutingDecision :=
  let query_lower := PyStr.lower query in
  let booking_score := keyword_score booking_keywords query_lower in
  let policy_score := keyword_score policy_keywords query_lower in
  let '(agent_type, confidence, reasoning) :=
    if Nat.ltb policy_score booking_score && Nat.ltb 0 booking_score
    then ("booking_payments",
          PyFloat.min 0.8 (0.5 + PyFloat.of_nat booking_score * 0.1)%float,
          "Matched booking/payment keywords")
    else if Nat.ltb 0 policy_score
    then ("policy",
          PyFloat.min 0.8 (0.5 + PyFloat.of_nat policy_score * 0.1)%float,
          "Matched policy keywords")
    else ("travel_support", 0.6%float, "Default fallback to travel support") in
  State.AgentRoutingDecision_init (PyStr agent_type) confidence (PyStr reasoning).

Definition known_agent_types : list string :=
  ["travel_support"; "booking_payments"; "policy"].

(** First half of the [try] block: the JSON object is looked for between
    the first opening and the last closing brace of the stripped reply. *)
Definition parse_response `{Services} (content : string) : Result pyobj :=
  let response_text := PyStr.strip content in
  let json_start := PyStr.find "{" response_text in
  let json_end := (PyStr.rfind "}" response_text + 1)%Z in
  if (0 <=? json_start)%Z && (json_start <? json_end)%Z
  then json_loads (PyStr.slice response_text json_start json_end)
  else json_loads response_text.

(** [max(0.0, min(1.0, confidence))] *)
Definition clamp (confidence : float) : float :=
  PyFloat.max 0 (PyFloat.min 1 confidence).

(** Second half of the [try] block: validation of the parsed reply and
    construction of the decision. *)
Definition validated_decision `{Services} (routing_data : pyobj)
  : Result State.AgentRoutingDecision :=
  agent_type ← PyObj.get routing_data "agent_type" (PyStr "travel_support");
  let agent_type :=
    if negb (PyObj.in_strs agent_type known_agent_types)
    then PyStr "travel_support" else agent_type in
  raw ← PyObj.get routing_data "confidence" (PyFloat 0.7);
  confidence ← PyObj.to_float raw;
  let confidence := clamp confidence in
  reasoning ← PyObj.get routing_data "reasoning" (PyStr "No reasoning provided");
  State.AgentRoutingDecision_init agent_type confidence reasoning.

Definition routing_messages (query : string) : list LcMessage :=
  let human_prompt := "Route this query: " +:+ query in
  [SystemMessage system_prompt; HumanMessage human_prompt].

Definition route_query `{Services} (query : string) : IO State.AgentRoutingDecision :=
  try_except
    (let messages := routing_messages query in
     content ← call (LlmInvoke llm messages) (fun tr => llm_invoke tr llm messages);
     routing_data ← lift (parse_response content);
     lift (validated_decision routing_data))
    (fun e =>
       match e with
       | JSONDecodeError => lift (_fallback_routing query)
       | _ => lift (_fallback_routing query)
       end).

End OrchestratorAgent.

(** ** [app/retrieval/rag.py] *)

(** A retrieved document: a dict with the keys [content] and [metadata],
  and [distance] and [similarity] when they have been set. *)
Record Doc := {
content : string;
metadata : gmap string string;
distance : option float;
similarity : option float;
}.

Module RAGRetriever.

(** [l[i]] *)
Definition index {A} (l : list A) (i : nat) : Result A :=
  match l !! i with
  | Some x => Ok x
  | None => Raise IndexError
  end.

(** The body of the loop over [range(len(results["documents"][0]))]. *)
Definition format_doc (results : Chroma.QueryResult) (docs0 : list string) (i : nat)
  : Result Doc :=
  c ← index docs0 i;
  m ← match Chroma.metadatas results with
      | Some (m0 :: _) => index m0 i
      | _ => Ok ∅
      end;
  d ← match Chroma.distances results with
      | Some ((_ :: _) as d0 :: _) => Some <$> index d0 i
      | _ => Ok None
      end;
  Ok {| content := c; metadata := m; distance := d; similarity := None |}.

Definition format_results (results : Chroma.QueryResult) : Result (list Doc) :=
  match Chroma.documents results with
  | Some (docs0 :: _) => mapM (format_doc results docs0) (seq 0 (length docs0))
  | _ => Ok []
  end.

(** [RAGRetriever(collection_name)]: the collection is loaded when the
    retriever is constructed; a collection that cannot be loaded is
    logged and the exception raised again. *)
Definition init `{Services} (collection_name : option string) : IO unit :=
  try_except
    (call (GetCollection collection_name)
       (fun tr => get_collection tr collection_name))
    (fun e => raise e).

Definition retrieve `{Services}
    (query agent_type : string) (top_k : Z)
    (filter_metadata : option (gmap string string)) : IO (list Doc) :=
  try_except
    (query_embedding ← call (EmbedQuery query) (fun tr => embed_query tr query);
     let where_clause : gmap string string := {[ "agent_type" := agent_type ]} in
     let where_clause :=
       match filter_metadata with
       | Some extra => extra ∪ where_clause
       | None => where_clause
       end in
     results ← call (CollectionQuery query_embedding top_k where_clause)
                 (fun tr => collection_query tr query_embedding top_k where_clause);
     lift (format_results results))
    (fun e => mret []).

(** [1 - distance if distance <= 1.0 else 0], the distance defaulting
    to [1.0]. *)
Definition similarity_of (doc : Doc) : float :=
  let distance := default 1%float (distance doc) in
  if (distance <=? 1)%float then (1 - distance)%float else 0%float.

(** The loop that fills [filtered_docs]. *)
Fixpoint filter_by_score (score_threshold : float) (documents : list Doc) : list Doc :=
  match documents with
  | [] => []
  | doc :: rest =>
      let sim := similarity_of doc in
      if (score_threshold <=? sim)%float
      then {| content := content doc; metadata := metadata doc;
              distance := distance doc; similarity := Some sim |}
           :: filter_by_score score_threshold rest
      else filter_by_score score_threshold rest
  end.

Definition retrieve_with_scores `{Services}
    (query agent_type : string) (top_k : Z) (score_threshold : float)
  : IO (list Doc) :=
  documents ← retrieve query agent_type top_k None;
  mret (filter_by_score score_threshold documents).

End RAGRetriever.

(** ** [app/retrieval/cag.py] *)

Module CAGRetriever.

Record t := { cached_documents : gmap string (list string) }.

Definition init : t := {| cached_documents := ∅ |}.

(** [load_documents]: one read of the corpus directory. A missing or
    empty directory and unreadable files are absorbed there, so the
    call yields a list and never raises. *)
Definition load_documents `{Services} (agent_type : string) : IO (list string) :=
  call (ReadCorpus agent_type) (fun tr => Ok (read_corpus tr)).

Definition cache_documents `{Services} (agent_type : string) (self : t) : IO t :=
  match cached_documents self !! agent_type with
  | None =>
      documents ← load_documents agent_type;
      mret {| cached_documents := <[agent_type := documents]> (cached_documents self) |}
  | Some _ => mret self
  end.

Definition get_cached_documents `{Services} (agent_type : string) (self : t)
  : IO (list string * t) :=
  self ← match cached_documents self !! agent_type with
         | None => cache_documents agent_type self
         | Some _ => mret self
         end;
  mret (default [] (cached_documents self !! agent_type), self).

(** The loop of [search_cached]: the documents in which at least one
    query term occurs. *)
Definition matching_docs (query : string) (case_sensitive : bool)
    (documents : list string) : list string :=
  let query_terms :=
    if negb case_sensitive then PyStr.split (PyStr.lower query)
    else PyStr.split query in
  List.filter
    (fun doc =>
       let doc_lower := if case_sensitive then doc else PyStr.lower doc in
       existsb (fun term => PyStr.contains term doc_lower) query_terms)
    documents.

Definition search_cached `{Services}
    (query agent_type : string) (case_sensitive : bool) (self : t)
  : IO (list string * t) :=
  '(documents, self) ← get_cached_documents agent_type self;
  mret (matching_docs query case_sensitive documents, self).

(** [clear_cache(agent_type=None)]: an absent or empty name clears
    every entry. *)
Definition clear_cache (agent_type : option string) (self : t) : t :=
  match agent_type with
  | Some (String _ _ as a) =>
      {| cached_documents := delete a (cached_documents self) |}
  | _ => {| cached_documents := ∅ |}
  end.

End CAGRetriever.

(** ** [app/retrieval/hybrid.py] *)

Module HybridRetriever.

Record t := {
  cag_retriever : CAGRetriever.t;
  static_policy_cache : list string;
  cache_initialized : bool;
}.

(** The two lists a retrieval returns under the keys [dynamic] and
    [static]. *)
Record Results := { dynamic : list Doc; static : list Doc }.

(** The state [__init__] leaves, the semantic retriever being at hand. *)
Definition init (cag_retriever : option CAGRetriever.t) : t :=
  {| cag_retriever := default CAGRetriever.init cag_retriever;
     static_policy_cache := [];
     cache_initialized := false |}.

(** [HybridRetriever(cag_retriever=...)] with no semantic retriever
    given: [RAGRetriever(collection_name=None)] is constructed first,
    and what it raises leaves the constructor. *)
Definition create `{Services} (cag_retriever : option CAGRetriever.t) : IO t :=
  _ ← RAGRetriever.init None;
  mret (init cag_retriever).

Definition policy_keywords : list string :=
  ["payment"; "cancellation"; "refund"; "booking"; "terms"].

(** The loop of [initialize_cache]: the policy documents in which at
    least one of the keywords occurs. *)
Definition relevant_policies (policy_docs : list string) : list string :=
  List.filter
    (fun doc =>
       let doc_lower := PyStr.lower doc in
       existsb (fun keyword => PyStr.contains keyword doc_lower) policy_keywords)
    policy_docs.

Definition initialize_cache `{Services} (agent_type : string) (self : t) : IO t :=
  if negb (cache_initialized self) then
    cag ← CAGRetriever.cache_documents "policy" (cag_retriever self);
    '(policy_docs, cag) ← CAGRetriever.get_cached_documents "policy" cag;
    mret {| cag_retriever := cag;
            static_policy_cache := relevant_policies policy_docs;
            cache_initialized := true |}
  else mret self.

(** The dict a cached policy document is wrapped in. *)
Definition static_doc (policy_doc : string) : Doc :=
  {| content := policy_doc;
     metadata := {[ "agent_type" := "policy";
                    "document_type" := "static_policy";
                    "source" := "cached" ]};
     distance := None;
     similarity := None |}.

Definition retrieve `{Services}
    (query agent_type : string) (top_k : Z) (include_static : bool) (self : t)
  : IO (Results * t) :=
  self ← (if negb (cache_initialized self)
          then initialize_cache agent_type self else mret self);
  dynamic_docs ← try_except (RAGRetriever.retrieve query agent_type top_k None)
                    (fun e => mret []);
  if include_static then
    '(matching_policies, cag) ←
      CAGRetriever.search_cached query "policy" false (cag_retriever self);
    let static_docs := static_doc <$> take 3 matching_policies in
    mret ({| dynamic := dynamic_docs; static := static_docs |},
          {| cag_retriever := cag;
             static_policy_cache := static_policy_cache self;
             cache_initialized := cache_initialized self |})
  else mret ({| dynamic := dynamic_docs; static := [] |}, self).

Definition get_static_policies `{Services} (self : t) : IO (list string * t) :=
  self ← (if negb (cache_initialized self)
          then initialize_cache "booking_payments" self else mret self);
  mret (static_policy_cache self, self).

Definition clear_cache (self : t) : t :=
  {| cag_retriever := CAGRetriever.clear_cache None (cag_retriever self);
     static_policy_cache := [];
     cache_initialized := false |}.

End HybridRetriever.

(** ** The three answering agents ([app/agents]) *)

(** An entry of [conversation_history]: a dict with the keys [role] and
  [content]. *)
Module History.

Record entry := { role : string; content : string }.

End History.

(** The [try] block that ends [generate_response]. The three agents
  repeat it word for word; they differ in the chat model, the system
  prompt and the user prompt they pass to it. *)
Module Agent.

Definition nl : string := String (ascii_of_nat 10) EmptyString.

Definition apology_empty : string :=
  "I apologize, but I couldn't generate a response. Please try again or contact customer support.".

Definition apology_error : string :=
  "I apologize, but I encountered an error while generating a response. Please try again or contact customer support.".

(** [l[-4:]] *)
Definition last4 {A} (l : list A) : list A := drop (length l - 4) l.

(** The messages the loop over [conversation_history[-4:]] appends. *)
Definition history_messages (conversation_history : option (list History.entry))
  : list LcMessage :=
  match conversation_history with
  | Some h =>
      (fun msg => HumanMessage (History.content msg)) <$>
      List.filter (fun msg => String.eqb (History.role msg) "user") (last4 h)
  | None => []
  end.

Definition prompt_messages (system_prompt : string)
    (conversation_history : option (list History.entry)) (user_prompt : string)
  : list LcMessage :=
  [SystemMessage system_prompt] ++ history_messages conversation_history
    ++ [HumanMessage user_prompt].

Definition respond `{Services} (llm : ChatModel) (system_prompt : string)
    (conversation_history : option (list History.entry)) (user_prompt : string)
  : IO string :=
  try_except
    (let messages := prompt_messages system_prompt conversation_history user_prompt in
     content ← call (LlmInvoke llm messages) (fun tr => llm_invoke tr llm messages);
     let response_content :=
       if PyStr.truthy content then PyStr.strip content else EmptyString in
     if negb (PyStr.truthy response_content)
     then mret apology_empty
     else mret response_content)
    (fun e => mret apology_error).

End Agent.

Module TravelSupportAgent.

Definition llm : ChatModel := {| provider := OpenAI; temperature := 0.7 |}.

Definition system_prompt : string :=
  "You are a helpful travel support agent for a travel agency.
Your role is to provide accurate, friendly, and helpful information about travel destinations,
itineraries, travel tips, and general travel advice.

Use the provided context documents to answer questions accurately. If the context doesn't contain
enough information to fully answer the question, say so and provide what information you can.

IMPORTANT FORMATTING GUIDELINES:
- Keep responses concise and well-structured
- Use bullet points (-) or numbered lists (1., 2., 3.) for multiple items
- Use bold text (**text**) for emphasis on important terms like dates, prices, or key information
- Use section headings (### Heading) to organize content into clear sections
- Break long responses into clear sections with line breaks between sections
- When asking follow-up questions, format them as a simple numbered or bulleted list
- Keep paragraphs to 2-3 sentences maximum
- Ensure proper spacing: leave blank lines between major sections

Always be friendly, professional, and helpful. Provide practical, actionable advice.".

Definition context_part (i : nat) (doc : Doc) : string :=
  let source := default "unknown" (metadata doc !! "source_file") in
  "[Document " +:+ PyStr.of_nat (S i) +:+ " from " +:+ source +:+ "]
" +:+ content doc +:+ "
".

Definition user_prompt (context query : string) : string :=
  "Context from knowledge base:
" +:+ context +:+ "

User question: " +:+ query +:+ "

Provide a helpful, concise, and well-structured response based on the context above. 
If the context doesn't fully answer the question, acknowledge this and provide the best answer you can.
Format your response clearly with appropriate structure (bullets, sections, etc.) for easy reading.".

Definition generate_response `{Services}
    (query : string) (conversation_history : option (list History.entry))
    (top_k : Z) : IO string :=
  retrieved_docs ← RAGRetriever.retrieve query "travel_support" top_k None;
  let context_parts := imap context_part retrieved_docs in
  let context := PyStr.join (Agent.nl +:+ "---" +:+ Agent.nl) context_parts in
  Agent.respond llm system_prompt conversation_history (user_prompt context query).

End TravelSupportAgent.

Module PolicyAgent.

Record t := { retriever : CAGRetriever.t }.

Definition llm : ChatModel := {| provider := OpenAI; temperature := 0.3 |}.

Definition init `{Services} (cag_retriever : option CAGRetriever.t) : IO t :=
  r ← CAGRetriever.cache_documents "policy" (default CAGRetriever.init cag_retriever);
  mret {| retriever := r |}.

Definition system_prompt : string :=
  "You are a policy and compliance specialist for a travel agency.
Your role is to provide accurate information about:
- Cancellation policies and refund terms
- Terms of Service
- Travel insurance policies
- Baggage policies
- Other policy-related questions

Use the provided policy documents to answer questions accurately. Always be precise and reference
specific policy terms when relevant. If a policy document doesn't contain information about a
specific question, clearly state that.

Be professional, clear, and ensure you're providing accurate policy information.".

Definition context_part (i : nat) (policy_doc : string) : string :=
  "[Policy Document " +:+ PyStr.of_nat (S i) +:+ "]
" +:+ policy_doc +:+ "
".

Definition user_prompt (context query : string) : string :=
  "Policy Documents:
" +:+ context +:+ "

User question: " +:+ query +:+ "

Provide a precise response based on the policy documents above. Quote specific policy terms when relevant.".

Definition generate_response `{Services}
    (query : string) (conversation_history : option (list History.entry))
    (top_k : Z) (self : t) : IO (string * t) :=
  '(matching_policies, r) ←
    CAGRetriever.search_cached query "policy" false (retriever self);
  '(matching_policies, r) ←
    match matching_policies with
    | [] =>
        '(all_docs, r) ← CAGRetriever.get_cached_documents "policy" r;
        mret (take 3 all_docs, r)
    | _ => mret (matching_policies, r)
    end;
  let context_parts := imap context_part (take 5 matching_policies) in
  let context := PyStr.join (Agent.nl +:+ "---" +:+ Agent.nl) context_parts in
  response ← Agent.respond llm system_prompt conversation_history
               (user_prompt context query);
  mret (response, {| retriever := r |}).

End PolicyAgent.

Module BookingPaymentsAgent.

Record t := { retriever : HybridRetriever.t }.

Definition llm : ChatModel := {| provider := OpenAI; temperature := 0.5 |}.

(** [hybrid_retriever or HybridRetriever()], then the cache is
    initialized. *)
Definition init `{Services} (hybrid_retriever : option HybridRetriever.t) : IO t :=
  r ← match hybrid_retriever with
      | Some r => mret r
      | None => HybridRetriever.create None
      end;
  r ← HybridRetriever.initialize_cache "booking_payments" r;
  mret {| retriever := r |}.

Definition system_prompt : string :=
  "You are a booking and payments specialist for a travel agency.
Your role is to help customers with:
- Package pricing and costs
- Payment methods and processes
- Booking information and invoices
- Pricing details for flights, hotels, and packages

Use the provided context documents (both dynamic pricing info and static policies) to answer
questions accurately. Always reference specific pricing when available, and note that prices
may vary based on dates, availability, and other factors.

Be professional, clear, and helpful. When discussing pricing, be specific about what's included.".

Definition dynamic_part (i : nat) (doc : Doc) : string :=
  let source := default "unknown" (metadata doc !! "source_file") in
  "[Dynamic Info " +:+ PyStr.of_nat (S i) +:+ " from " +:+ source +:+ "]
" +:+ content doc +:+ "
".

Definition static_part (i : nat) (doc : Doc) : string :=
  "[Policy Information " +:+ PyStr.of_nat (S i) +:+ "]
" +:+ content doc +:+ "
".

Definition user_prompt (dynamic_context static_context query : string) : string :=
  let parts :=
    (if PyStr.truthy dynamic_context
     then ["Dynamic Pricing/Booking Information:
" +:+ dynamic_context] else [])
    ++ (if PyStr.truthy static_context
        then ["Policy Information (Static):
" +:+ static_context] else [])
    ++ (if negb (PyStr.truthy dynamic_context) && negb (PyStr.truthy static_context)
        then ["No specific information found in knowledge base."] else [])
    ++ ["
User question: " +:+ query;
        "
Provide a helpful response based on the context above. Combine dynamic pricing information with policy information as needed."] in
  PyStr.join (Agent.nl +:+ Agent.nl) parts.

Definition generate_response `{Services}
    (query : string) (conversation_history : option (list History.entry))
    (top_k : Z) (self : t) : IO (string * t) :=
  '(retrieval_results, r) ←
    HybridRetriever.retrieve query "booking_payments" top_k true (retriever self);
  let dynamic_docs := HybridRetriever.dynamic retrieval_results in
  let static_docs := HybridRetriever.static retrieval_results in
  let dynamic_context :=
    PyStr.join (Agent.nl +:+ "---" +:+ Agent.nl) (imap dynamic_part dynamic_docs) in
  let static_context :=
    PyStr.join (Agent.nl +:+ "---" +:+ Agent.nl) (imap static_part static_docs) in
  response ← Agent.respond llm system_prompt conversation_history
               (user_prompt dynamic_context static_context query);
  mret (response, {| retriever := r |}).

End BookingPaymentsAgent.

(** ** [app/models/schemas.py] *)

Module Schemas.

Inductive MessageRole := USER | ASSISTANT | SYSTEM.

Definition value (r : MessageRole) : string :=
  match r with
  | USER => "user"
  | ASSISTANT => "assistant"
  | SYSTEM => "system"
  end.

Record Message := {
  role : MessageRole;
  content : string;
  timestamp : option string;
}.

End Schemas.

(** ** [app/chains/graph.py] *)

Module Graph.

(** An element of [state["messages"]]: a [Message], or a dict, of which
    the entries under [role] and [content] are kept when present. *)
Inductive StateMsg :=
| MsgObj (m : Schemas.Message)
| MsgDict (role content : option string).

Record GraphState := {
  messages : list StateMsg;
  current_query : option string;
  routing_decision : option State.AgentRoutingDecision;
  retrieved_context : option pyobj;
  cached_data : option pyobj;
  session_id : option string;
  current_agent : option State.AgentType;
  response : option string;
}.

Definition set_messages (v : list StateMsg) (s : GraphState) : GraphState :=
  {| messages := v; current_query := current_query s;
     routing_decision := routing_decision s;
     retrieved_context := retrieved_context s; cached_data := cached_data s;
     session_id := session_id s; current_agent := current_agent s;
     response := response s |}.

Definition set_current_query (v : option string) (s : GraphState) : GraphState :=
  {| messages := messages s; current_query := v;
     routing_decision := routing_decision s;
     retrieved_context := retrieved_context s; cached_data := cached_data s;
     session_id := session_id s; current_agent := current_agent s;
     response := response s |}.

Definition set_routing (d : State.AgentRoutingDecision) (s : GraphState) : GraphState :=
  {| messages := messages s; current_query := current_query s;
     routing_decision := Some d;
     retrieved_context := retrieved_context s; cached_data := cached_data s;
     session_id := session_id s; current_agent := Some (State.agent_type d);
     response := response s |}.

Definition set_response (v : option string) (s : GraphState) : GraphState :=
  {| messages := messages s; current_query := current_query s;
     routing_decision := routing_decision s;
     retrieved_context := retrieved_context s; cached_data := cached_data s;
     session_id := session_id s; current_agent := current_agent s;
     response := v |}.

(** The test of the comprehension in [entry_node]: a [Message] of role
    [USER], or a dict whose [role] entry is ["user"]. *)
Definition is_user (msg : StateMsg) : bool :=
  match msg with
  | MsgObj m =>
      match Schemas.role m with Schemas.USER => true | _ => false end
  | MsgDict (Some r) _ => String.eqb r "user"
  | MsgDict None _ => false
  end.

Definition entry_node (state : GraphState) : GraphState :=
  let user_messages := List.filter is_user (messages state) in
  match last user_messages with
  | Some last_msg =>
      let query :=
        match last_msg with
        | MsgObj m => Schemas.content m
        | MsgDict _ c => default EmptyString c
        end in
      set_current_query (Some query) state
  | None => set_current_query (Some EmptyString) state
  end.

Definition orchestrator_node `{Services} (state : GraphState) : IO GraphState :=
  match current_query state with
  | Some (String _ _ as query) =>
      try_except
        (decision ← OrchestratorAgent.route_query query;
         mret (set_routing decision state))
        (fun e =>
           mret (set_routing
                   {| State.agent_type := State.travel_support;
                      State.confidence := 0.5;
                      State.reasoning := "Fallback due to orchestrator error" |}
                   state))
  | _ => mret state
  end.

Definition route_agent (state : GraphState) : State.AgentType :=
  match routing_decision state with
  | None => State.travel_support
  | Some decision => State.agent_type decision
  end.

(** The conversion loop that opens the [try] block of each agent node. *)
Definition conversation_history_of (msgs : list StateMsg) : list History.entry :=
  (fun msg =>
     match msg with
     | MsgObj m =>
         {| History.role := Schemas.value (Schemas.role m);
            History.content := Schemas.content m |}
     | MsgDict r c =>
         {| History.role := default "user" r;
            History.content := default EmptyString c |}
     end) <$> msgs.

Definition no_query_apology : string :=
  "I apologize, but I couldn't process your query.".

(** The two assignments that close the [try] block of each agent node. *)
Definition record_response (text : string) (state : GraphState) : GraphState :=
  let state := set_response (Some text) state in
  set_messages
    (messages state ++
       [MsgObj {| Schemas.role := Schemas.ASSISTANT; Schemas.content := text;
                  Schemas.timestamp := None |}])
    state.

Definition travel_support_node `{Services} (state : GraphState) : IO GraphState :=
  match current_query state with
  | Some (String _ _ as query) =>
      try_except
        (let conversation_history := conversation_history_of (messages state) in
         text ← TravelSupportAgent.generate_response query (Some conversation_history) 5;
         mret (record_response text state))
        (fun e =>
           mret (set_response
                   (Some "I apologize, but I encountered an error while processing your travel support question. Please try again.")
                   state))
  | _ => mret (set_response (Some no_query_apology) state)
  end.

Definition booking_payments_node `{Services}
    (booking_agent : BookingPaymentsAgent.t) (state : GraphState)
  : IO (GraphState * BookingPaymentsAgent.t) :=
  match current_query state with
  | Some (String _ _ as query) =>
      try_except
        (let conversation_history := conversation_history_of (messages state) in
         '(text, agent) ← BookingPaymentsAgent.generate_response
                             query (Some conversation_history) 5 booking_agent;
         mret (record_response text state, agent))
        (fun e =>
           mret (set_response
                   (Some "I apologize, but I encountered an error while processing your booking/payment question. Please try again.")
                   state,
                 booking_agent))
  | _ => mret (set_response (Some no_query_apology) state, booking_agent)
  end.

Definition policy_node `{Services}
    (policy_agent : PolicyAgent.t) (state : GraphState)
  : IO (GraphState * PolicyAgent.t) :=
  match current_query state with
  | Some (String _ _ as query) =>
      try_except
        (let conversation_history := conversation_history_of (messages state) in
         '(text, agent) ← PolicyAgent.generate_response
                             query (Some conversation_history) 5 policy_agent;
         mret (record_response text state, agent))
        (fun e =>
           mret (set_response
                   (Some "I apologize, but I encountered an error while processing your policy question. Please try again.")
                   state,
                 policy_agent))
  | _ => mret (set_response (Some no_query_apology) state, policy_agent)
  end.

(** The agents the nodes close over; the retrievers of two of them carry
    a cache. *)
Record Agents := {
  booking_agent : BookingPaymentsAgent.t;
  policy_agent : PolicyAgent.t;
}.

(** The node an agent type names in the conditional edges. *)
Definition node `{Services} (name : State.AgentType) (agents : Agents)
    (state : GraphState) : IO (GraphState * Agents) :=
  match name with
  | State.travel_support =>
      state ← travel_support_node state;
      mret (state, agents)
  | State.booking_payments =>
      '(state, agent) ← booking_payments_node (booking_agent agents) state;
      mret (state, {| booking_agent := agent; policy_agent := policy_agent agents |})
  | State.policy =>
      '(state, agent) ← policy_node (policy_agent agents) state;
      mret (state, {| booking_agent := booking_agent agents; policy_agent := agent |})
  end.

(** One run of the compiled workflow: [entry], [orchestrator], the node
    [route_agent] selects, then [END]. *)
Definition invoke `{Services} (agents : Agents) (initial_state : GraphState)
  : IO (GraphState * Agents) :=
  let state := entry_node initial_state in
  state ← orchestrator_node state;
  node (route_agent state) agents state.

End Graph.

(** ** [app.main]: the streaming of a response *)

Module Main.

Definition no_response : string :=
  "I apologize, but I couldn't generate a response. Please try again.".

(** The text [stream_response] and [chat_endpoint] go on with: the
    response of the graph, or the apology when it is [None], empty or
    blank. *)
Definition effective_response (response_text : option string) : string :=
  match response_text with
  | Some text =>
      if negb (PyStr.truthy text) || negb (PyStr.truthy (PyStr.strip text))
      then no_response else text
  | None => no_response
  end.

(** The strings [stream_response] yields once the graph has returned. *)
Definition stream_events (response_text : option string) : list string :=
  let response_text := effective_response response_text in
  let tokens := PyStr.split response_text in
  match tokens with
  | [] => ["data: " +:+ no_response +:+ Agent.nl +:+ Agent.nl]
  | _ =>
      imap (fun i token =>
              if Nat.eqb i 0
              then "data: " +:+ token +:+ Agent.nl +:+ Agent.nl
              else "data:  " +:+ token +:+ Agent.nl +:+ Agent.nl) tokens
  end.

End Main.

(** ** [scripts.ingest_data]: chunking and chunk metadata *)

Module DocumentIngester.

Section Splitter.

(** [RecursiveCharacterTextSplitter(chunk_size, chunk_overlap, len,
    separators).split_text] of LangChain, by its two sizes. *)
Variable split_text : Z -> Z -> string -> list string.

Definition chunk_document (content agent_type : string)
    (chunk_size chunk_overlap : Z) : list (string * gmap string string) :=
  let '(chunk_size, chunk_overlap) :=
    if String.eqb agent_type "policy" then (2000, 100)%Z
    else if String.eqb agent_type "booking_payments" then (1500, 200)%Z
    else if PyStr.contains "faq" (PyStr.lower content)
            || PyStr.contains "question" (PyStr.lower content)
         then (800, 150)%Z
         else (1200, 200)%Z in
  let chunks := split_text chunk_size chunk_overlap content in
  imap (fun i chunk =>
          (chunk,
           ({[ "agent_type" := agent_type;
               "chunk_index" := PyStr.of_nat i;
               "total_chunks" := PyStr.of_nat (length chunks) ]}
            : gmap string string)))
       chunks.

(** The body of the loop of [load_documents_from_directory] for one
    file, from the result of [parse_metadata] on: the file-level
    metadata, the chunking, and the metadata every chunk is given. *)
Definition file_chunks (parsed : gmap string string)
    (cleaned_content file_name agent_type : string)
  : list (string * gmap string string) :=
  let metadata := <["agent_type" := agent_type]> parsed in
  let metadata := <["source_file" := file_name]> metadata in
  let metadata :=
    <["document_type" := default "general" (metadata !! "document_type")]> metadata in
  let chunks := chunk_document cleaned_content agent_type 1000 200 in
  (fun '(chunk_text, chunk_metadata) =>
     (chunk_text,
      ({[ "source_file" := default EmptyString (metadata !! "source_file");
          "document_type" := default "general" (metadata !! "document_type");
          "destination" := default EmptyString (metadata !! "destination");
          "last_updated" := default EmptyString (metadata !! "last_updated");
          "effective_date" := default EmptyString (metadata !! "effective_date") ]}
       : gmap string string) ∪ chunk_metadata)) <$> chunks.

End Splitter.

End DocumentIngester.

(** ** Stand-ins for the external services

    Concrete services, for evaluating the embedding on given inputs: the
    chat models answer [reply] (by model), [json.loads] yields [parsed],
    the vector store answers [store], and the corpus directory holds
    [corpus]. *)

Module Doubles.

Definition services (reply : ChatModel -> Result string) (parsed : Result pyobj)
    (store : Result Chroma.QueryResult) (corpus : list string) : Services :=
  {| llm_invoke := fun _ llm _ => reply llm;
     embed_query := fun _ _ => Ok [];
     collection_query := fun _ _ _ _ => store;
     read_corpus := fun _ => corpus;
     json_loads := fun _ => parsed;
     float_of_str := fun _ => Raise ValueError;
     get_collection := fun _ _ =>
       match store with Ok _ => Ok tt | Raise e => Raise e end |}.

(** Every provider is down and the corpus directory is empty. *)
Definition offline : Services :=
  services (fun _ => Raise ServiceError) (Raise JSONDecodeError)
    (Raise ServiceError) [].

End Doubles.

(** * Verification *)

(** ** Substrings *)

Section Substrings.

(** [sub] occurs in [s]. *)
Definition substring_of (sub s : string) : Prop :=
  exists pre post, s = pre +:+ sub +:+ post.

Lemma startswith_spec p s :
  PyStr.startswith p s = true <-> exists post, s = p +:+ post.
Proof.
  revert s. induction p as [|a p IH]; intros s; simpl.
  - split; [intros _; by exists s | done].
  - destruct s as [|b s]; simpl.
    + split; [done | intros [post Hp]; discriminate].
    + rewrite andb_true_iff, IH, Ascii.eqb_eq. split.
      * intros [-> [post ->]]. by exists post.
      * intros [post Hp]. injection Hp as -> ->. eauto.
Qed.

Lemma contains_spec sub s :
  PyStr.contains sub s = true <-> substring_of sub s.
Proof.
  unfold substring_of. induction s as [|c s IH]; simpl.
  - rewrite orb_false_r, startswith_spec. split.
    + intros [post Hp]. by exists EmptyString, post.
    + intros [[|? pre] [post Hp]]; [by exists post | discriminate].
  - rewrite orb_true_iff, startswith_spec, IH. split.
    + intros [[post Hp] | (pre & post & ->)].
      * by exists EmptyString, post.
      * by exists (String c pre), post.
    + intros [[|c' pre] [post Hp]].
      * left. by exists post.
      * right. injection Hp as -> ->. eauto.
Qed.

#[global] Instance substring_of_dec sub s : Decision (substring_of sub s).
Proof.
  destruct (PyStr.contains sub s) eqn:E.
  - left. by apply contains_spec.
  - right. intros H. apply contains_spec in H. congruence.
Defined.

End Substrings.

(** ** The keyword fallback of the query router *)

Section Fallback.

Import OrchestratorAgent.

(** The number of members of a keyword set that occur in a text. *)
Definition keyword_matches (keywords : gset string) (text : string) : nat :=
  size (filter (fun kw => substring_of kw text) keywords).

Lemma sum_ones {A} (l : list A) : sum_list ((fun _ => 1) <$> l) = length l.
Proof. induction l; simpl; auto. Qed.

Lemma keyword_score_length keywords text :
  keyword_score keywords text =
  length (List.filter (fun kw => PyStr.contains kw text) keywords).
Proof. apply sum_ones. Qed.

Lemma keyword_score_le keywords text :
  keyword_score keywords text <= length keywords.
Proof. rewrite keyword_score_length. apply List.filter_length_le. Qed.

(** On a list without repetition the score counts the members of the set. *)
Lemma keyword_score_matches keywords text :
  NoDup keywords ->
  keyword_score keywords text = keyword_matches (list_to_set keywords) text.
Proof.
  intros Hnd. rewrite keyword_score_length. unfold keyword_matches.
  assert (Heq : filter (fun kw => substring_of kw text) (list_to_set keywords)
                = (list_to_set
                     (List.filter (fun kw => PyStr.contains kw text) keywords)
                   : gset string)).
  { apply set_eq. intros kw.
    rewrite elem_of_filter, !elem_of_list_to_set, !list_elem_of_In.
    rewrite List.filter_In, contains_spec. tauto. }
  rewrite Heq, size_list_to_set; [done|].
  apply NoDup_ListNoDup, List.NoDup_filter. by apply NoDup_ListNoDup.
Qed.

Lemma booking_keywords_NoDup : NoDup booking_keywords.
Proof. apply (bool_decide_unpack _). vm_compute. exact I. Qed.

Lemma policy_keywords_NoDup : NoDup policy_keywords.
Proof. apply (bool_decide_unpack _). vm_compute. exact I. Qed.

(** The confidence the fallback computes from a score. *)
Definition fallback_confidence (score : nat) : float :=
  PyFloat.min 0.8 (0.5 + PyFloat.of_nat score * 0.1)%float.

Ltac each_score n :=
  do 12 (destruct n as [|n]; [vm_compute; auto|]); lia.

(** For every score the two lists allow, the confidence passes the
    validation of the decision, and the order of the factors does not
    matter. *)
Lemma fallback_confidence_valid score :
  score <= 11 ->
  ((0 <=? fallback_confidence score) && (fallback_confidence score <=? 1))%float
  = true.
Proof. intros H. each_score score. Qed.

Lemma fallback_confidence_comm score :
  score <= 11 ->
  fallback_confidence score
  = PyFloat.min 0.8 (0.5 + 0.1 * PyFloat.of_nat score)%float.
Proof. intros H. each_score score. Qed.

(** The confidence is 0.6 for one match, 0.7 for two and 0.8 from three on. *)
Lemma fallback_confidence_table score :
  1 <= score <= 11 ->
  fallback_confidence score
  = match score with 1 => 0.6 | 2 => 0.7 | _ => 0.8 end%float.
Proof.
  intros [H1 H2]. destruct score as [|score]; [lia|].
  do 11 (destruct score as [|score]; [vm_compute; auto|]); lia.
Qed.

End Fallback.

Section FallbackDecision.

Import OrchestratorAgent.

Lemma booking_score_le text : keyword_score booking_keywords text <= 11.
Proof. apply (keyword_score_le booking_keywords). Qed.

Lemma policy_score_le text : keyword_score policy_keywords text <= 11.
Proof. pose proof (keyword_score_le policy_keywords text) as H. simpl in H. lia. Qed.

(** The decision the fallback returns, by the two scores of the source. *)
Lemma fallback_routing_eq query :
  let q := PyStr.lower query in
  let b := keyword_score booking_keywords q in
  let p := keyword_score policy_keywords q in
  _fallback_routing query =
  Ok (if Nat.ltb p b && Nat.ltb 0 b
      then {| State.agent_type := State.booking_payments;
              State.confidence := fallback_confidence b;
              State.reasoning := "Matched booking/payment keywords" |}
      else if Nat.ltb 0 p
      then {| State.agent_type := State.policy;
              State.confidence := fallback_confidence p;
              State.reasoning := "Matched policy keywords" |}
      else {| State.agent_type := State.travel_support;
              State.confidence := 0.6;
              State.reasoning := "Default fallback to travel support" |}).
Proof.
  intros q b p. unfold _fallback_routing. fold q. fold b. fold p.
  pose proof (booking_score_le q) as Hb. pose proof (policy_score_le q) as Hp.
  fold b in Hb. fold p in Hp.
  destruct (Nat.ltb p b && Nat.ltb 0 b).
  - unfold State.AgentRoutingDecision_init. simpl State.of_value.
    fold (fallback_confidence b). by rewrite fallback_confidence_valid.
  - destruct (Nat.ltb 0 p).
    + unfold State.AgentRoutingDecision_init. simpl State.of_value.
      fold (fallback_confidence p). by rewrite fallback_confidence_valid.
    + reflexivity.
Qed.

(** C1. For every query, the keyword fallback scores the lower-cased
    query by the number of members of each keyword set that occur in it
    as substrings, and returns a decision: [booking_payments] with
    confidence [min(0.8, 0.5 + 0.1 * booking_score)] when the booking
    score is positive and strictly above the policy score; otherwise
    [policy] with confidence [min(0.8, 0.5 + 0.1 * policy_score)] when
    the policy score is positive (equal non-zero scores included);
    otherwise [travel_support] with confidence 0.6. *)
Theorem fallback_routing_spec (query : string) :
  let q := PyStr.lower query in
  let booking_score := keyword_matches (list_to_set booking_keywords) q in
  let policy_score := keyword_matches (list_to_set policy_keywords) q in
  keyword_score booking_keywords q = booking_score /\
  keyword_score policy_keywords q = policy_score /\
  exists d,
    _fallback_routing query = Ok d /\
    if decide (policy_score < booking_score /\ 0 < booking_score) then
      State.agent_type d = State.booking_payments /\
      State.confidence d
      = PyFloat.min 0.8 (0.5 + 0.1 * PyFloat.of_nat booking_score)%float
    else if decide (0 < policy_score) then
      State.agent_type d = State.policy /\
      State.confidence d
      = PyFloat.min 0.8 (0.5 + 0.1 * PyFloat.of_nat policy_score)%float
    else
      State.agent_type d = State.travel_support /\
      State.confidence d = 0.6%float.
Proof.
  intros q booking_score policy_score.
  assert (Hb : keyword_score booking_keywords q = booking_score)
    by apply keyword_score_matches, booking_keywords_NoDup.
  assert (Hp : keyword_score policy_keywords q = policy_score)
    by apply keyword_score_matches, policy_keywords_NoDup.
  split; [exact Hb|]. split; [exact Hp|].
  pose proof (booking_score_le q) as Hb11. pose proof (policy_score_le q) as Hp11.
  rewrite Hb in Hb11. rewrite Hp in Hp11.
  eexists. split; [apply fallback_routing_eq|].
  fold q. rewrite Hb, Hp. clear Hb Hp. clearbody booking_score policy_score.
  destruct (decide (policy_score < booking_score /\ 0 < booking_score)) as [[H1 H2]|Hn].
  - assert (Nat.ltb policy_score booking_score && Nat.ltb 0 booking_score = true) as ->.
    { apply andb_true_iff; split; apply Nat.ltb_lt; lia. }
    split; [reflexivity|]. by apply fallback_confidence_comm.
  - assert (Nat.ltb policy_score booking_score && Nat.ltb 0 booking_score = false) as ->.
    { apply andb_false_iff.
      destruct (Nat.ltb_spec policy_score booking_score);
        destruct (Nat.ltb_spec 0 booking_score); auto. lia. }
    destruct (decide (0 < policy_score)) as [H3|H3].
    + assert (Nat.ltb 0 policy_score = true) as -> by (apply Nat.ltb_lt; lia).
      split; [reflexivity|]. by apply fallback_confidence_comm.
    + assert (Nat.ltb 0 policy_score = false) as -> by (apply Nat.ltb_ge; lia).
      split; reflexivity.
Qed.

End FallbackDecision.

(** ** The router falls back when the classifier fails *)

Section RouterFallback.

Import OrchestratorAgent.

Context `{Services}.

(** Unfolds the monad of the embedding. *)
Ltac io_unfold :=
  unfold try_except, call, lift, mbind, mret, IO_bind, IO_ret in *.

Lemma route_query_classifier_down query tr e :
  llm_invoke tr llm (routing_messages query) = Raise e ->
  route_query query tr
  = (_fallback_routing query, tr ++ [LlmInvoke llm (routing_messages query)]).
Proof.
  intros Hdown. unfold route_query. io_unfold. rewrite Hdown.
  by destruct e.
Qed.

End RouterFallback.

Section ScenarioA.

Import OrchestratorAgent.

Definition scenario_A_query : string := "How much does the Bali package cost?".

(** C5, as stated, does not hold: on the query of scenario A the booking
    score is not 1 and the confidence is not 0.6. *)
Lemma scenario_A_as_stated_fails :
  ~ (keyword_score booking_keywords (PyStr.lower scenario_A_query) = 1 /\
     keyword_score policy_keywords (PyStr.lower scenario_A_query) = 0 /\
     exists d, _fallback_routing scenario_A_query = Ok d /\
               State.agent_type d = State.booking_payments /\
               State.confidence d = 0.6%float).
Proof. intros [Hscore _]. vm_compute in Hscore. discriminate. Qed.

(** C5, amended. On the query of scenario A, when the call to the
    classifier fails, the router answers with the fallback: three booking
    keywords occur in the lower-cased query ([cost], [package] and
    [how much]) and no policy keyword, so the booking score is 3, the
    policy score 0, and the decision is [booking_payments] with
    confidence 0.8, which is above 0.6. *)
Theorem scenario_A_fallback `{Services} tr e :
  llm_invoke tr llm (routing_messages scenario_A_query) = Raise e ->
  let q := PyStr.lower scenario_A_query in
  List.filter (fun kw => PyStr.contains kw q) booking_keywords
  = ["cost"; "package"; "how much"] /\
  keyword_score booking_keywords q = 3 /\
  keyword_score policy_keywords q = 0 /\
  (route_query scenario_A_query tr).1
  = Ok {| State.agent_type := State.booking_payments;
          State.confidence := 0.8;
          State.reasoning := "Matched booking/payment keywords" |} /\
  (0.6 <? 0.8)%float = true.
Proof.
  intros Hdown q. rewrite (route_query_classifier_down _ _ _ Hdown).
  repeat split; vm_compute; reflexivity.
Qed.

Lemma scenario_A_fallback_witness :
  (route_query (H:=Doubles.offline) scenario_A_query []).1
  = Ok {| State.agent_type := State.booking_payments;
          State.confidence := 0.8;
          State.reasoning := "Matched booking/payment keywords" |}.
Proof.
  apply (scenario_A_fallback (H:=Doubles.offline) [] ServiceError). reflexivity.
Defined.

End ScenarioA.

(** ** Binary64 facts used by the clamps *)

Section FloatFacts.

Lemma float_ltb_leb (a b : float) : (a <? b)%float = true -> (a <=? b)%float = true.
Proof.
  rewrite ltb_spec, leb_spec. unfold SFltb, SFleb.
  by destruct (SFcompare (Prim2SF a) (Prim2SF b)) as [[]|].
Qed.

(** [max(0.0, min(1.0, c))] lies between 0 and 1 for every binary64
    value [c], the infinities and NaN included. *)
Lemma clamp_range (c : float) :
  (0 <=? OrchestratorAgent.clamp c)%float = true /\
  (OrchestratorAgent.clamp c <=? 1)%float = true.
Proof.
  unfold OrchestratorAgent.clamp, PyFloat.max, PyFloat.min.
  destruct (c <? 1)%float eqn:Hc1.
  - destruct (0 <? c)%float eqn:H0c.
    + split; by apply float_ltb_leb.
    + split; reflexivity.
  - split; reflexivity.
Qed.

(** A value already between 0 and 1 is left as it is. *)
Lemma clamp_id (c : float) :
  (0 <? c)%float = true -> (c <? 1)%float = true -> OrchestratorAgent.clamp c = c.
Proof.
  intros H0 H1. unfold OrchestratorAgent.clamp, PyFloat.max, PyFloat.min.
  by rewrite H1, H0.
Qed.

(** The binary64 value 1. *)
Definition SF_one : spec_float := S754_finite false 4503599627370496 (-52).

Lemma SFcompare_refl x : x <> S754_nan -> SFcompare x x = Some Eq.
Proof.
  intros Hx. destruct x as [s|s| |s m e]; [reflexivity|by destruct s|done|].
  unfold SFcompare. rewrite Z.compare_refl.
  pose proof (Pos.compare_refl m) as Hm. unfold Pos.compare in Hm. rewrite Hm.
  by destruct s.
Qed.

Lemma is_nan_spec (c : float) : is_nan c = true -> Prim2SF c = S754_nan.
Proof.
  unfold is_nan. rewrite FloatAxioms.eqb_spec. unfold SFeqb. intros Hn.
  destruct (Prim2SF c) as [s|s| |s m e] eqn:Hc; [| |reflexivity|].
  - discriminate Hn.
  - by destruct s.
  - rewrite (SFcompare_refl (S754_finite s m e)) in Hn by discriminate.
    discriminate Hn.
Qed.

Lemma ltb_nan_l (c d : float) : is_nan c = true -> (c <? d)%float = false.
Proof. intros Hn. rewrite ltb_spec, (is_nan_spec c Hn). reflexivity. Qed.

Lemma ge_one_not_lt (c : float) :
  (1 <=? c)%float = true -> (c <? 1)%float = false.
Proof.
  rewrite ltb_spec, leb_spec. change (Prim2SF 1) with SF_one.
  destruct (Prim2SF c) as [s|s| |s m e]; unfold SFltb, SFleb, SF_one, SFcompare.
  - intros Hle; discriminate Hle.
  - destruct s; [intros Hle; discriminate Hle|reflexivity].
  - reflexivity.
  - destruct s; [intros Hle; discriminate Hle|].
    rewrite (Z.compare_antisym e (-52)).
    destruct (e ?= -52)%Z; unfold CompOpp; try reflexivity.
    + rewrite <- (Pos.compare_cont_antisym _ _ Eq).
      destruct (Pos.compare_cont Eq m 4503599627370496); unfold CompOpp;
        first [reflexivity | intros Hle; discriminate Hle].
    + intros Hle; discriminate Hle.
Qed.

Lemma le_zero_cases (c : float) :
  (c <=? 0)%float = true -> (c <? 1)%float = true /\ (0 <? c)%float = false.
Proof.
  rewrite !ltb_spec, leb_spec. change (Prim2SF 1) with SF_one.
  change (Prim2SF 0) with (S754_zero false).
  destruct (Prim2SF c) as [s|s| |s m e]; unfold SFltb, SFleb, SF_one, SFcompare.
  - intros _. split; reflexivity.
  - destruct s; [intros _; split; reflexivity|intros Hle; discriminate Hle].
  - intros Hle; discriminate Hle.
  - destruct s; [intros _; split; reflexivity|intros Hle; discriminate Hle].
Qed.

End FloatFacts.

(** ** The query router *)

Section Router.

Import OrchestratorAgent.

Context `{Services}.

Ltac io_unfold :=
  unfold try_except, call, lift, mbind, mret, IO_bind, IO_ret in *.

(** The range of the confidence, as a proposition. *)
Definition in_unit_interval (c : float) : Prop :=
  (0 <=? c)%float = true /\ (c <=? 1)%float = true.

(** The category a parsed reply is given: the value under [agent_type]
    when it is one of the three known names, [travel_support] when the
    key is absent or holds anything else. *)
Definition coerced_agent_type (o : option pyobj) : State.AgentType :=
  match o with
  | Some (PyStr s) => default State.travel_support (State.of_value s)
  | _ => State.travel_support
  end.

(** A decision that was constructed has passed the validation. *)
Lemma init_valid a c r d :
  State.AgentRoutingDecision_init a c r = Ok d ->
  in_unit_interval (State.confidence d).
Proof.
  unfold State.AgentRoutingDecision_init, in_unit_interval.
  destruct a; try discriminate. destruct r; try discriminate.
  destruct (State.of_value _); try discriminate.
  destruct ((0 <=? c) && (c <=? 1))%float eqn:E; try discriminate.
  intros [= <-]. simpl. by apply andb_true_iff.
Qed.

Lemma fallback_routing_total query :
  exists d, _fallback_routing query = Ok d /\ in_unit_interval (State.confidence d).
Proof.
  rewrite fallback_routing_eq. cbv zeta. eexists. split; [reflexivity|].
  unfold in_unit_interval.
  destruct (_ && _); [|destruct (Nat.ltb 0 _)]; simpl State.confidence.
  - apply andb_true_iff, fallback_confidence_valid, booking_score_le.
  - apply andb_true_iff, fallback_confidence_valid, policy_score_le.
  - split; reflexivity.
Qed.

Lemma of_value_known s :
  PyObj.in_strs (PyStr s) known_agent_types = true <-> is_Some (State.of_value s).
Proof.
  unfold PyObj.in_strs, known_agent_types, State.of_value.
  rewrite bool_decide_eq_true, !elem_of_cons, elem_of_nil.
  destruct (String.eqb_spec s "travel_support") as [->|H1]; [by split; eauto|].
  destruct (String.eqb_spec s "booking_payments") as [->|H2]; [by split; eauto|].
  destruct (String.eqb_spec s "policy") as [->|H3]; [by split; eauto|].
  split; [intros [?|[?|[?|[]]]]; congruence | intros [? [=]]].
Qed.

Lemma value_of_value t : State.of_value (State.value t) = Some t.
Proof. by destruct t. Qed.

(** The primary path on a reply that parses to a dict whose confidence
    converts to a float and whose reasoning is text. *)
Lemma validated_decision_dict data c r :
  PyObj.to_float (default (PyFloat 0.7) (data !! "confidence")) = Ok c ->
  default (PyStr "No reasoning provided") (data !! "reasoning") = PyStr r ->
  validated_decision (PyDict data)
  = Ok {| State.agent_type := coerced_agent_type (data !! "agent_type");
          State.confidence := clamp c;
          State.reasoning := r |}.
Proof.
  intros Hc Hr. unfold validated_decision. simpl PyObj.get.
  unfold mbind, Result_bind. rewrite Hc, Hr.
  destruct (clamp_range c) as [H0 H1].
  assert (Hinit : forall t,
    State.AgentRoutingDecision_init (PyStr (State.value t)) (clamp c) (PyStr r)
    = Ok {| State.agent_type := t; State.confidence := clamp c;
            State.reasoning := r |}).
  { intros t. unfold State.AgentRoutingDecision_init.
    by rewrite value_of_value, H0, H1. }
  destruct (data !! "agent_type") as [o|] eqn:Ha; simpl default.
  - destruct o; try exact (Hinit State.travel_support).
    destruct (PyObj.in_strs (PyStr s) known_agent_types) eqn:Hk; simpl negb; cbv iota.
    + apply of_value_known in Hk as [t Ht]. simpl coerced_agent_type. rewrite Ht.
      unfold State.AgentRoutingDecision_init. by rewrite Ht, H0, H1.
    + simpl coerced_agent_type.
      destruct (State.of_value s) as [t|] eqn:Ht.
      * assert (is_Some (State.of_value s)) as Hs by eauto.
        apply of_value_known in Hs. congruence.
      * exact (Hinit State.travel_support).
  - exact (Hinit State.travel_support).
Qed.

(** C2. For every query and every behaviour of the classifier, of
    [json.loads] and of [float], [route_query] returns a decision and
    raises nothing; the decision's category is one of the three and its
    confidence lies in [0, 1]. The decision is either the one validated
    from the reply or the fallback's. When the reply parses to a dict
    whose confidence converts to a float and whose reasoning is text, the
    decision is built from that dict, with an unknown or missing category
    replaced by [travel_support] and the confidence clamped to [0, 1]:
    a confidence strictly between 0 and 1 is kept as it is, one at or
    below 0 becomes 0, and one at or above 1, or one that is not a
    number, becomes 1. *)
Theorem route_query_safe (query : string) (tr : list Event) :
  (exists d tr',
     route_query query tr = (Ok d, tr') /\
     in_unit_interval (State.confidence d) /\
     In (State.agent_type d)
        [State.travel_support; State.booking_payments; State.policy] /\
     (_fallback_routing query = Ok d \/
      exists content routing_data,
        llm_invoke tr llm (routing_messages query) = Ok content /\
        parse_response content = Ok routing_data /\
        validated_decision routing_data = Ok d)) /\
  (forall content data c r,
     llm_invoke tr llm (routing_messages query) = Ok content ->
     parse_response content = Ok (PyDict data) ->
     PyObj.to_float (default (PyFloat 0.7) (data !! "confidence")) = Ok c ->
     default (PyStr "No reasoning provided") (data !! "reasoning") = PyStr r ->
     exists confidence,
       route_query query tr
       = (Ok {| State.agent_type := coerced_agent_type (data !! "agent_type");
                State.confidence := confidence;
                State.reasoning := r |},
          tr ++ [LlmInvoke llm (routing_messages query)]) /\
       in_unit_interval confidence /\
       ((0 <? c)%float = true -> (c <? 1)%float = true -> confidence = c) /\
       ((c <=? 0)%float = true -> confidence = 0%float) /\
       ((1 <=? c)%float = true -> confidence = 1%float) /\
       (is_nan c = true -> confidence = 1%float)).
Proof.
  assert (Hcat : forall t, In t [State.travel_support; State.booking_payments;
                                 State.policy])
    by (intros []; simpl; auto).
  destruct (fallback_routing_total query) as (df & Hdf & Hrange).
  split.
  - unfold route_query. io_unfold.
    destruct (llm_invoke tr llm (routing_messages query)) as [content|e] eqn:Hllm.
    + destruct (parse_response content) as [routing_data|e] eqn:Hparse.
      * destruct (validated_decision routing_data) as [d|e] eqn:Hd.
        -- exists d. eexists. split; [reflexivity|]. split; [|split; [apply Hcat|]].
           ++ unfold validated_decision, mbind, Result_bind in Hd.
              repeat match type of Hd with
                     | match ?x with _ => _ end = _ => destruct x; try discriminate
                     end.
              eapply init_valid, Hd.
           ++ right. eauto.
        -- exists df. eexists. rewrite Hdf.
           split; [by destruct e|]. split; [done|]. split; [apply Hcat|by left].
      * exists df. eexists. rewrite Hdf.
        split; [by destruct e|]. split; [done|]. split; [apply Hcat|by left].
    + exists df. eexists. rewrite Hdf.
      split; [by destruct e|]. split; [done|]. split; [apply Hcat|by left].
  - intros content data c r Hllm Hparse Hc Hr. exists (clamp c).
    split; [|split; [apply clamp_range|]].
    + unfold route_query. io_unfold. rewrite Hllm, Hparse.
      by rewrite (validated_decision_dict data c r Hc Hr).
    + unfold clamp, PyFloat.max, PyFloat.min. split; [|split; [|split]].
      * intros H0 H1. by rewrite H1, H0.
      * intros H0. destruct (le_zero_cases c H0) as [-> Hn]. by rewrite Hn.
      * intros H1. by rewrite (ge_one_not_lt c H1).
      * intros Hn. by rewrite (ltb_nan_l c 1 Hn).
Qed.

End Router.

Section RouterWitness.

Import OrchestratorAgent.

(** A reply naming a category that does not exist, with a confidence
    above 1. *)
Definition odd_reply : gmap string pyobj :=
  {[ "agent_type" := PyStr "flights";
     "confidence" := PyFloat 1.7;
     "reasoning" := PyStr "flight question" ]}.

Definition odd_classifier : Services :=
  Doubles.services (fun _ => Ok "{...}") (Ok (PyDict odd_reply)) (Raise ServiceError) [].

(** A reply naming a category that does not exist, with a confidence
    inside the range. *)
Definition unsure_reply : gmap string pyobj :=
  {[ "agent_type" := PyStr "flights";
     "confidence" := PyFloat 0.25;
     "reasoning" := PyStr "flight question" ]}.

Definition unsure_classifier : Services :=
  Doubles.services (fun _ => Ok "{...}") (Ok (PyDict unsure_reply))
    (Raise ServiceError) [].

Lemma route_query_safe_witness :
  (route_query (H:=odd_classifier) "Any flights to Rome?" []).1
  = Ok {| State.agent_type := State.travel_support;
          State.confidence := 1;
          State.reasoning := "flight question" |} /\
  (route_query (H:=unsure_classifier) "Any flights to Rome?" []).1
  = Ok {| State.agent_type := State.travel_support;
          State.confidence := 0.25;
          State.reasoning := "flight question" |}.
Proof.
  split.
  - destruct (route_query_safe (H:=odd_classifier) "Any flights to Rome?" [])
      as [_ Hprimary].
    destruct (Hprimary "{...}" odd_reply 1.7%float "flight question"
                eq_refl eq_refl eq_refl eq_refl)
      as (confidence & -> & _ & _ & _ & Hhigh & _).
    rewrite (Hhigh eq_refl). reflexivity.
  - destruct (route_query_safe (H:=unsure_classifier) "Any flights to Rome?" [])
      as [_ Hprimary].
    destruct (Hprimary "{...}" unsure_reply 0.25%float "flight question"
                eq_refl eq_refl eq_refl eq_refl)
      as (confidence & -> & _ & Hkeep & _).
    rewrite (Hkeep eq_refl eq_refl). reflexivity.
Defined.

End RouterWitness.

(** ** Binary64 subtraction from one

    [1 - d] is computed by [SF64sub]; for [d <= 1] its result is zero, a
    positive number or plus infinity, and in particular not NaN. *)

Section RoundingSign.

Local Open Scope Z_scope.

Variables prec emax : Z.

Definition shr_nonneg (mrs : shr_record) : Prop := 0 <= shr_m mrs.

Lemma shr_1_nonneg mrs : shr_nonneg mrs -> shr_nonneg (shr_1 mrs).
Proof.
  unfold shr_nonneg. destruct mrs as [m r s]; simpl.
  destruct m as [|[p|p|]|[p|p|]]; simpl; lia.
Qed.

Lemma iter_pos_invariant {A} (f : A -> A) (P : A -> Prop) :
  (forall x, P x -> P (f x)) -> forall n x, P x -> P (SpecFloat.iter_pos f n x).
Proof.
  intros Hf n. induction n as [n IH|n IH|]; intros x Hx; simpl; auto.
Qed.

Lemma shr_fexp_nonneg m e l :
  0 <= m -> shr_nonneg (fst (shr_fexp prec emax m e l)).
Proof.
  intros Hm. unfold shr_fexp, shr.
  assert (H0 : shr_nonneg (shr_record_of_loc m l))
    by (unfold shr_nonneg; destruct l as [|[]]; simpl; lia).
  destruct (fexp prec emax (Zdigits2 m + e) - e); simpl; auto.
  by apply iter_pos_invariant; [apply shr_1_nonneg|].
Qed.

Lemma round_nearest_even_nonneg m l : 0 <= m -> 0 <= round_nearest_even m l.
Proof.
  intros Hm. unfold round_nearest_even.
  destruct l as [|[]]; try lia. destruct (Z.even m); lia.
Qed.

Lemma binary_normalize_nonneg m e :
  0 <= m ->
  SFleb (S754_zero false) (binary_normalize prec emax m e false) = true.
Proof.
  intros Hm. destruct m as [|p|p]; [reflexivity| |lia].
  unfold binary_normalize, binary_round, binary_round_aux.
  destruct (shl_align _ _ _) as [mz ez].
  pose proof (shr_fexp_nonneg (Z.pos mz) ez loc_Exact ltac:(lia)) as H1.
  destruct (shr_fexp prec emax (Z.pos mz) ez loc_Exact) as [mrs' e'].
  simpl in H1.
  pose proof (shr_fexp_nonneg
                (round_nearest_even (shr_m mrs') (loc_of_shr_record mrs')) e' loc_Exact
                (round_nearest_even_nonneg _ _ H1)) as H2.
  destruct (shr_fexp _ _ _ e' loc_Exact) as [mrs'' e''].
  simpl in H2. unfold shr_nonneg in H2.
  destruct (shr_m mrs''); [reflexivity| |lia].
  destruct (e'' <=? emax - prec); reflexivity.
Qed.
End RoundingSign.

Section SubtractionFromOne.

Local Open Scope Z_scope.



Lemma digits2_pos_bound p : Z.pos p < 2 ^ Z.pos (digits2_pos p).
Proof.
  induction p as [p IH|p IH|]; simpl digits2_pos;
    rewrite ?Pos2Z.inj_succ, ?Z.pow_succ_r by lia; [rewrite Pos2Z.inj_xI|rewrite Pos2Z.inj_xO|]; lia.
Qed.

Lemma SFsub_one_nonneg y :
  valid_binary y = true ->
  SFleb y SF_one = true ->
  SFleb (S754_zero false) (SF64sub SF_one y) = true.
Proof.
  intros Hvalid Hle. destruct y as [sy|sy| |sy my ey].
  - reflexivity.
  - destruct sy; [reflexivity|discriminate Hle].
  - discriminate Hle.
  - unfold SF64sub, SF_one, SFsub. apply binary_normalize_nonneg.
    destruct sy; [unfold cond_Zopp; lia|].
    unfold cond_Zopp. unfold SFleb, SF_one, SFcompare in Hle.
    destruct (Z.compare_spec ey (-52)) as [->|Hlt|Hgt]; [| |discriminate Hle].
    + rewrite Z.min_id.
      unfold shl_align. rewrite Z.sub_diag. unfold fst.
      pose proof (Pos.compare_spec my 4503599627370496) as Hc.
      unfold Pos.compare in Hc. clear Hvalid.
      destruct Hc as [Hc|Hc|Hc]; [rewrite Hc; lia| |discriminate Hle].
      apply Pos2Z.pos_lt_pos in Hc. lia.
    + rewrite Z.min_r by lia. unfold shl_align at 2. rewrite Z.sub_diag. unfold fst at 2.
      unfold shl_align. destruct (ey - -52) as [|d|d] eqn:Hd; try lia.
      unfold fst. change (Pos.iter xO 4503599627370496%positive d) with (shift_pos d 4503599627370496%positive).
      rewrite shift_pos_correct, Z.pow_pos_fold.
      unfold SpecFloat.valid_binary, bounded, canonical_mantissa, fexp, SpecFloat.emin, prec, emax in Hvalid.
      apply andb_true_iff in Hvalid as [Hcan _]. apply Z.eqb_eq in Hcan.
      pose proof (digits2_pos_bound my) as Hdig.
      assert (Hd53 : Z.pos (digits2_pos my) <= 53) by lia.
      assert (H53 : 2 ^ Z.pos (digits2_pos my) <= 2 ^ 53) by (apply Z.pow_le_mono_r; lia).
      assert (H1 : 2 ^ 1 <= 2 ^ Z.pos d) by (apply Z.pow_le_mono_r; lia).
      assert (E53 : 2 ^ 53 = 9007199254740992) by reflexivity.
      assert (E1 : 2 ^ 1 = 2) by reflexivity.
      rewrite E53 in H53. rewrite E1 in H1. lia.
Qed.

Lemma sub_one_nonneg (d : float) :
  (d <=? 1)%float = true -> (0 <=? 1 - d)%float = true.
Proof.
  rewrite !leb_spec, sub_spec.
  change (Prim2SF 1) with SF_one. change (Prim2SF 0) with (S754_zero false).
  apply SFsub_one_nonneg, Prim2SF_valid.
Qed.

Lemma gt_one_not_le (d : float) :
  (1 <? d)%float = true -> (d <=? 1)%float = false.
Proof.
  rewrite ltb_spec, leb_spec. change (Prim2SF 1) with SF_one.
  destruct (Prim2SF d) as [sy|sy| |sy my ey]; unfold SFltb, SFleb, SF_one, SFcompare.
  - intros Hlt; discriminate Hlt.
  - destruct sy; [intros Hlt; discriminate Hlt|reflexivity].
  - intros Hlt; discriminate Hlt.
  - destruct sy; [intros Hlt; discriminate Hlt|].
    rewrite (Z.compare_antisym ey (-52)).
    destruct (ey ?= -52); unfold CompOpp; try reflexivity.
    + rewrite <- (Pos.compare_cont_antisym _ _ Eq).
      destruct (Pos.compare_cont Eq my 4503599627370496); unfold CompOpp;
        first [reflexivity | intros Hlt; discriminate Hlt].
    + intros Hlt; discriminate Hlt.
Qed.

End SubtractionFromOne.

(** ** The semantic retriever *)

Section SemanticRetriever.

Import RAGRetriever.

Context `{Services}.

Ltac io_unfold :=
  unfold try_except, call, lift, mbind, mret, IO_bind, IO_ret in *.

(** A log that holds calls to the embedding service and to the vector
    store only. *)
Definition retrieval_only (evs : list Event) : Prop :=
  Forall (fun ev => match ev with
                    | EmbedQuery _ | CollectionQuery _ _ _ => True
                    | _ => False
                    end) evs.

(** [retrieve] absorbs every failure of the two services. *)
Lemma retrieve_total query agent_type top_k filter_metadata tr :
  exists docs evs,
    retrieve query agent_type top_k filter_metadata tr = (Ok docs, tr ++ evs) /\
    retrieval_only evs.
Proof.
  unfold retrieve. io_unfold.
  destruct (embed_query tr query) as [emb|e].
  - destruct (collection_query _ _ _ _) as [results|e].
    + destruct (format_results results) as [docs|e].
      * exists docs, [EmbedQuery query; CollectionQuery emb top_k
            match filter_metadata with
            | Some extra => extra ∪ {["agent_type" := agent_type]}
            | None => {["agent_type" := agent_type]}
            end].
        rewrite <- app_assoc. split; [reflexivity|]. by repeat constructor.
      * eexists [], [_; _]. rewrite <- app_assoc. split; [reflexivity|].
        by repeat constructor.
    + eexists [], [_; _]. rewrite <- app_assoc. split; [reflexivity|].
      by repeat constructor.
  - eexists [], [_]. split; [reflexivity|]. by repeat constructor.
Qed.

(** A document with its similarity recorded. *)
Definition with_similarity (doc : Doc) : Doc :=
  {| content := content doc; metadata := metadata doc;
     distance := distance doc; similarity := Some (similarity_of doc) |}.

Lemma filter_by_score_spec score_threshold documents :
  filter_by_score score_threshold documents
  = with_similarity <$>
    List.filter (fun doc => (score_threshold <=? similarity_of doc)%float) documents.
Proof.
  induction documents as [|doc rest IH]; [reflexivity|].
  simpl. destruct (score_threshold <=? similarity_of doc)%float; simpl; by rewrite IH.
Qed.

Lemma similarity_nonneg doc : (0 <=? similarity_of doc)%float = true.
Proof.
  unfold similarity_of.
  destruct (default 1%float (distance doc) <=? 1)%float eqn:E.
  - by apply sub_one_nonneg.
  - reflexivity.
Qed.

(** C8. [retrieve_with_scores] keeps, in order, exactly the chunks
    [retrieve] returns whose similarity is at least [score_threshold],
    each with that similarity recorded. The similarity of a chunk of
    distance [d] is [1 - d] when [d <= 1] and 0 when [d > 1]; a chunk
    without a distance is treated as one of distance 1; the similarity is
    never below 0; distances 0, 1 and 1.5 give 1, 0 and 0. *)
Theorem retrieve_with_scores_spec query agent_type top_k score_threshold tr :
  (exists documents tr',
     retrieve query agent_type top_k None tr = (Ok documents, tr') /\
     retrieve_with_scores query agent_type top_k score_threshold tr
     = (Ok (with_similarity <$>
            List.filter
              (fun doc => (score_threshold <=? similarity_of doc)%float)
              documents),
        tr')) /\
  (forall doc,
     (forall d, distance doc = Some d -> (d <=? 1)%float = true ->
                similarity_of doc = (1 - d)%float) /\
     (forall d, distance doc = Some d -> (1 <? d)%float = true ->
                similarity_of doc = 0%float) /\
     (distance doc = None -> similarity_of doc = (1 - 1)%float) /\
     (0 <=? similarity_of doc)%float = true) /\
  (forall doc, distance doc = Some 0%float -> similarity_of doc = 1%float) /\
  (forall doc, distance doc = Some 1%float -> similarity_of doc = 0%float) /\
  (forall doc, distance doc = Some 1.5%float -> similarity_of doc = 0%float).
Proof.
  split; [|split; [|repeat split]].
  - destruct (retrieve_total query agent_type top_k None tr) as (docs & evs & Hr & _).
    exists docs, (tr ++ evs). split; [exact Hr|].
    unfold retrieve_with_scores. io_unfold. rewrite Hr.
    by rewrite filter_by_score_spec.
  - intros doc. repeat split.
    + intros d Hd Hle. unfold similarity_of. rewrite Hd. simpl default. by rewrite Hle.
    + intros d Hd Hgt. unfold similarity_of. rewrite Hd. simpl default.
      by rewrite (gt_one_not_le d Hgt).
    + intros Hd. unfold similarity_of. by rewrite Hd.
    + apply similarity_nonneg.
  - intros doc Hd. unfold similarity_of. by rewrite Hd.
  - intros doc Hd. unfold similarity_of. by rewrite Hd.
  - intros doc Hd. unfold similarity_of. by rewrite Hd.
Qed.

End SemanticRetriever.

(** ** The static document cache *)

Section StaticCache.

Import CAGRetriever.

Context `{Services}.

Ltac io_unfold :=
  unfold try_except, call, lift, mbind, mret, IO_bind, IO_ret in *.

(** The number of reads of the corpus directory a log holds for a
    category. *)
Definition loads (agent_type : string) (tr : list Event) : nat :=
  length (List.filter
            (fun ev => match ev with
                       | ReadCorpus a => String.eqb a agent_type
                       | _ => false
                       end) tr).

Lemma loads_app agent_type tr1 tr2 :
  loads agent_type (tr1 ++ tr2) = loads agent_type tr1 + loads agent_type tr2.
Proof. unfold loads. by rewrite List.filter_app, length_app. Qed.

Lemma loads_read agent_type : loads agent_type [ReadCorpus agent_type] = 1.
Proof. unfold loads. simpl. by rewrite String.eqb_refl. Qed.

Lemma cache_documents_hit agent_type self tr docs :
  cached_documents self !! agent_type = Some docs ->
  cache_documents agent_type self tr = (Ok self, tr).
Proof. intros Hc. unfold cache_documents. by rewrite Hc. Qed.

Lemma cache_documents_miss agent_type self tr :
  cached_documents self !! agent_type = None ->
  cache_documents agent_type self tr
  = (Ok {| cached_documents :=
             <[agent_type := read_corpus tr]> (cached_documents self) |},
     tr ++ [ReadCorpus agent_type]).
Proof. intros Hc. unfold cache_documents, load_documents. by rewrite Hc. Qed.

Lemma get_cached_documents_hit agent_type self tr docs :
  cached_documents self !! agent_type = Some docs ->
  get_cached_documents agent_type self tr = (Ok (docs, self), tr).
Proof.
  intros Hc. unfold get_cached_documents. io_unfold. by rewrite Hc; simpl; rewrite Hc.
Qed.

Lemma get_cached_documents_miss agent_type self tr :
  cached_documents self !! agent_type = None ->
  get_cached_documents agent_type self tr
  = (Ok (read_corpus tr,
         {| cached_documents :=
              <[agent_type := read_corpus tr]> (cached_documents self) |}),
     tr ++ [ReadCorpus agent_type]).
Proof.
  intros Hc. unfold get_cached_documents. io_unfold.
  rewrite Hc, (cache_documents_miss _ _ _ Hc). simpl.
  by rewrite lookup_insert_eq.
Qed.

(** Whatever the state of the cache, [cache_documents] returns with the
    category cached, after at most one load. *)
Lemma cache_documents_spec agent_type self tr :
  exists self' evs docs,
    cache_documents agent_type self tr = (Ok self', tr ++ evs) /\
    cached_documents self' !! agent_type = Some docs /\
    (evs = [] \/ evs = [ReadCorpus agent_type]) /\
    (forall a, a <> agent_type ->
               cached_documents self' !! a = cached_documents self !! a).
Proof.
  destruct (cached_documents self !! agent_type) as [docs|] eqn:Hc.
  - exists self, [], docs. rewrite app_nil_r.
    split; [by eapply cache_documents_hit|]. auto.
  - eexists _, [ReadCorpus agent_type], (read_corpus tr).
    split; [by apply cache_documents_miss|]. simpl.
    split; [by rewrite lookup_insert_eq|]. split; [auto|].
    intros a Ha. by rewrite lookup_insert_ne.
Qed.

End StaticCache.

(** ** The hybrid retriever *)

Section Hybrid.

Import HybridRetriever.

Context `{Services}.

Ltac io_unfold :=
  unfold try_except, call, lift, mbind, mret, IO_bind, IO_ret in *.

Lemma initialize_cache_done agent_type self tr :
  cache_initialized self = true ->
  initialize_cache agent_type self tr = (Ok self, tr).
Proof. intros Hi. unfold initialize_cache. by rewrite Hi. Qed.

(** The first initialization: the policy category is cached, after at
    most one load, and the derived subset is taken from it. *)
Lemma initialize_cache_first agent_type self tr :
  cache_initialized self = false ->
  exists cag evs docs,
    initialize_cache agent_type self tr
    = (Ok {| cag_retriever := cag;
             static_policy_cache := relevant_policies docs;
             cache_initialized := true |}, tr ++ evs) /\
    CAGRetriever.cached_documents cag !! "policy" = Some docs /\
    (evs = [] /\ is_Some (CAGRetriever.cached_documents (cag_retriever self) !! "policy")
     \/ evs = [ReadCorpus "policy"] /\
        CAGRetriever.cached_documents (cag_retriever self) !! "policy" = None).
Proof.
  intros Hi. unfold initialize_cache. rewrite Hi. io_unfold.
  change (negb false) with true. cbv beta iota.
  destruct (CAGRetriever.cached_documents (cag_retriever self) !! "policy")
    as [docs|] eqn:Hc.
  - rewrite (cache_documents_hit _ _ _ _ Hc), (get_cached_documents_hit _ _ _ _ Hc).
    exists (cag_retriever self), [], docs. rewrite app_nil_r. eauto.
  - rewrite (cache_documents_miss _ _ _ Hc).
    erewrite get_cached_documents_hit; [|simpl; apply lookup_insert_eq].
    eexists _, [ReadCorpus "policy"], _. split; [reflexivity|].
    simpl. rewrite lookup_insert_eq. eauto.
Qed.

(** After [initialize_cache] the retriever is initialized and the policy
    category is cached. *)
Lemma initialize_cache_spec agent_type self tr :
  exists self' evs,
    initialize_cache agent_type self tr = (Ok self', tr ++ evs) /\
    cache_initialized self' = true /\
    (evs = [] \/ evs = [ReadCorpus "policy"]).
Proof.
  destruct (cache_initialized self) eqn:Hi.
  - exists self, []. rewrite app_nil_r.
    split; [by apply initialize_cache_done|]. auto.
  - destruct (initialize_cache_first agent_type self tr Hi)
      as (cag & evs & docs & Hinit & _ & [[-> _]|[-> _]]);
      eexists _, _; (split; [exact Hinit|]); auto.
Qed.

(** A search answers from the cached documents of the category, which
    it loads first when they are absent. *)
Lemma search_cached_spec query agent_type case_sensitive cag tr :
  exists docs cag' evs,
    CAGRetriever.search_cached query agent_type case_sensitive cag tr
    = (Ok (CAGRetriever.matching_docs query case_sensitive docs, cag'), tr ++ evs) /\
    CAGRetriever.cached_documents cag' !! agent_type = Some docs /\
    (evs = [] /\ cag' = cag \/
     evs = [ReadCorpus agent_type] /\
     CAGRetriever.cached_documents cag !! agent_type = None).
Proof.
  unfold CAGRetriever.search_cached. io_unfold.
  destruct (CAGRetriever.cached_documents cag !! agent_type) as [docs|] eqn:Hc.
  - rewrite (get_cached_documents_hit _ _ _ _ Hc).
    exists docs, cag, []. rewrite app_nil_r. auto.
  - rewrite (get_cached_documents_miss _ _ _ Hc).
    eexists _, _, [ReadCorpus agent_type]. split; [reflexivity|].
    simpl. rewrite lookup_insert_eq. auto.
Qed.

(** What a hybrid retrieval returns: the semantic results, and the first
    three matches of the search over the cached policy documents. *)
Lemma hybrid_retrieve_spec query agent_type top_k self tr :
  exists dyn docs self' evs,
    retrieve query agent_type top_k true self tr
    = (Ok ({| dynamic := dyn;
              static := static_doc <$>
                        take 3 (CAGRetriever.matching_docs query false docs) |},
           self'), tr ++ evs) /\
    CAGRetriever.cached_documents (cag_retriever self') !! "policy" = Some docs /\
    cache_initialized self' = true /\
    Forall (fun ev => match ev with LlmInvoke _ _ => False | _ => True end) evs.
Proof.
  unfold retrieve.
  assert (Hinit : exists self1 evs1,
    (if negb (cache_initialized self) then initialize_cache agent_type self
     else mret self) tr = (Ok self1, tr ++ evs1) /\
    cache_initialized self1 = true /\
    (evs1 = [] \/ evs1 = [ReadCorpus "policy"])).
  { destruct (cache_initialized self) eqn:Hi; simpl negb; cbv iota.
    - exists self, []. rewrite app_nil_r. auto.
    - apply initialize_cache_spec. }
  destruct Hinit as (self1 & evs1 & Hinit & Hi1 & Hevs1).
  destruct (retrieve_total query agent_type top_k None (tr ++ evs1))
    as (dyn & evs2 & Hdyn & Hevs2).
  destruct (search_cached_spec query "policy" false (cag_retriever self1)
              ((tr ++ evs1) ++ evs2)) as (docs & cag' & evs3 & Hs & Hdocs & Hevs3).
  exists dyn, docs,
    {| cag_retriever := cag'; static_policy_cache := static_policy_cache self1;
       cache_initialized := cache_initialized self1 |},
    (evs1 ++ evs2 ++ evs3).
  split; [|split; [exact Hdocs|split; [exact Hi1|]]].
  - io_unfold. rewrite Hinit, Hdyn, Hs. by rewrite !app_assoc.
  - apply Forall_app; split; [|apply Forall_app; split].
    + destruct Hevs1 as [->| ->]; by repeat constructor.
    + eapply Forall_impl; [exact Hevs2|]. by intros [].
    + destruct Hevs3 as [[-> _]|[-> _]]; by repeat constructor.
Qed.

End Hybrid.

Section CacheClaims.

Import HybridRetriever.

(** C7. A second [cache_documents] for the same category performs no
    load and leaves the cache as it is, and the cached documents are
    served unchanged. Two calls of [initialize_cache] in sequence on a
    fresh hybrid retriever read the corpus for [policy] exactly once;
    from any state, the second call is a no-op and the two calls read it
    at most once. *)
Theorem lazy_initialization_once `{Services} :
  (forall agent_type self tr,
     exists self1 tr1 docs,
       CAGRetriever.cache_documents agent_type self tr = (Ok self1, tr1) /\
       CAGRetriever.cached_documents self1 !! agent_type = Some docs /\
       CAGRetriever.cache_documents agent_type self1 tr1 = (Ok self1, tr1) /\
       CAGRetriever.get_cached_documents agent_type self1 tr1
       = (Ok (docs, self1), tr1) /\
       loads agent_type tr1 <= loads agent_type tr + 1) /\
  (forall a1 a2 tr,
     exists h1,
       initialize_cache a1 (init None) tr = (Ok h1, tr ++ [ReadCorpus "policy"]) /\
       initialize_cache a2 h1 (tr ++ [ReadCorpus "policy"])
       = (Ok h1, tr ++ [ReadCorpus "policy"]) /\
       loads "policy" (tr ++ [ReadCorpus "policy"]) = loads "policy" tr + 1) /\
  (forall a1 a2 h tr,
     exists h1 tr1,
       initialize_cache a1 h tr = (Ok h1, tr1) /\
       initialize_cache a2 h1 tr1 = (Ok h1, tr1) /\
       loads "policy" tr1 <= loads "policy" tr + 1).
Proof.
  split; [|split].
  - intros agent_type self tr.
    destruct (cache_documents_spec agent_type self tr)
      as (self1 & evs & docs & Hc & Hdocs & Hevs & _).
    exists self1, (tr ++ evs), docs. split; [exact Hc|]. split; [exact Hdocs|].
    split; [by eapply cache_documents_hit|].
    split; [by eapply get_cached_documents_hit|].
    destruct Hevs as [->| ->]; [rewrite app_nil_r; lia|].
    rewrite loads_app, loads_read. lia.
  - intros a1 a2 tr.
    destruct (initialize_cache_first a1 (init None) tr eq_refl)
      as (cag & evs & docs & Hinit & _ & [[_ [d Hd]]|[-> _]]).
    { simpl in Hd. by rewrite lookup_empty in Hd. }
    eexists. split; [exact Hinit|]. split; [by apply initialize_cache_done|].
    by rewrite loads_app, loads_read.
  - intros a1 a2 h tr.
    destruct (initialize_cache_spec a1 h tr) as (h1 & evs & Hinit & Hi & Hevs).
    exists h1, (tr ++ evs). split; [exact Hinit|].
    split; [by apply initialize_cache_done|].
    destruct Hevs as [->| ->]; [rewrite app_nil_r; lia|].
    rewrite loads_app, loads_read. lia.
Qed.

(** A corpus of one policy document that names none of the relevance
    keywords of the hybrid retriever. *)
Definition baggage_corpus : list string :=
  ["Baggage allowance: one checked bag of 23 kg per passenger."].

Definition baggage_services : Services :=
  Doubles.services (fun _ => Raise ServiceError) (Raise JSONDecodeError)
    (Raise ServiceError) baggage_corpus.

(** C3, as stated, does not hold: on a corpus whose only document names
    no relevance keyword the derived subset is empty, yet the static
    part of the retrieval holds that document. *)
Lemma hybrid_static_not_from_subset :
  match retrieve (H:=baggage_services) "baggage" "booking_payments" 5 true
          (init None) [] with
  | (Ok (results, self'), _) =>
      static_policy_cache self' = [] /\
      static results
      <> static_doc <$>
         take 3 (CAGRetriever.matching_docs "baggage" false (static_policy_cache self'))
  | _ => False
  end.
Proof. vm_compute. split; [reflexivity|]. intros Heq. discriminate Heq. Qed.

(** C3, amended. The static part of a hybrid retrieval is the first
    three matches of the keyword search over the full cached [policy]
    documents of the static cache, not over the derived subset; each
    match is wrapped as a chunk whose metadata marks it as a cached
    static policy, and the documents the search ran over are those the
    retriever holds for [policy] afterwards. *)
Theorem hybrid_static_from_policy_cache `{Services}
    query agent_type top_k self tr :
  exists results self' tr' docs,
    retrieve query agent_type top_k true self tr = (Ok (results, self'), tr') /\
    CAGRetriever.cached_documents (cag_retriever self') !! "policy" = Some docs /\
    static results
    = static_doc <$> take 3 (CAGRetriever.matching_docs query false docs) /\
    length (static results) <= 3 /\
    Forall (fun doc =>
              metadata doc !! "source" = Some "cached" /\
              metadata doc !! "document_type" = Some "static_policy" /\
              metadata doc !! "agent_type" = Some "policy" /\
              distance doc = None)
           (static results).
Proof.
  destruct (hybrid_retrieve_spec query agent_type top_k self tr)
    as (dyn & docs & self' & evs & Hr & Hdocs & _ & _).
  eexists _, self', (tr ++ evs), docs. split; [exact Hr|]. split; [exact Hdocs|].
  simpl static. split; [reflexivity|]. split.
  - rewrite length_fmap, length_take. lia.
  - apply Forall_fmap, Forall_forall. intros doc _. by vm_compute.
Qed.

End CacheClaims.

(** ** The answering agents *)

Section Strings.

Lemma string_app_assoc (a b c : string) : (a +:+ b) +:+ c = a +:+ (b +:+ c).
Proof.
  induction a as [|x a IH]; [reflexivity|].
  change (String x ((a +:+ b) +:+ c) = String x (a +:+ (b +:+ c))). by rewrite IH.
Qed.

Lemma substring_of_app_l q s t : substring_of q s -> substring_of q (s +:+ t).
Proof.
  intros (pre & post & ->). exists pre, (post +:+ t).
  by rewrite !string_app_assoc.
Qed.

Lemma substring_of_app_r q p s : substring_of q s -> substring_of q (p +:+ s).
Proof.
  intros (pre & post & ->). exists (p +:+ pre), post.
  by rewrite !string_app_assoc.
Qed.

Lemma substring_of_here q t : substring_of q (q +:+ t).
Proof. by exists EmptyString, t. Qed.

Lemma string_app_nil_r (a : string) : a +:+ EmptyString = a.
Proof.
  induction a as [|x a IH]; [reflexivity|].
  change (String x (a +:+ EmptyString) = String x a). by rewrite IH.
Qed.

Lemma substring_of_end q p : substring_of q (p +:+ q).
Proof. exists p, EmptyString. by rewrite string_app_nil_r. Qed.

Lemma substring_of_concat sep l a q :
  In a l -> substring_of q a -> substring_of q (String.concat sep l).
Proof.
  intros Hin Hq. induction l as [|x l IH]; [destruct Hin|].
  destruct l as [|y l].
  - destruct Hin as [->|[]]. exact Hq.
  - change (substring_of q (x +:+ sep +:+ String.concat sep (y :: l))).
    destruct Hin as [->|Hin].
    + by apply substring_of_app_l.
    + by apply substring_of_app_r, substring_of_app_r, IH.
Qed.

End Strings.

Section Monad.

(** A computation that returns continues with its value. *)
Lemma io_bind_ok {A B} (m : IO A) (k : A -> IO B) tr a tr' :
  m tr = (Ok a, tr') -> (m ≫= k) tr = k a tr'.
Proof. intros Hm. unfold mbind, IO_bind. by rewrite Hm. Qed.

Lemma io_bind_raise {A B} (m : IO A) (k : A -> IO B) tr e tr' :
  m tr = (Raise e, tr') -> (m ≫= k) tr = (Raise e, tr').
Proof. intros Hm. unfold mbind, IO_bind. by rewrite Hm. Qed.

Lemma try_except_ok {A} (body : IO A) handler tr a tr' :
  body tr = (Ok a, tr') -> try_except body handler tr = (Ok a, tr').
Proof. intros Hm. unfold try_except. by rewrite Hm. Qed.

End Monad.

Section Agents.

Context `{Services}.

Ltac io_unfold :=
  unfold try_except, call, lift, mbind, mret, IO_bind, IO_ret in *.

(** The answer an agent gives for an outcome of the generation service:
    the stripped text, or one of the two apologies. *)
Definition answer_of (outcome : Result string) : string :=
  match outcome with
  | Ok content =>
      let text := if PyStr.truthy content then PyStr.strip content else EmptyString in
      if PyStr.truthy text then text else Agent.apology_empty
  | Raise _ => Agent.apology_error
  end.

(** A log without a call to a chat model. *)
Definition no_generation (evs : list Event) : Prop :=
  Forall (fun ev => match ev with LlmInvoke _ _ => False | _ => True end) evs.

Lemma respond_spec llm system_prompt history user_prompt tr :
  let messages := Agent.prompt_messages system_prompt history user_prompt in
  Agent.respond llm system_prompt history user_prompt tr
  = (Ok (answer_of (llm_invoke tr llm messages)), tr ++ [LlmInvoke llm messages]).
Proof.
  intros messages. unfold Agent.respond. io_unfold. fold messages.
  destruct (llm_invoke tr llm messages) as [content|e]; [|reflexivity].
  unfold answer_of. cbv zeta.
  by destruct (PyStr.truthy (if PyStr.truthy content then PyStr.strip content
                            else EmptyString)).
Qed.

Lemma travel_support_generate_spec query history top_k tr :
  exists evs user_prompt,
    let messages :=
      Agent.prompt_messages TravelSupportAgent.system_prompt history user_prompt in
    TravelSupportAgent.generate_response query history top_k tr
    = (Ok (answer_of (llm_invoke (tr ++ evs) TravelSupportAgent.llm messages)),
       (tr ++ evs) ++ [LlmInvoke TravelSupportAgent.llm messages]) /\
    substring_of query user_prompt /\
    no_generation evs.
Proof.
  destruct (retrieve_total query "travel_support" top_k None tr)
    as (docs & evs & Hr & Hevs).
  eexists evs, _. cbv zeta. split; [|split].
  - unfold TravelSupportAgent.generate_response. io_unfold. rewrite Hr.
    apply respond_spec.
  - unfold TravelSupportAgent.user_prompt.
    do 3 apply substring_of_app_r. apply substring_of_here.
  - eapply Forall_impl; [exact Hevs|]. by intros [].
Qed.

Lemma policy_generate_spec query history top_k self tr :
  exists evs user_prompt self',
    let messages :=
      Agent.prompt_messages PolicyAgent.system_prompt history user_prompt in
    PolicyAgent.generate_response query history top_k self tr
    = (Ok (answer_of (llm_invoke (tr ++ evs) PolicyAgent.llm messages), self'),
       (tr ++ evs) ++ [LlmInvoke PolicyAgent.llm messages]) /\
    substring_of query user_prompt /\
    no_generation evs.
Proof.
  destruct (search_cached_spec query "policy" false (PolicyAgent.retriever self) tr)
    as (docs & cag & evs & Hs & Hdocs & Hevs).
  assert (Hfill : exists chosen,
    (match CAGRetriever.matching_docs query false docs with
     | [] =>
         '(all_docs, r) ← CAGRetriever.get_cached_documents "policy" cag;
         mret (take 3 all_docs, r)
     | _ => mret (CAGRetriever.matching_docs query false docs, cag)
     end) (tr ++ evs) = (Ok (chosen, cag), tr ++ evs)).
  { destruct (CAGRetriever.matching_docs query false docs) as [|m ms].
    - io_unfold. rewrite (get_cached_documents_hit _ _ _ _ Hdocs). eauto.
    - eauto. }
  destruct Hfill as (chosen & Hfill).
  eexists evs, _, _. cbv zeta. split; [|split].
  - unfold PolicyAgent.generate_response.
    rewrite (io_bind_ok _ _ _ _ _ Hs). cbv beta iota.
    rewrite (io_bind_ok _ _ _ _ _ Hfill). cbv beta iota.
    erewrite io_bind_ok; [|apply respond_spec]. reflexivity.
  - unfold PolicyAgent.user_prompt.
    do 3 apply substring_of_app_r. apply substring_of_here.
  - destruct Hevs as [[-> _]|[-> _]]; by repeat constructor.
Qed.

Lemma booking_generate_spec query history top_k self tr :
  exists evs user_prompt self',
    let messages :=
      Agent.prompt_messages BookingPaymentsAgent.system_prompt history user_prompt in
    BookingPaymentsAgent.generate_response query history top_k self tr
    = (Ok (answer_of (llm_invoke (tr ++ evs) BookingPaymentsAgent.llm messages), self'),
       (tr ++ evs) ++ [LlmInvoke BookingPaymentsAgent.llm messages]) /\
    substring_of query user_prompt /\
    no_generation evs.
Proof.
  destruct (hybrid_retrieve_spec query "booking_payments" top_k
              (BookingPaymentsAgent.retriever self) tr)
    as (dyn & docs & h' & evs & Hr & _ & _ & Hevs).
  eexists evs, _, _. cbv zeta. split; [|split].
  - unfold BookingPaymentsAgent.generate_response.
    rewrite (io_bind_ok _ _ _ _ _ Hr). cbv beta iota.
    erewrite io_bind_ok; [|apply respond_spec]. reflexivity.
  - unfold BookingPaymentsAgent.user_prompt, PyStr.join.
    eapply substring_of_concat; [|apply substring_of_end].
    rewrite !in_app_iff. right. right. right. simpl. left. reflexivity.
  - exact Hevs.
Qed.

End Agents.

(** ** The agent nodes of the workflow *)

Section Nodes.

Import Graph.

Context `{Services}.

(** The chat model and the system prompt of the agent behind a node. *)
Definition agent_llm (name : State.AgentType) : ChatModel :=
  match name with
  | State.travel_support => TravelSupportAgent.llm
  | State.booking_payments => BookingPaymentsAgent.llm
  | State.policy => PolicyAgent.llm
  end.

Definition agent_system_prompt (name : State.AgentType) : string :=
  match name with
  | State.travel_support => TravelSupportAgent.system_prompt
  | State.booking_payments => BookingPaymentsAgent.system_prompt
  | State.policy => PolicyAgent.system_prompt
  end.

(** The prompt a node sends for a conversation and a user prompt. *)
Definition node_prompt (name : State.AgentType) (msgs : list StateMsg)
    (user_prompt : string) : list LcMessage :=
  Agent.prompt_messages (agent_system_prompt name)
    (Some (conversation_history_of msgs)) user_prompt.

(** Without a query a node answers with the apology and touches nothing
    else: no service is called, no agent changes. *)
Lemma node_no_query name agents state tr :
  current_query state = None \/ current_query state = Some EmptyString ->
  node name agents state tr
  = (Ok (set_response (Some no_query_apology) state, agents), tr).
Proof.
  intros Hq. destruct agents as [b p].
  unfold node, travel_support_node, booking_payments_node, policy_node.
  destruct name; by destruct Hq as [-> | ->].
Qed.

(** With a query a node retrieves, calls the generation service once
    with its prompt, and records the answer of that call. *)
Lemma node_answers name agents state tr c q :
  current_query state = Some (String c q) ->
  exists evs user_prompt agents',
    let prompt := node_prompt name (messages state) user_prompt in
    node name agents state tr
    = (Ok (record_response
             (answer_of (llm_invoke (tr ++ evs) (agent_llm name) prompt)) state,
           agents'),
       (tr ++ evs) ++ [LlmInvoke (agent_llm name) prompt]) /\
    substring_of (String c q) user_prompt /\
    no_generation evs.
Proof.
  intros Hq. unfold node_prompt. destruct name; simpl agent_llm; simpl agent_system_prompt.
  - destruct (travel_support_generate_spec (String c q)
                (Some (conversation_history_of (messages state))) 5 tr)
      as (evs & up & Hg & Hsub & Hevs).
    exists evs, up, agents. cbv zeta in *. split; [|by split].
    unfold node, travel_support_node. rewrite Hq.
    erewrite io_bind_ok;
      [|apply try_except_ok; erewrite io_bind_ok; [|exact Hg]; reflexivity].
    reflexivity.
  - destruct (booking_generate_spec (String c q)
                (Some (conversation_history_of (messages state))) 5
                (booking_agent agents) tr)
      as (evs & up & agent' & Hg & Hsub & Hevs).
    eexists evs, up, _. cbv zeta in *. split; [|by split].
    unfold node, booking_payments_node. rewrite Hq.
    erewrite io_bind_ok;
      [|apply try_except_ok; erewrite io_bind_ok; [|exact Hg]; reflexivity].
    reflexivity.
  - destruct (policy_generate_spec (String c q)
                (Some (conversation_history_of (messages state))) 5
                (policy_agent agents) tr)
      as (evs & up & agent' & Hg & Hsub & Hevs).
    eexists evs, up, _. cbv zeta in *. split; [|by split].
    unfold node, policy_node. rewrite Hq.
    erewrite io_bind_ok;
      [|apply try_except_ok; erewrite io_bind_ok; [|exact Hg]; reflexivity].
    reflexivity.
Qed.

End Nodes.

Section Workflow.

Import Graph.

Context `{Services}.

Lemma entry_node_no_user state :
  Forall (fun msg => is_user msg = false) (messages state) ->
  entry_node state = set_current_query (Some EmptyString) state.
Proof.
  intros Hno. unfold entry_node.
  assert (List.filter is_user (messages state) = []) as ->; [|reflexivity].
  induction Hno as [|msg msgs Hmsg _ IH]; [reflexivity|].
  simpl. by rewrite Hmsg.
Qed.

Lemma invoke_no_query agents state tr :
  current_query (entry_node state) = Some EmptyString ->
  invoke agents state tr
  = (Ok (set_response (Some no_query_apology) (entry_node state), agents), tr).
Proof.
  intros Hq. unfold invoke. cbv zeta.
  erewrite io_bind_ok; [|unfold orchestrator_node; rewrite Hq; reflexivity].
  apply node_no_query. by right.
Qed.

(** C9. When the conversation holds no user-authored message, the entry
    node sets the current query to the empty text; each of the three
    agent nodes then answers with the apology, and so does the whole run,
    with no call to any external service (the log is unchanged) and no
    change to the agents' retrievers. *)
Theorem no_user_message_short_circuits (state : GraphState) :
  Forall (fun msg => is_user msg = false) (messages state) ->
  current_query (entry_node state) = Some EmptyString /\
  (forall name agents tr,
     node name agents (entry_node state) tr
     = (Ok (set_response (Some no_query_apology) (entry_node state), agents), tr)) /\
  (forall agents tr,
     invoke agents state tr
     = (Ok (set_response (Some no_query_apology) (entry_node state), agents), tr)) /\
  response (set_response (Some no_query_apology) (entry_node state))
  = Some "I apologize, but I couldn't process your query.".
Proof.
  intros Hno. pose proof (entry_node_no_user state Hno) as He.
  assert (Hq : current_query (entry_node state) = Some EmptyString)
    by (by rewrite He).
  split; [exact Hq|]. split; [|split; [|reflexivity]].
  - intros name agents tr. apply node_no_query. by right.
  - intros agents tr. by apply invoke_no_query.
Qed.

(** C10. On the empty query an agent node leaves the message list as it
    is: the apology goes to the response field only, and nothing else of
    the state, the agents or the log changes. So a run whose entry query
    is empty ends with the messages it started with, whereas on a
    non-empty query a node appends exactly one assistant message. *)
Theorem empty_query_leaves_conversation
    (name : State.AgentType) (agents : Agents) (state : GraphState)
    (tr : list Event) :
  current_query state = Some EmptyString ->
  (exists state',
     node name agents state tr = (Ok (state', agents), tr) /\
     messages state' = messages state /\
     length (messages state') = length (messages state) /\
     response state' = Some no_query_apology) /\
  (forall agents0 state0 tr0,
     current_query (entry_node state0) = Some EmptyString ->
     exists state',
       invoke agents0 state0 tr0 = (Ok (state', agents0), tr0) /\
       messages state' = messages state0 /\
       response state' = Some no_query_apology) /\
  (forall agents0 state0 tr0 c q,
     current_query state0 = Some (String c q) ->
     exists state' agents' tr' text,
       node name agents0 state0 tr0 = (Ok (state', agents'), tr') /\
       messages state'
       = messages state0 ++
         [MsgObj {| Schemas.role := Schemas.ASSISTANT; Schemas.content := text;
                    Schemas.timestamp := None |}] /\
       length (messages state') = S (length (messages state0)) /\
       response state' = Some text).
Proof.
  intros Hq. split; [|split].
  - eexists. split; [apply node_no_query; by right|]. by simpl.
  - intros agents0 state0 tr0 Hq0. eexists.
    split; [by apply invoke_no_query|]. simpl.
    split; [|reflexivity]. unfold entry_node.
    by destruct (last _).
  - intros agents0 state0 tr0 c q Hq0.
    destruct (node_answers name agents0 state0 tr0 c q Hq0)
      as (evs & up & agents' & Hn & _ & _). cbv zeta in Hn.
    eexists _, _, _, _. split; [exact Hn|]. simpl.
    split; [reflexivity|]. split; [|reflexivity].
    rewrite length_app. simpl. lia.
Qed.

End Workflow.

Section WorkflowClaims.

Import Graph.

Lemma answer_of_failure (outcome : Result string) :
  match outcome with
  | Ok content => PyStr.strip content = EmptyString
  | Raise _ => True
  end ->
  answer_of outcome
  = match outcome with
    | Ok _ => Agent.apology_empty
    | Raise _ => Agent.apology_error
    end.
Proof.
  destruct outcome as [content|e]; [|reflexivity].
  intros Hblank. unfold answer_of. cbv zeta.
  destruct (PyStr.truthy content); [by rewrite Hblank|reflexivity].
Qed.

(** A node has answered with [text]: it returned normally, [text] is
    the response of the state and the one message added to the
    conversation, as an assistant message. *)
Definition answered_with `{Services} (name : State.AgentType) (agents : Agents)
    (state : GraphState) (tr : list Event) (agents' : Agents)
    (tr' : list Event) (text : string) : Prop :=
  exists state',
    node name agents state tr = (Ok (state', agents'), tr') /\
    response state' = Some text /\
    messages state'
    = messages state ++
      [MsgObj {| Schemas.role := Schemas.ASSISTANT; Schemas.content := text;
                 Schemas.timestamp := None |}].

(** C6. On a non-empty query each of the three agent nodes makes one
    call to the generation service, after its retrieval, and that call
    ends its log. When this call raises, whatever the service does on
    any other call, the node returns normally and its answer is the
    fixed apology for an error; when this call returns empty or
    whitespace-only text, its answer is the fixed apology for an empty
    response. In both cases the apology is the response of the state
    and is appended to the conversation as a new assistant message. *)
Theorem generation_failure_apology `{Services}
    (name : State.AgentType) (agents : Agents) (state : GraphState)
    (tr : list Event) (c : ascii) (q : string) :
  current_query state = Some (String c q) ->
  exists evs prompt agents',
    let outcome := llm_invoke (tr ++ evs) (agent_llm name) prompt in
    let tr' := (tr ++ evs) ++ [LlmInvoke (agent_llm name) prompt] in
    no_generation evs /\
    (node name agents state tr).2 = tr' /\
    (forall e,
       outcome = Raise e ->
       answered_with name agents state tr agents' tr'
         "I apologize, but I encountered an error while generating a response. Please try again or contact customer support.") /\
    (forall content,
       outcome = Ok content ->
       PyStr.strip content = EmptyString ->
       answered_with name agents state tr agents' tr'
         "I apologize, but I couldn't generate a response. Please try again or contact customer support.").
Proof.
  intros Hq.
  destruct (node_answers name agents state tr c q Hq)
    as (evs & up & agents' & Hn & _ & Hevs). cbv zeta in Hn.
  set (prompt := node_prompt name (messages state) up) in *.
  exists evs, prompt, agents'. cbv zeta.
  split; [exact Hevs|]. split; [by rewrite Hn|]. split.
  - intros e He. rewrite He in Hn.
    eexists. split; [exact Hn|]. split; reflexivity.
  - intros content Hc Hblank.
    pose proof (answer_of_failure (Ok content) Hblank) as Ha.
    rewrite Hc, Ha in Hn.
    eexists. split; [exact Hn|]. split; reflexivity.
Qed.

(** A conversation of one assistant greeting, and the empty agents. *)
Definition greeting_only : GraphState :=
  {| messages := [MsgObj {| Schemas.role := Schemas.ASSISTANT;
                            Schemas.content := "Welcome to the agency.";
                            Schemas.timestamp := None |}];
     current_query := None; routing_decision := None;
     retrieved_context := None; cached_data := None; session_id := None;
     current_agent := None; response := None |}.

Definition fresh_agents : Agents :=
  {| booking_agent := {| BookingPaymentsAgent.retriever := HybridRetriever.init None |};
     policy_agent := {| PolicyAgent.retriever := CAGRetriever.init |} |}.

(** One question, already taken as the current query. *)
Definition one_question : GraphState :=
  {| messages := [MsgObj {| Schemas.role := Schemas.USER;
                            Schemas.content := "Where is Bali?";
                            Schemas.timestamp := None |}];
     current_query := Some "Where is Bali?"; routing_decision := None;
     retrieved_context := None; cached_data := None; session_id := None;
     current_agent := None; response := None |}.

Lemma no_user_message_short_circuits_witness :
  current_query (entry_node greeting_only) = Some EmptyString /\
  invoke (H:=Doubles.offline) fresh_agents greeting_only []
  = (Ok (set_response (Some no_query_apology) (entry_node greeting_only),
         fresh_agents), []).
Proof.
  destruct (no_user_message_short_circuits (H:=Doubles.offline) greeting_only)
    as (Hq & _ & Hrun & _).
  - repeat constructor.
  - split; [exact Hq|apply Hrun].
Defined.

Lemma empty_query_leaves_conversation_witness :
  exists state',
    node (H:=Doubles.offline) State.policy fresh_agents
      (set_current_query (Some EmptyString) greeting_only) []
    = (Ok (state', fresh_agents), []) /\
    messages state' = messages greeting_only.
Proof.
  destruct (empty_query_leaves_conversation (H:=Doubles.offline) State.policy
              fresh_agents (set_current_query (Some EmptyString) greeting_only) []
              eq_refl) as [(state' & Hn & Hm & _) _].
  exists state'. split; [exact Hn|exact Hm].
Defined.

Lemma generation_failure_apology_witness :
  exists state' agents' tr',
    node (H:=Doubles.offline) State.travel_support fresh_agents one_question []
    = (Ok (state', agents'), tr') /\
    response state' = Some Agent.apology_error /\
    messages state'
    = messages one_question ++
      [MsgObj {| Schemas.role := Schemas.ASSISTANT;
                 Schemas.content := Agent.apology_error;
                 Schemas.timestamp := None |}].
Proof.
  destruct (generation_failure_apology (H:=Doubles.offline) State.travel_support
              fresh_agents one_question [] "W" "here is Bali?" eq_refl)
    as (evs & prompt & agents' & _ & _ & Hraise & _).
  destruct (Hraise ServiceError eq_refl) as (state' & Hn & Hr & Hm).
  exists state', agents'. eexists. split; [exact Hn|]. split; [exact Hr|exact Hm].
Defined.

End WorkflowClaims.

Section HistoryWindow.

Import Graph.

(** The trailing window as the code takes it: the user entries among the
    last four entries of the conversation. *)
Definition trailing_window (msgs : list StateMsg) : list LcMessage :=
  (fun e => HumanMessage (History.content e)) <$>
  List.filter (fun e => String.eqb (History.role e) "user")
    (Agent.last4 (conversation_history_of msgs)).

(** The text of a message of the state. *)
Definition message_text (msg : StateMsg) : string :=
  match msg with
  | MsgObj m => Schemas.content m
  | MsgDict _ c => default EmptyString c
  end.

(** Whether a message of the conversation counts as written by the
    user: a [Message] of role [USER], or a dict whose role is ["user"]
    or absent. *)
Definition user_authored (msg : StateMsg) : bool :=
  match msg with
  | MsgObj m =>
      match Schemas.role m with Schemas.USER => true | _ => false end
  | MsgDict r _ => String.eqb (default "user" r) "user"
  end.

(** The user-authored messages among some messages, as they stand in a
    prompt. *)
Definition user_messages_among (recent : list StateMsg) : list LcMessage :=
  (fun msg => HumanMessage (message_text msg)) <$> List.filter user_authored recent.

(** [recent] is the last [n] messages of [msgs]: its suffix of length
    [n], or all of it when it holds no more than [n]. *)
Definition last_messages (n : nat) (msgs recent : list StateMsg) : Prop :=
  exists earlier,
    msgs = earlier ++ recent /\
    (length recent = n \/ earlier = [] /\ length recent <= n).

(** The window over user entries only: the last four user entries of
    the conversation. *)
Definition last_four_user_messages (msgs : list StateMsg) : list LcMessage :=
  (fun e => HumanMessage (History.content e)) <$>
  Agent.last4
    (List.filter (fun e => String.eqb (History.role e) "user")
       (conversation_history_of msgs)).

(** The messages of a prompt between the system message and the final
    user prompt. *)
Definition conversation_portion (prompt : list LcMessage) : list LcMessage :=
  take (length prompt - 2) (drop 1 prompt).

(** The prompt of the last call to a chat model in a log. *)
Definition last_prompt (tr : list Event) : option (list LcMessage) :=
  match last tr with
  | Some (LlmInvoke _ prompt) => Some prompt
  | _ => None
  end.

Definition said (r : Schemas.MessageRole) (text : string) : StateMsg :=
  MsgObj {| Schemas.role := r; Schemas.content := text; Schemas.timestamp := None |}.

(** Four questions with the answers to the first three in between. *)
Definition alternating : GraphState :=
  {| messages := [said Schemas.USER "first question";
                  said Schemas.ASSISTANT "first answer";
                  said Schemas.USER "second question";
                  said Schemas.ASSISTANT "second answer";
                  said Schemas.USER "third question";
                  said Schemas.ASSISTANT "third answer";
                  said Schemas.USER "fourth question"];
     current_query := Some "fourth question"; routing_decision := None;
     retrieved_context := None; cached_data := None; session_id := None;
     current_agent := None; response := None |}.

(** Five questions in a row. *)
Definition five_questions : GraphState :=
  {| messages := [said Schemas.USER "question one";
                  said Schemas.USER "question two";
                  said Schemas.USER "question three";
                  said Schemas.USER "question four";
                  said Schemas.USER "question five"];
     current_query := Some "question five"; routing_decision := None;
     retrieved_context := None; cached_data := None; session_id := None;
     current_agent := None; response := None |}.

(** C4, as stated, does not hold: in a conversation of four questions
    and three answers the prompt carries the last two questions, not the
    last four. *)
Lemma history_window_as_stated_fails :
  match travel_support_node (H:=Doubles.offline) alternating [] with
  | (_, tr) =>
      (conversation_portion <$> last_prompt tr)
      = Some [HumanMessage "third question"; HumanMessage "fourth question"] /\
      (conversation_portion <$> last_prompt tr)
      <> Some (last_four_user_messages (messages alternating))
  end.
Proof. vm_compute. split; [reflexivity|]. intros Heq. discriminate Heq. Qed.

Lemma trailing_window_length msgs : length (trailing_window msgs) <= 4.
Proof.
  unfold trailing_window, Agent.last4. rewrite length_fmap.
  etrans; [apply List.filter_length_le|]. rewrite length_drop. lia.
Qed.

Lemma conversation_portion_prompt system_prompt window user_prompt :
  conversation_portion
    ([SystemMessage system_prompt] ++ window ++ [HumanMessage user_prompt])
  = window.
Proof.
  unfold conversation_portion.
  change (drop 1 ([SystemMessage system_prompt] ++ window ++ [HumanMessage user_prompt]))
    with (window ++ [HumanMessage user_prompt]).
  assert (length ([SystemMessage system_prompt] ++ window ++ [HumanMessage user_prompt]) - 2
          = length window) as ->.
  { rewrite !length_app. simpl. lia. }
  apply take_app_length.
Qed.

Lemma trailing_window_last msgs recent :
  last_messages 4 msgs recent ->
  trailing_window msgs = user_messages_among recent.
Proof.
  intros (earlier & -> & Hlen).
  unfold trailing_window, user_messages_among, conversation_history_of, Agent.last4.
  rewrite length_fmap, length_app, <- fmap_drop.
  assert (drop (length earlier + length recent - 4) (earlier ++ recent) = recent)
    as ->.
  { destruct Hlen as [H4|[-> Hle]].
    - replace (length earlier + length recent - 4) with (length earlier) by lia.
      apply drop_app_length.
    - simpl. replace (length recent - 4) with 0 by lia. reflexivity. }
  clear. induction recent as [|msg recent IH]; [reflexivity|].
  cbn [fmap list_fmap List.filter].
  assert (Hsame :
    String.eqb
      (History.role
         match msg with
         | MsgObj m =>
             {| History.role := Schemas.value (Schemas.role m);
                History.content := Schemas.content m |}
         | MsgDict r c =>
             {| History.role := default "user" r;
                History.content := default EmptyString c |}
         end) "user" = user_authored msg).
  { destruct msg as [[[] content ts]|r c]; reflexivity. }
  rewrite Hsame. destruct (user_authored msg); [|exact IH].
  cbn [fmap list_fmap]. f_equal; [|exact IH]. by destruct msg.
Qed.

(** C4, amended. On a non-empty query each of the three agent nodes
    sends the generation service one prompt: the system prompt of its
    agent, then the trailing window, then a user prompt that contains the
    current query. The trailing window is taken over the last four
    messages of the conversation, whoever wrote them (all of them when
    the conversation holds no more than four), and keeps the
    user-authored ones among these, in their order; assistant messages
    are left out of the prompt but do take slots of the window, so the
    window holds at most four messages and fewer when assistant messages
    are among the last four. *)
Theorem history_window `{Services}
    (name : State.AgentType) (agents : Agents) (state : GraphState)
    (tr : list Event) (c : ascii) (q : string) (recent : list StateMsg) :
  current_query state = Some (String c q) ->
  last_messages 4 (messages state) recent ->
  exists result tr' user_prompt,
    node name agents state tr = (Ok result, tr') /\
    last_prompt tr'
    = Some ([SystemMessage (agent_system_prompt name)]
              ++ user_messages_among recent
              ++ [HumanMessage user_prompt]) /\
    (conversation_portion <$> last_prompt tr')
    = Some (user_messages_among recent) /\
    length (user_messages_among recent) <= 4 /\
    substring_of (String c q) user_prompt.
Proof.
  intros Hq Hrecent.
  destruct (node_answers name agents state tr c q Hq)
    as (evs & up & agents' & Hn & Hsub & _). cbv zeta in Hn.
  eexists _, _, up. split; [exact Hn|].
  assert (Hlast : last_prompt
            ((tr ++ evs) ++ [LlmInvoke (agent_llm name)
                               (node_prompt name (messages state) up)])
          = Some ([SystemMessage (agent_system_prompt name)]
                    ++ trailing_window (messages state) ++ [HumanMessage up])).
  { unfold last_prompt. by rewrite last_snoc. }
  rewrite (trailing_window_last _ _ Hrecent) in Hlast.
  split; [exact Hlast|]. split; [|split; [|exact Hsub]].
  - rewrite Hlast. simpl fmap. f_equal. apply conversation_portion_prompt.
  - rewrite <- (trailing_window_last _ _ Hrecent). apply trailing_window_length.
Qed.

Lemma history_window_witness :
  exists result tr',
    node (H:=Doubles.offline) State.travel_support fresh_agents five_questions []
    = (Ok result, tr') /\
    (conversation_portion <$> last_prompt tr')
    = Some [HumanMessage "question two"; HumanMessage "question three";
            HumanMessage "question four"; HumanMessage "question five"].
Proof.
  destruct (history_window (H:=Doubles.offline) State.travel_support fresh_agents
              five_questions [] "q" "uestion five"
              (drop 1 (messages five_questions)) eq_refl)
    as (result & tr' & up & Hn & _ & Hp & _).
  - exists [said Schemas.USER "question one"]. split; [reflexivity|].
    left. reflexivity.
  - exists result, tr'. split; [exact Hn|]. rewrite Hp. reflexivity.
Defined.

End HistoryWindow.

(** * Further properties of the sources *)

(** ** A whole run of the workflow *)

Section WholeRun.

Import Graph.

Context `{Services}.

(** The number of calls to the chat model of a provider in a log. *)
Definition llm_calls (p : Provider) (tr : list Event) : nat :=
  length (List.filter
            (fun ev => match ev with
                       | LlmInvoke llm _ =>
                           match provider llm, p with
                           | Bedrock, Bedrock | OpenAI, OpenAI => true
                           | _, _ => false
                           end
                       | _ => false
                       end) tr).

Lemma llm_calls_app p tr1 tr2 :
  llm_calls p (tr1 ++ tr2) = llm_calls p tr1 + llm_calls p tr2.
Proof. unfold llm_calls. by rewrite List.filter_app, length_app. Qed.

Lemma llm_calls_no_generation p evs : no_generation evs -> llm_calls p evs = 0.
Proof.
  unfold llm_calls. induction 1 as [|ev evs Hev _ IH]; [reflexivity|].
  simpl. by destruct ev.
Qed.

Lemma llm_calls_one p llm prompt :
  llm_calls p [LlmInvoke llm prompt]
  = match provider llm, p with
    | Bedrock, Bedrock | OpenAI, OpenAI => 1
    | _, _ => 0
    end.
Proof. unfold llm_calls. simpl. by destruct (provider llm), p. Qed.

(** The router logs one call to the classifier, whatever comes back. *)
Lemma route_query_log query tr :
  exists d,
    OrchestratorAgent.route_query query tr
    = (Ok d, tr ++ [LlmInvoke OrchestratorAgent.llm
                      (OrchestratorAgent.routing_messages query)]) /\
    in_unit_interval (State.confidence d).
Proof.
  destruct (fallback_routing_total query) as (df & Hdf & Hrange).
  unfold OrchestratorAgent.route_query, try_except, call, lift, mbind, IO_bind.
  destruct (llm_invoke _ _ _) as [content|e].
  - destruct (OrchestratorAgent.parse_response content) as [data|e].
    + destruct (OrchestratorAgent.validated_decision data) as [d|e] eqn:Hd.
      * exists d. split; [reflexivity|].
        unfold OrchestratorAgent.validated_decision, mbind, Result_bind in Hd.
        repeat match type of Hd with
               | match ?x with _ => _ end = _ => destruct x; try discriminate Hd
               end.
        eapply init_valid, Hd.
      * exists df. rewrite Hdf. split; [by destruct e|exact Hrange].
    + exists df. rewrite Hdf. split; [by destruct e|exact Hrange].
  - exists df. rewrite Hdf. split; [by destruct e|exact Hrange].
Qed.

Lemma answer_of_nonempty outcome : answer_of outcome <> EmptyString.
Proof.
  destruct outcome as [content|e]; [|discriminate].
  unfold answer_of. cbv zeta.
  destruct (if PyStr.truthy content then PyStr.strip content else EmptyString);
    discriminate.
Qed.

Lemma entry_node_messages state : messages (entry_node state) = messages state.
Proof. unfold entry_node. by destruct (last _). Qed.

(** A run on a non-empty query returns normally. The final state holds
    the router's decision, with a confidence in [0, 1], and names its
    category as the current agent; the response is a non-empty text and
    is the one message added to the conversation; the classifier was
    called once and the generation service once, with the prompt of the
    agent the decision names as the last call of the run. *)
Theorem invoke_answers (agents : Agents) (state : GraphState)
    (tr : list Event) (c : ascii) (q : string) :
  current_query (entry_node state) = Some (String c q) ->
  exists d state' agents' tr' text prompt,
    invoke agents state tr = (Ok (state', agents'), tr') /\
    routing_decision state' = Some d /\
    current_agent state' = Some (State.agent_type d) /\
    in_unit_interval (State.confidence d) /\
    response state' = Some text /\ text <> EmptyString /\
    messages state'
    = messages state ++
      [MsgObj {| Schemas.role := Schemas.ASSISTANT; Schemas.content := text;
                 Schemas.timestamp := None |}] /\
    last tr' = Some (LlmInvoke (agent_llm (State.agent_type d)) prompt) /\
    llm_calls Bedrock tr' = llm_calls Bedrock tr + 1 /\
    llm_calls OpenAI tr' = llm_calls OpenAI tr + 1.
Proof.
  intros Hq.
  destruct (route_query_log (String c q) tr) as (d & Hroute & Hconf).
  set (tr1 := tr ++ [LlmInvoke OrchestratorAgent.llm
                       (OrchestratorAgent.routing_messages (String c q))]) in *.
  set (routed := set_routing d (entry_node state)).
  assert (Horch : orchestrator_node (entry_node state) tr = (Ok routed, tr1)).
  { unfold orchestrator_node. rewrite Hq. apply try_except_ok.
    by erewrite io_bind_ok; [|exact Hroute]. }
  destruct (node_answers (State.agent_type d) agents routed tr1 c q Hq)
    as (evs & up & agents' & Hn & _ & Hevs). cbv zeta in Hn.
  eexists d, _, agents', _, _, _. split.
  { unfold invoke. cbv zeta. erewrite io_bind_ok; [|exact Horch]. exact Hn. }
  simpl. split; [reflexivity|]. split; [reflexivity|]. split; [exact Hconf|].
  split; [reflexivity|]. split; [apply answer_of_nonempty|].
  split; [by rewrite entry_node_messages|].
  split; [apply last_snoc|].
  unfold tr1. rewrite !llm_calls_app, !(llm_calls_no_generation _ evs Hevs).
  rewrite !llm_calls_one. simpl provider.
  assert (provider (agent_llm (State.agent_type d)) = OpenAI) as ->
    by (by destruct (State.agent_type d)).
  split; lia.
Qed.

End WholeRun.

Section WholeRunWitness.

Import Graph.

Lemma invoke_answers_witness :
  exists state' agents' tr',
    invoke (H:=Doubles.offline) fresh_agents one_question []
    = (Ok (state', agents'), tr') /\
    length (messages state') = 2.
Proof.
  destruct (invoke_answers (H:=Doubles.offline) fresh_agents one_question []
              "W" "here is Bali?" eq_refl)
    as (d & state' & agents' & tr' & text & prompt & Hrun & _ & _ & _ & _ & _ & Hm & _).
  exists state', agents', tr'. split; [exact Hrun|]. by rewrite Hm.
Defined.

End WholeRunWitness.

(** ** The entry node *)

Section EntryNode.

Import Graph.

Lemma filter_none {A} (f : A -> bool) (l : list A) :
  Forall (fun x => f x = false) l -> List.filter f l = [].
Proof.
  induction 1 as [|x l Hx _ IH]; [reflexivity|]. simpl. by rewrite Hx.
Qed.

(** The entry node takes the text of the most recent user message as the
    current query, whatever follows it from other roles, and changes no
    other field of the state. *)
Theorem entry_node_latest_user (state : GraphState)
    (earlier : list StateMsg) (msg : StateMsg) (later : list StateMsg) :
  messages state = earlier ++ msg :: later ->
  is_user msg = true ->
  Forall (fun m => is_user m = false) later ->
  entry_node state = set_current_query (Some (message_text msg)) state.
Proof.
  intros Hm Hu Hlater. unfold entry_node. rewrite Hm.
  rewrite List.filter_app. simpl List.filter. rewrite Hu, (filter_none _ _ Hlater).
  rewrite last_snoc. by destruct msg.
Qed.

Lemma entry_node_latest_user_witness :
  entry_node alternating = set_current_query (Some "fourth question") alternating.
Proof.
  apply (entry_node_latest_user alternating
           (take 6 (messages alternating))
           (said Schemas.USER "fourth question") []);
    [reflexivity|reflexivity|constructor].
Defined.

End EntryNode.

(** ** Invalidation of the static cache *)

Section Invalidation.

Import CAGRetriever.

Context `{Services}.

(** [clear_cache] with a non-empty name forgets that category and no
    other; the next request for it reads the corpus again, once, and
    caches what the corpus yields then. Without a name, or with the empty
    name, every category is forgotten. *)
Theorem clear_cache_reloads (c : ascii) (name : string) (self : t) (tr : list Event) :
  let a := String c name in
  let cleared := clear_cache (Some a) self in
  cached_documents cleared !! a = None /\
  (forall b, b <> a -> cached_documents cleared !! b = cached_documents self !! b) /\
  (exists self',
     get_cached_documents a cleared tr
     = (Ok (read_corpus tr, self'), tr ++ [ReadCorpus a]) /\
     cached_documents self' !! a = Some (read_corpus tr) /\
     get_cached_documents a self' (tr ++ [ReadCorpus a])
     = (Ok (read_corpus tr, self'), tr ++ [ReadCorpus a])) /\
  cached_documents (clear_cache None self) = ∅ /\
  cached_documents (clear_cache (Some EmptyString) self) = ∅.
Proof.
  intros a cleared. split; [apply lookup_delete_eq|].
  split; [intros b Hb; by apply lookup_delete_ne|].
  split; [|by split].
  assert (Hnone : cached_documents cleared !! a = None) by apply lookup_delete_eq.
  eexists. split; [by apply get_cached_documents_miss|].
  split; [apply lookup_insert_eq|].
  apply get_cached_documents_hit. apply lookup_insert_eq.
Qed.

End Invalidation.

(** ** Keyword search over the cached documents *)

Section Search.

Import CAGRetriever.

Lemma lower_char_idempotent c : PyStr.lower_char (PyStr.lower_char c) = PyStr.lower_char c.
Proof. by destruct c as [[] [] [] [] [] [] [] []]. Qed.

Lemma lower_idempotent s : PyStr.lower (PyStr.lower s) = PyStr.lower s.
Proof.
  induction s as [|c s IH]; [reflexivity|].
  simpl. by rewrite lower_char_idempotent, IH.
Qed.

Lemma isspace_lower_char c : PyStr.isspace (PyStr.lower_char c) = PyStr.isspace c.
Proof. by destruct c as [[] [] [] [] [] [] [] []]. Qed.

(** Every code point of the string is whitespace. *)
Fixpoint blank (s : string) : bool :=
  match s with
  | EmptyString => true
  | String c s' => PyStr.isspace c && blank s'
  end.

Lemma blank_lower s : blank (PyStr.lower s) = blank s.
Proof.
  induction s as [|c s IH]; [reflexivity|].
  simpl. by rewrite isspace_lower_char, IH.
Qed.

Lemma split_blank s : blank s = true -> PyStr.split s = [].
Proof.
  unfold PyStr.split. induction s as [|c s IH]; [reflexivity|].
  simpl. intros [Hc Hs]%andb_true_iff. rewrite Hc. auto.
Qed.

Lemma filter_sublist {A} (f : A -> bool) (l : list A) : sublist (List.filter f l) l.
Proof.
  induction l as [|x l IH]; [constructor|].
  simpl. destruct (f x); by constructor.
Qed.

(** The documents a search returns, when the category is cached: those
    cached documents, in their order, in which some whitespace-separated
    term of the lower-cased query occurs once the document is lower-cased.
    The search reads nothing and leaves the cache as it is; a query that
    is empty or all whitespace finds nothing; and the letter case of the
    query does not matter. *)
Theorem search_cached_spec_hit `{Services}
    (query agent_type : string) (self : t) (tr : list Event) (docs : list string) :
  cached_documents self !! agent_type = Some docs ->
  exists found,
    search_cached query agent_type false self tr = (Ok (found, self), tr) /\
    sublist found docs /\
    (forall doc,
       In doc found <->
       In doc docs /\
       exists term, In term (PyStr.split (PyStr.lower query)) /\
                    substring_of term (PyStr.lower doc)) /\
    (blank query = true -> found = []) /\
    search_cached (PyStr.lower query) agent_type false self tr = (Ok (found, self), tr).
Proof.
  intros Hc. exists (matching_docs query false docs).
  assert (Hs : forall q, search_cached q agent_type false self tr
                         = (Ok (matching_docs q false docs, self), tr)).
  { intros q. unfold search_cached.
    by rewrite (io_bind_ok _ _ _ _ _ (get_cached_documents_hit _ _ _ _ Hc)). }
  split; [apply Hs|]. split; [apply filter_sublist|]. split; [|split].
  - intros doc. unfold matching_docs. simpl negb. cbv iota.
    rewrite List.filter_In, existsb_exists.
    split; intros [Hin (term & Ht & Hsub)]; (split; [exact Hin|]);
      exists term; (split; [exact Ht|]); by apply contains_spec.
  - intros Hb. unfold matching_docs. simpl negb. cbv iota.
    rewrite split_blank by (by rewrite blank_lower).
    clear. induction docs as [|d ds IH]; [reflexivity|]. exact IH.
  - rewrite Hs. unfold matching_docs. simpl negb. cbv iota.
    by rewrite lower_idempotent.
Qed.

End Search.

Section SearchWitness.

Definition two_policies : CAGRetriever.t :=
  {| CAGRetriever.cached_documents :=
       {[ "policy" := ["Refund Policy: refunds within 14 days.";
                       "Baggage: one bag of 23 kg."] ]} |}.

Lemma search_cached_spec_hit_witness :
  exists found,
    CAGRetriever.search_cached (H:=Doubles.offline) "REFUND please" "policy" false
      two_policies []
    = (Ok (found, two_policies), []) /\
    sublist found ["Refund Policy: refunds within 14 days.";
                   "Baggage: one bag of 23 kg."].
Proof.
  destruct (search_cached_spec_hit (H:=Doubles.offline) "REFUND please" "policy"
              two_policies [] _ eq_refl) as (found & Hs & Hsub & _).
  exists found. split; [exact Hs|exact Hsub].
Defined.

End SearchWitness.

(** ** The derived subset of the hybrid retriever *)

Section DerivedSubset.

Import HybridRetriever.

Context `{Services}.

Ltac io_unfold :=
  unfold try_except, call, lift, mbind, mret, IO_bind, IO_ret in *.

Lemma relevant_policies_spec docs doc :
  In doc (relevant_policies docs) <->
  In doc docs /\
  exists keyword, In keyword policy_keywords /\
                  substring_of keyword (PyStr.lower doc).
Proof.
  unfold relevant_policies. rewrite List.filter_In, existsb_exists.
  split; intros [Hin (kw & Hk & Hsub)]; (split; [exact Hin|]);
    exists kw; (split; [exact Hk|]); by apply contains_spec.
Qed.

(** The first initialization when the policy category is not cached: one
    read of the corpus, which is cached, and the subset derived from it. *)
Lemma initialize_cache_miss agent_type self tr :
  cache_initialized self = false ->
  CAGRetriever.cached_documents (cag_retriever self) !! "policy" = None ->
  initialize_cache agent_type self tr
  = (Ok {| cag_retriever :=
             {| CAGRetriever.cached_documents :=
                  <["policy" := read_corpus tr]>
                    (CAGRetriever.cached_documents (cag_retriever self)) |};
           static_policy_cache := relevant_policies (read_corpus tr);
           cache_initialized := true |},
     tr ++ [ReadCorpus "policy"]).
Proof.
  intros Hi Hc. unfold initialize_cache. rewrite Hi. change (negb false) with true. cbv iota.
  rewrite (io_bind_ok _ _ _ _ _ (cache_documents_miss _ _ _ Hc)).
  erewrite io_bind_ok;
    [|apply get_cached_documents_hit; apply lookup_insert_eq].
  reflexivity.
Qed.

(** [get_static_policies] returns the derived subset. Once initialized
    it answers from the stored subset and reads nothing. Before, it
    initializes first: the subset it returns holds exactly the cached
    policy documents that name one of the five relevance keywords
    (letter case ignored), in their order; the corpus is read at most
    once, and a second call returns the same list without reading. *)
Theorem get_static_policies_spec (self : t) (tr : list Event) :
  (cache_initialized self = true ->
   get_static_policies self tr = (Ok (static_policy_cache self, self), tr)) /\
  (cache_initialized self = false ->
   exists docs self' evs,
     get_static_policies self tr = (Ok (relevant_policies docs, self'), tr ++ evs) /\
     CAGRetriever.cached_documents (cag_retriever self') !! "policy" = Some docs /\
     loads "policy" evs <= 1 /\
     sublist (relevant_policies docs) docs /\
     (forall doc,
        In doc (relevant_policies docs) <->
        In doc docs /\
        exists keyword,
          In keyword ["payment"; "cancellation"; "refund"; "booking"; "terms"] /\
          substring_of keyword (PyStr.lower doc)) /\
     get_static_policies self' (tr ++ evs)
     = (Ok (relevant_policies docs, self'), tr ++ evs)).
Proof.
  split; intros Hi.
  - unfold get_static_policies. by rewrite Hi.
  - destruct (initialize_cache_first "booking_payments" self tr Hi)
      as (cag & evs & docs & Hinit & Hdocs & Hevs).
    eexists docs, _, evs. split.
    { unfold get_static_policies. rewrite Hi. change (negb false) with true. cbv iota.
      by rewrite (io_bind_ok _ _ _ _ _ Hinit). }
    split; [exact Hdocs|]. split.
    { destruct Hevs as [[-> _]|[-> _]]; [unfold loads; simpl; lia|].
      by rewrite loads_read. }
    split; [apply filter_sublist|]. split; [apply relevant_policies_spec|].
    reflexivity.
Qed.

(** After [clear_cache] the hybrid retriever starts over: the next
    retrieval reads the corpus for [policy] exactly once, derives the
    subset from what it reads, and searches what it reads. *)
Theorem hybrid_clear_then_retrieve
    (query agent_type : string) (top_k : Z) (self : t) (tr : list Event) :
  cache_initialized (clear_cache self) = false /\
  static_policy_cache (clear_cache self) = [] /\
  exists results self' evs,
    retrieve query agent_type top_k true (clear_cache self) tr
    = (Ok (results, self'), tr ++ evs) /\
    loads "policy" evs = 1 /\
    static results
    = static_doc <$>
      take 3 (CAGRetriever.matching_docs query false (read_corpus tr)) /\
    static_policy_cache self' = relevant_policies (read_corpus tr) /\
    cache_initialized self' = true.
Proof.
  split; [reflexivity|]. split; [reflexivity|].
  set (tr1 := tr ++ [ReadCorpus "policy"]).
  destruct (retrieve_total query agent_type top_k None tr1)
    as (dyn & evs2 & Hdyn & Hevs2).
  eexists _, _, ([ReadCorpus "policy"] ++ evs2). split.
  { unfold retrieve.
    change (cache_initialized (clear_cache self)) with false.
    change (negb false) with true. cbv iota.
    rewrite (io_bind_ok _ _ _ _ _
               (initialize_cache_miss agent_type (clear_cache self) tr
                  eq_refl (lookup_empty _))).
    fold tr1.
    erewrite io_bind_ok; [|apply try_except_ok; exact Hdyn].
    cbv iota.
    erewrite io_bind_ok; [|unfold CAGRetriever.search_cached;
      erewrite io_bind_ok;
        [|apply get_cached_documents_hit; simpl; apply lookup_insert_eq];
      reflexivity].
    unfold tr1. by rewrite <- app_assoc. }
  split; [|split; [reflexivity|split; reflexivity]].
  rewrite loads_app, loads_read.
  assert (loads "policy" evs2 = 0) as ->; [|reflexivity].
  clear Hdyn. unfold loads.
  induction Hevs2 as [|ev evs Hev _ IH]; [reflexivity|].
  simpl. by destruct ev.
Qed.

End DerivedSubset.

(** ** More on the semantic retriever *)

Section SemanticRetrieverResults.

Import RAGRetriever.

Context `{Services}.

(** The filter [retrieve] queries the vector store with. *)
Definition where_clause_of (agent_type : string)
    (filter_metadata : option (gmap string string)) : gmap string string :=
  match filter_metadata with
  | Some extra => extra ∪ {[ "agent_type" := agent_type ]}
  | None => {[ "agent_type" := agent_type ]}
  end.

Lemma retrieve_unfold query agent_type top_k filter_metadata tr :
  retrieve query agent_type top_k filter_metadata tr
  = match embed_query tr query with
    | Raise _ => (Ok [], tr ++ [EmbedQuery query])
    | Ok emb =>
        let w := where_clause_of agent_type filter_metadata in
        let tr1 := tr ++ [EmbedQuery query] in
        (Ok match collection_query tr1 emb top_k w with
            | Ok results =>
                match format_results results with
                | Ok docs => docs
                | Raise _ => []
                end
            | Raise _ => []
            end,
         tr1 ++ [CollectionQuery emb top_k w])
    end.
Proof.
  unfold retrieve, try_except, call, lift, mbind, mret, IO_bind, IO_ret.
  destruct (embed_query tr query) as [emb|e]; [|reflexivity].
  fold (where_clause_of agent_type filter_metadata). cbv zeta.
  destruct (collection_query _ _ _ _) as [results|e]; [|reflexivity].
  by destruct (format_results results).
Qed.

Lemma mapM_ok {A B} (f : A -> Result B) (g : A -> B) (l : list A) :
  Forall (fun a => f a = Ok (g a)) l -> mapM f l = Ok (g <$> l).
Proof.
  induction 1 as [|a l Ha _ IH]; [reflexivity|].
  change (mapM f (a :: l)) with (y ← f a; k ← mapM f l; mret (y :: k)).
  by rewrite Ha, IH.
Qed.

Lemma mapM_raise {A B} (f : A -> Result B) (l : list A) a e :
  In a l -> f a = Raise e -> exists e', mapM f l = Raise e'.
Proof.
  induction l as [|x l IH]; [intros []|].
  intros Hin Hf.
  change (mapM f (x :: l)) with (y ← f x; k ← mapM f l; mret (y :: k)).
  destruct Hin as [->|Hin].
  - rewrite Hf. by eexists.
  - destruct (f x); [|by eexists].
    destruct (IH Hin Hf) as [e' ->]. by eexists.
Qed.

(** [retrieve] never raises. When the embedding service fails the vector
    store is not queried; when the store fails, or answers with lists
    that do not line up, or with no documents, the result is empty. The
    store is asked for [top_k] results under a filter that holds every
    caller-supplied entry and, unless the caller supplies that key, the
    category under [agent_type]. *)
Theorem retrieve_absorbs_failures
    (query agent_type : string) (top_k : Z)
    (filter_metadata : option (gmap string string)) (tr : list Event) :
  let w := where_clause_of agent_type filter_metadata in
  let tr1 := tr ++ [EmbedQuery query] in
  (forall e, embed_query tr query = Raise e ->
             retrieve query agent_type top_k filter_metadata tr = (Ok [], tr1)) /\
  (forall emb, embed_query tr query = Ok emb ->
     exists docs,
       retrieve query agent_type top_k filter_metadata tr
       = (Ok docs, tr1 ++ [CollectionQuery emb top_k w]) /\
       (forall e, collection_query tr1 emb top_k w = Raise e -> docs = []) /\
       (forall results e,
          collection_query tr1 emb top_k w = Ok results ->
          format_results results = Raise e -> docs = []) /\
       (forall results,
          collection_query tr1 emb top_k w = Ok results ->
          Chroma.documents results = None \/ Chroma.documents results = Some [] ->
          docs = [])) /\
  (forall key value,
     filter_metadata = Some key ->
     forall k, key !! k = Some value -> w !! k = Some value) /\
  (match filter_metadata with
   | Some extra => extra !! "agent_type" = None
   | None => True
   end -> w !! "agent_type" = Some agent_type).
Proof.
  intros w tr1. split; [|split; [|split]].
  - intros e He. by rewrite retrieve_unfold, He.
  - intros emb He. eexists. split; [by rewrite retrieve_unfold, He|].
    fold w tr1. split; [|split].
    + by intros e ->.
    + by intros results e -> ->.
    + intros results -> Hd. unfold format_results. by destruct Hd as [-> | ->].
  - intros extra value -> k Hk. unfold w. simpl.
    by apply lookup_union_Some_l.
  - unfold w. destruct filter_metadata as [extra|]; simpl.
    + intros Hn. rewrite lookup_union_r by exact Hn. apply lookup_singleton_eq.
    + intros _. apply lookup_singleton_eq.
Qed.

(** When both services answer and the store's lists line up, [retrieve]
    returns one chunk per document, in the store's order, the i-th chunk
    holding the i-th document, its metadata and its distance. *)
Theorem retrieve_ranked
    (query agent_type : string) (top_k : Z) (tr : list Event)
    (emb : list float) (results : Chroma.QueryResult)
    (docs0 : list string) (metas0 : list (gmap string string))
    (dists0 : list float) (r1 : list (list string))
    (r2 : list (list (gmap string string))) (r3 : list (list float)) :
  embed_query tr query = Ok emb ->
  collection_query (tr ++ [EmbedQuery query]) emb top_k
    {[ "agent_type" := agent_type ]} = Ok results ->
  Chroma.documents results = Some (docs0 :: r1) ->
  Chroma.metadatas results = Some (metas0 :: r2) ->
  Chroma.distances results = Some (dists0 :: r3) ->
  length metas0 = length docs0 ->
  length dists0 = length docs0 ->
  exists docs tr',
    retrieve query agent_type top_k None tr = (Ok docs, tr') /\
    length docs = length docs0 /\
    forall i c m d,
      docs0 !! i = Some c -> metas0 !! i = Some m -> dists0 !! i = Some d ->
      docs !! i
      = Some {| content := c; metadata := m; distance := Some d;
                similarity := None |}.
Proof.
  intros He Hq Hdocs Hmetas Hdists Hlm Hld.
  set (g := fun i =>
    {| content := default EmptyString (docs0 !! i);
       metadata := default ∅ (metas0 !! i);
       distance := Some (default 0%float (dists0 !! i));
       similarity := None |}).
  assert (Hfmt : format_results results = Ok (g <$> seq 0 (length docs0))).
  { unfold format_results. rewrite Hdocs. apply mapM_ok.
    apply Forall_forall. intros i Hi%elem_of_seq.
    assert (Hi' : i < length docs0) by lia.
    destruct (lookup_lt_is_Some_2 docs0 i Hi') as [c Hc].
    destruct (lookup_lt_is_Some_2 metas0 i ltac:(lia)) as [m Hm].
    destruct (lookup_lt_is_Some_2 dists0 i ltac:(lia)) as [d Hd].
    destruct dists0 as [|d0 ds]; [by rewrite lookup_nil in Hd|].
    unfold format_doc, index, g. by rewrite Hmetas, Hdists, Hc, Hm, Hd. }
  eexists _, _. split.
  { rewrite retrieve_unfold, He. cbv zeta. unfold where_clause_of.
    rewrite Hq, Hfmt. reflexivity. }
  split; [by rewrite length_fmap, length_seq|].
  intros i c m d Hc Hm Hd.
  rewrite list_lookup_fmap, lookup_seq_lt by (by eapply lookup_lt_Some).
  simpl. unfold g. by rewrite Hc, Hm, Hd.
Qed.

End SemanticRetrieverResults.

Section SemanticRetrieverShape.

Import RAGRetriever.

Context `{Services}.

(** When the store returns fewer metadata entries than documents, the
    loop of [retrieve] raises [IndexError] part-way, the chunks built so
    far are dropped and the result is empty. *)
Theorem retrieve_misaligned
    (query agent_type : string) (top_k : Z)
    (filter_metadata : option (gmap string string)) (tr : list Event)
    (emb : list float) (results : Chroma.QueryResult)
    (docs0 : list string) (metas0 : list (gmap string string))
    (r1 : list (list string)) (r2 : list (list (gmap string string))) :
  embed_query tr query = Ok emb ->
  collection_query (tr ++ [EmbedQuery query]) emb top_k
    (where_clause_of agent_type filter_metadata) = Ok results ->
  Chroma.documents results = Some (docs0 :: r1) ->
  Chroma.metadatas results = Some (metas0 :: r2) ->
  length metas0 < length docs0 ->
  exists tr', retrieve query agent_type top_k filter_metadata tr = (Ok [], tr').
Proof.
  intros He Hq Hdocs Hmetas Hlen.
  assert (Hfmt : exists e, format_results results = Raise e).
  { unfold format_results. rewrite Hdocs.
    apply (mapM_raise _ _ (length metas0) IndexError).
    - apply in_seq. lia.
    - destruct (lookup_lt_is_Some_2 docs0 (length metas0) Hlen) as [c Hc].
      unfold format_doc, index. rewrite Hmetas, Hc.
      by rewrite (lookup_ge_None_2 metas0 (length metas0)) by lia. }
  destruct Hfmt as [e Hfmt].
  eexists. rewrite retrieve_unfold, He. cbv zeta. by rewrite Hq, Hfmt.
Qed.

End SemanticRetrieverShape.

Section SemanticRetrieverWitness.

Import RAGRetriever.

Definition two_chunks : Chroma.QueryResult :=
  {| Chroma.documents := Some [["Carry-on: one bag."; "Checked: 23 kg."]];
     Chroma.metadatas := Some [[{[ "source" := "baggage.txt" ]}; ∅]];
     Chroma.distances := Some [[0.25%float; 0.5%float]] |}.

Definition short_metadata : Chroma.QueryResult :=
  {| Chroma.documents := Some [["Carry-on: one bag."; "Checked: 23 kg."]];
     Chroma.metadatas := Some [[∅]];
     Chroma.distances := None |}.

Definition store_answers (results : Chroma.QueryResult) : Services :=
  Doubles.services (fun _ => Raise ServiceError) (Raise JSONDecodeError)
    (Ok results) [].

Lemma retrieve_ranked_witness :
  exists docs tr',
    retrieve (H:=store_answers two_chunks) "baggage" "travel_support" 5 None []
    = (Ok docs, tr') /\
    length docs = 2 /\
    docs !! 1
    = Some {| content := "Checked: 23 kg."; metadata := ∅;
              distance := Some 0.5%float; similarity := None |}.
Proof.
  destruct (retrieve_ranked (H:=store_answers two_chunks)
              "baggage" "travel_support" 5 [] [] two_chunks
              ["Carry-on: one bag."; "Checked: 23 kg."]
              [{[ "source" := "baggage.txt" ]}; ∅]
              [0.25%float; 0.5%float] [] [] []
              eq_refl eq_refl eq_refl eq_refl eq_refl eq_refl eq_refl)
    as (docs & tr' & Hr & Hl & Hi).
  exists docs, tr'. split; [exact Hr|]. split; [exact Hl|].
  exact (Hi 1 _ _ _ eq_refl eq_refl eq_refl).
Defined.

Lemma retrieve_misaligned_witness :
  exists tr',
    retrieve (H:=store_answers short_metadata) "baggage" "travel_support" 5 None []
    = (Ok [], tr').
Proof.
  apply (retrieve_misaligned (H:=store_answers short_metadata)
           "baggage" "travel_support" 5 None [] [] short_metadata
           ["Carry-on: one bag."; "Checked: 23 kg."] [∅] [] []
           eq_refl eq_refl eq_refl eq_refl).
  simpl. lia.
Defined.

End SemanticRetrieverWitness.


(** ** The confidence clamp on all of binary64 *)

Section ClampS.

Import OrchestratorAgent.

(** The clamp [max(0.0, min(1.0, c))] on all of binary64: NaN and every
    value from 1 up, the positive infinity included, give 1; every value
    down from 0, the negative zero and the negative infinity included,
    gives the positive zero; a value strictly between 0 and 1 is kept. *)
Theorem clamp_saturates (c : float) :
  (is_nan c = true -> clamp c = 1%float) /\
  ((1 <=? c)%float = true -> clamp c = 1%float) /\
  ((c <=? 0)%float = true -> clamp c = 0%float) /\
  ((0 <? c)%float = true -> (c <? 1)%float = true -> clamp c = c).
Proof.
  unfold clamp, PyFloat.max, PyFloat.min. split; [|split; [|split]].
  - intros Hn. by rewrite (ltb_nan_l c 1 Hn).
  - intros H1. by rewrite (ge_one_not_lt c H1).
  - intros H0. destruct (le_zero_cases c H0) as [-> H]. by rewrite H.
  - intros H0 H1. by rewrite H1, H0.
Qed.

End ClampS.

(** ** Replies the router cannot use *)

Section UnusableReply.

Import OrchestratorAgent.

Context `{Services}.

Lemma handler_fallback query e tr :
  (match e with
   | JSONDecodeError => lift (_fallback_routing query)
   | _ => lift (_fallback_routing query)
   end) tr = (_fallback_routing query, tr).
Proof. by destruct e. Qed.

Lemma route_query_unfold query tr :
  let tr1 := tr ++ [LlmInvoke llm (routing_messages query)] in
  route_query query tr
  = match r ← (content ← llm_invoke tr llm (routing_messages query);
               parse_response content);
          validated_decision r with
    | Ok d => (Ok d, tr1)
    | Raise _ => (_fallback_routing query, tr1)
    end.
Proof.
  intros tr1. unfold route_query, try_except, call, lift, mbind, IO_bind, Result_bind.
  destruct (llm_invoke _ _ _) as [content|e]; [|by destruct e].
  destruct (parse_response content) as [data|e]; [|by destruct e].
  destruct (validated_decision data) as [d|e]; [reflexivity|by destruct e].
Qed.

(** A reply that cannot be used is answered by the keyword fallback:
    when the reply does not parse, parses to something other than an
    object, or holds a confidence [float] rejects, [route_query] returns
    exactly what [_fallback_routing] returns for the query, after one
    call of the classifier. *)
Theorem route_query_unusable_reply (query : string) (tr : list Event)
    (content : string) :
  llm_invoke tr llm (routing_messages query) = Ok content ->
  match parse_response content with
  | Raise _ => True
  | Ok (PyDict data) =>
      exists e,
        PyObj.to_float (default (PyFloat 0.7) (data !! "confidence")) = Raise e
  | Ok _ => True
  end ->
  route_query query tr
  = (_fallback_routing query, tr ++ [LlmInvoke llm (routing_messages query)]).
Proof.
  intros Hllm Hbad. rewrite route_query_unfold. cbv zeta. rewrite Hllm.
  unfold mbind at 2. unfold Result_bind at 2.
  destruct (parse_response content) as [o|e]; [|reflexivity].
  assert (Hv : exists e, validated_decision o = Raise e).
  { destruct o as [| | | | | |data]; try (by eexists).
    unfold validated_decision. simpl PyObj.get. unfold mbind, Result_bind.
    destruct Hbad as [e He]. rewrite He. by eexists. }
  destruct Hv as [e Hv]. unfold mbind, Result_bind. by rewrite Hv.
Qed.

End UnusableReply.

Section UnusableReplyWitness.

Import OrchestratorAgent.

(** A classifier that answers with a JSON array. *)
Definition array_classifier : Services :=
  Doubles.services (fun _ => Ok "[1, 2]") (Ok (PyList [PyInt 1; PyInt 2]))
    (Raise ServiceError) [].

Lemma route_query_unusable_reply_witness :
  route_query (H:=array_classifier) "Can I cancel my trip?" []
  = (_fallback_routing "Can I cancel my trip?",
     [LlmInvoke llm (routing_messages "Can I cancel my trip?")]).
Proof.
  apply (route_query_unusable_reply (H:=array_classifier)
           "Can I cancel my trip?" [] "[1, 2]" eq_refl).
  exact I.
Defined.

End UnusableReplyWitness.

(** ** The agents on a warm cache *)

Section WarmAgents.

Context `{Services}.

(** A log without a read of the corpus directory. *)
Definition no_reads (evs : list Event) : Prop :=
  Forall (fun ev => match ev with ReadCorpus _ => False | _ => True end) evs.

Lemma retrieval_only_no_reads evs : retrieval_only evs -> no_reads evs.
Proof. intros Hevs. eapply Forall_impl; [exact Hevs|]. by intros []. Qed.

Lemma search_cached_hit query agent_type case_sensitive self tr docs :
  CAGRetriever.cached_documents self !! agent_type = Some docs ->
  CAGRetriever.search_cached query agent_type case_sensitive self tr
  = (Ok (CAGRetriever.matching_docs query case_sensitive docs, self), tr).
Proof.
  intros Hc. unfold CAGRetriever.search_cached.
  by rewrite (io_bind_ok _ _ _ _ _ (get_cached_documents_hit _ _ _ _ Hc)).
Qed.

(** The messages the policy agent sends for a choice of documents. *)
Definition policy_prompt (chosen : list string) (query : string)
    (history : option (list History.entry)) : list LcMessage :=
  Agent.prompt_messages PolicyAgent.system_prompt history
    (PolicyAgent.user_prompt
       (PyStr.join (Agent.nl +:+ "---" +:+ Agent.nl)
          (imap PolicyAgent.context_part chosen)) query).

(** The documents the policy agent puts into its prompt. *)
Definition policy_choice (query : string) (docs : list string) : list string :=
  match CAGRetriever.matching_docs query false docs with
  | [] => take 3 docs
  | m :: ms => take 5 (m :: ms)
  end.

Lemma policy_generate_hit query history top_k self tr docs :
  CAGRetriever.cached_documents (PolicyAgent.retriever self) !! "policy" = Some docs ->
  let messages := policy_prompt (policy_choice query docs) query history in
  PolicyAgent.generate_response query history top_k self tr
  = (Ok (answer_of (llm_invoke tr PolicyAgent.llm messages), self),
     tr ++ [LlmInvoke PolicyAgent.llm messages]).
Proof.
  intros Hc messages. destruct self as [cag]. simpl in Hc.
  unfold PolicyAgent.generate_response. simpl PolicyAgent.retriever.
  rewrite (io_bind_ok _ _ _ _ _ (search_cached_hit query "policy" false cag tr docs Hc)).
  cbv beta iota.
  assert (Hfill :
    (match CAGRetriever.matching_docs query false docs with
     | [] =>
         '(all_docs, r) ← CAGRetriever.get_cached_documents "policy" cag;
         mret (take 3 all_docs, r)
     | _ => mret (CAGRetriever.matching_docs query false docs, cag)
     end) tr
    = (Ok (match CAGRetriever.matching_docs query false docs with
           | [] => take 3 docs
           | m :: ms => m :: ms
           end, cag), tr)).
  { destruct (CAGRetriever.matching_docs query false docs) as [|m ms];
      [|reflexivity].
    by rewrite (io_bind_ok _ _ _ _ _ (get_cached_documents_hit _ _ _ _ Hc)). }
  rewrite (io_bind_ok _ _ _ _ _ Hfill). cbv beta iota.
  erewrite io_bind_ok; [|apply respond_spec].
  assert (Hchoice :
    take 5 (match CAGRetriever.matching_docs query false docs with
            | [] => take 3 docs
            | m :: ms => m :: ms
            end) = policy_choice query docs).
  { unfold policy_choice.
    destruct (CAGRetriever.matching_docs query false docs); [|reflexivity].
    rewrite take_take. reflexivity. }
  unfold messages, policy_prompt. rewrite <- Hchoice. reflexivity.
Qed.

(** With the policy category cached, the policy agent reads nothing and
    leaves its retriever as it is; it calls its model once, with a
    prompt built from the documents it chose: the first five matches of
    the search, in the order of the cache, or, when nothing matches,
    the first three cached documents. It chooses none only when the
    cache holds none. *)
Theorem policy_agent_context
    (query : string) (history : option (list History.entry)) (top_k : Z)
    (self : PolicyAgent.t) (tr : list Event) (docs : list string) :
  CAGRetriever.cached_documents (PolicyAgent.retriever self) !! "policy" = Some docs ->
  exists chosen,
    let messages := policy_prompt chosen query history in
    PolicyAgent.generate_response query history top_k self tr
    = (Ok (answer_of (llm_invoke tr PolicyAgent.llm messages), self),
       tr ++ [LlmInvoke PolicyAgent.llm messages]) /\
    sublist chosen docs /\
    length chosen <= 5 /\
    (chosen = [] <-> docs = []) /\
    (CAGRetriever.matching_docs query false docs = [] -> chosen = take 3 docs) /\
    (CAGRetriever.matching_docs query false docs <> [] ->
     chosen = take 5 (CAGRetriever.matching_docs query false docs)).
Proof.
  intros Hc. exists (policy_choice query docs). cbv zeta.
  split; [by apply policy_generate_hit|].
  unfold policy_choice.
  pose proof (filter_sublist
    (fun doc => existsb (fun term => PyStr.contains term (PyStr.lower doc))
                  (PyStr.split (PyStr.lower query))) docs) as Hsub.
  change (List.filter _ docs) with (CAGRetriever.matching_docs query false docs) in Hsub.
  destruct (CAGRetriever.matching_docs query false docs) as [|m ms] eqn:Hm.
  - split; [apply sublist_take|]. split; [rewrite length_take; lia|].
    split; [|split; [reflexivity|congruence]].
    split; [|by intros ->].
    destruct docs; [reflexivity|discriminate].
  - split; [etrans; [apply sublist_take|exact Hsub]|].
    split; [rewrite length_take; lia|].
    split; [|split; [discriminate|reflexivity]].
    split; [discriminate|]. intros ->. by apply sublist_nil_r in Hsub.
Qed.

(** Constructing the policy agent warms its cache, with at most one read
    of the corpus; from then on every answer reads nothing, leaves the
    agent as it is, and consists of one call of the model. *)
Theorem policy_agent_warm (cag_retriever : option CAGRetriever.t) (tr : list Event) :
  exists agent evs,
    PolicyAgent.init cag_retriever tr = (Ok agent, tr ++ evs) /\
    (evs = [] \/ evs = [ReadCorpus "policy"]) /\
    forall query history top_k tr',
      exists answer messages,
        PolicyAgent.generate_response query history top_k agent tr'
        = (Ok (answer, agent), tr' ++ [LlmInvoke PolicyAgent.llm messages]).
Proof.
  destruct (cache_documents_spec "policy" (default CAGRetriever.init cag_retriever) tr)
    as (cag & evs & docs & Hc & Hdocs & Hevs & _).
  exists {| PolicyAgent.retriever := cag |}, evs. split; [|split; [exact Hevs|]].
  - unfold PolicyAgent.init. by rewrite (io_bind_ok _ _ _ _ _ Hc).
  - intros query history top_k tr'. eexists _, _.
    apply (policy_generate_hit query history top_k
             {| PolicyAgent.retriever := cag |} tr' docs Hdocs).
Qed.

End WarmAgents.

Section WarmHybrid.

Import HybridRetriever.

Context `{Services}.

(** The flag of the hybrid retriever tells the truth: when it is set,
    the policy category is cached. *)
Definition initialized_consistent (self : t) : Prop :=
  cache_initialized self = true ->
  is_Some (CAGRetriever.cached_documents (cag_retriever self) !! "policy").

Lemma hybrid_retrieve_warm query agent_type top_k self tr docs :
  cache_initialized self = true ->
  CAGRetriever.cached_documents (cag_retriever self) !! "policy" = Some docs ->
  exists dyn evs,
    RAGRetriever.retrieve query agent_type top_k None tr = (Ok dyn, tr ++ evs) /\
    retrieval_only evs /\
    retrieve query agent_type top_k true self tr
    = (Ok ({| dynamic := dyn;
              static := static_doc <$>
                        take 3 (CAGRetriever.matching_docs query false docs) |},
           self), tr ++ evs).
Proof.
  intros Hi Hc.
  destruct (retrieve_total query agent_type top_k None tr) as (dyn & evs & Hdyn & Hevs).
  exists dyn, evs. split; [exact Hdyn|]. split; [exact Hevs|].
  unfold retrieve. rewrite Hi. change (negb true) with false. cbv iota.
  erewrite io_bind_ok; [|reflexivity].
  erewrite io_bind_ok; [|apply try_except_ok; exact Hdyn].
  cbv iota.
  erewrite io_bind_ok; [|by apply search_cached_hit].
  cbv beta iota. destruct self as [cag sub init]. simpl in *. by rewrite Hi.
Qed.

Lemma initialize_cache_consistent agent_type self tr :
  initialized_consistent self ->
  exists self' evs docs,
    initialize_cache agent_type self tr = (Ok self', tr ++ evs) /\
    cache_initialized self' = true /\
    CAGRetriever.cached_documents (cag_retriever self') !! "policy" = Some docs /\
    (evs = [] \/ evs = [ReadCorpus "policy"]).
Proof.
  intros Hcons. destruct (cache_initialized self) eqn:Hi.
  - destruct (Hcons Hi) as [docs Hdocs].
    exists self, [], docs. rewrite app_nil_r.
    split; [by apply initialize_cache_done|]. auto.
  - destruct (initialize_cache_first agent_type self tr Hi)
      as (cag & evs & docs & Hinit & Hdocs & Hevs).
    eexists _, evs, docs. split; [exact Hinit|]. split; [reflexivity|].
    split; [exact Hdocs|]. destruct Hevs as [[-> _]|[-> _]]; auto.
Qed.

Lemma rag_init_unfold collection_name tr :
  RAGRetriever.init collection_name tr
  = (get_collection tr collection_name, tr ++ [GetCollection collection_name]).
Proof.
  unfold RAGRetriever.init, try_except, call, raise.
  by destruct (get_collection tr collection_name) as [[]|e].
Qed.

(** The retriever the booking agent starts from, and what obtaining it
    logs: the one it is given, or a new one, for which the collection of
    the vector store is loaded. *)
Definition construction_log (hybrid_retriever : option t) : list Event :=
  match hybrid_retriever with
  | Some _ => []
  | None => [GetCollection None]
  end.

(** Constructing the booking agent without a retriever loads the
    collection of the vector store first: when that raises, the
    constructor raises the same exception, and nothing is read. When
    the collection loads, or a retriever is given, the constructor
    initializes the hybrid retriever with at most one read of the
    corpus; from then on an answer reads nothing and leaves the agent as
    it is: it consists of the calls of the semantic retrieval followed
    by one call of the model. *)
Theorem booking_agent_warm (hybrid_retriever : option t) (tr : list Event) :
  initialized_consistent (default (init None) hybrid_retriever) ->
  (hybrid_retriever = None ->
   forall e,
     get_collection tr None = Raise e ->
     BookingPaymentsAgent.init None tr = (Raise e, tr ++ [GetCollection None])) /\
  (is_Some hybrid_retriever \/ get_collection tr None = Ok tt ->
   exists agent reads,
     BookingPaymentsAgent.init hybrid_retriever tr
     = (Ok agent, (tr ++ construction_log hybrid_retriever) ++ reads) /\
     (reads = [] \/ reads = [ReadCorpus "policy"]) /\
     forall query history top_k tr',
       exists answer evs' messages,
         BookingPaymentsAgent.generate_response query history top_k agent tr'
         = (Ok (answer, agent),
            (tr' ++ evs') ++ [LlmInvoke BookingPaymentsAgent.llm messages]) /\
         retrieval_only evs').
Proof.
  intros Hcons. split.
  - intros _ e He. unfold BookingPaymentsAgent.init.
    apply io_bind_raise. unfold create. apply io_bind_raise.
    by rewrite rag_init_unfold, He.
  - intros Hbuilt.
    set (tr0 := tr ++ construction_log hybrid_retriever).
    assert (Hget :
      (match hybrid_retriever with
       | Some r => mret r
       | None => create None
       end) tr = (Ok (default (init None) hybrid_retriever), tr0)).
    { unfold tr0. destruct hybrid_retriever as [h|]; simpl construction_log.
      - by rewrite app_nil_r.
      - destruct Hbuilt as [[h Hh]|Hok]; [discriminate Hh|].
        unfold create. erewrite io_bind_ok; [|by rewrite rag_init_unfold, Hok].
        reflexivity. }
    destruct (initialize_cache_consistent "booking_payments" _ tr0 Hcons)
      as (h & evs & docs & Hinit & Hi & Hdocs & Hevs).
    exists {| BookingPaymentsAgent.retriever := h |}, evs.
    split; [|split; [exact Hevs|]].
    + unfold BookingPaymentsAgent.init.
      rewrite (io_bind_ok _ _ _ _ _ Hget).
      by rewrite (io_bind_ok _ _ _ _ _ Hinit).
    + intros query history top_k tr'.
      destruct (hybrid_retrieve_warm query "booking_payments" top_k h tr' docs Hi Hdocs)
        as (dyn & evs' & _ & Hevs' & Hr).
      eexists _, evs', _. split; [|exact Hevs'].
      unfold BookingPaymentsAgent.generate_response.
      simpl BookingPaymentsAgent.retriever.
      rewrite (io_bind_ok _ _ _ _ _ Hr). cbv beta iota.
      erewrite io_bind_ok; [|apply respond_spec]. reflexivity.
Qed.

(** A retrieval without the static part still initializes the cache: on
    a retriever that is not initialized it derives the policy subset,
    reading the corpus when the category is not cached. The static part
    of its result is empty and the dynamic part is what the semantic
    retriever returns. An initialized retriever is left as it is. *)
Theorem hybrid_retrieve_dynamic_only
    (query agent_type : string) (top_k : Z) (self : t) (tr : list Event) :
  exists dyn self' evs1 evs2,
    retrieve query agent_type top_k false self tr
    = (Ok ({| dynamic := dyn; static := [] |}, self'), (tr ++ evs1) ++ evs2) /\
    RAGRetriever.retrieve query agent_type top_k None (tr ++ evs1)
    = (Ok dyn, (tr ++ evs1) ++ evs2) /\
    retrieval_only evs2 /\
    cache_initialized self' = true /\
    (cache_initialized self = true -> self' = self /\ evs1 = []) /\
    (cache_initialized self = false ->
     CAGRetriever.cached_documents (cag_retriever self) !! "policy" = None ->
     evs1 = [ReadCorpus "policy"] /\
     static_policy_cache self' = relevant_policies (read_corpus tr)).
Proof.
  assert (Hinit : exists self1 evs1,
    (if negb (cache_initialized self) then initialize_cache agent_type self
     else mret self) tr = (Ok self1, tr ++ evs1) /\
    cache_initialized self1 = true /\
    (cache_initialized self = true -> self1 = self /\ evs1 = []) /\
    (cache_initialized self = false ->
     CAGRetriever.cached_documents (cag_retriever self) !! "policy" = None ->
     evs1 = [ReadCorpus "policy"] /\
     static_policy_cache self1 = relevant_policies (read_corpus tr))).
  { destruct (cache_initialized self) eqn:Hi.
    - exists self, []. rewrite app_nil_r. change (negb true) with false. cbv iota.
      split; [reflexivity|]. split; [exact Hi|]. split; [auto|discriminate].
    - change (negb false) with true. cbv iota.
      destruct (CAGRetriever.cached_documents (cag_retriever self) !! "policy")
        as [docs|] eqn:Hc.
      + destruct (initialize_cache_first agent_type self tr Hi)
          as (cag & evs & ds & Hinit & _ & _).
        eexists _, evs. split; [exact Hinit|]. split; [reflexivity|].
        split; discriminate.
      + eexists _, _. split; [exact (initialize_cache_miss agent_type self tr Hi Hc)|].
        split; [reflexivity|]. split; [discriminate|]. intros _ _. split; reflexivity. }
  destruct Hinit as (self1 & evs1 & Hinit & Hi1 & Hkeep & Hfresh).
  destruct (retrieve_total query agent_type top_k None (tr ++ evs1))
    as (dyn & evs2 & Hdyn & Hevs2).
  exists dyn, self1, evs1, evs2.
  split; [|split; [exact Hdyn|split; [exact Hevs2|split; [exact Hi1|split; assumption]]]].
  unfold retrieve.
  rewrite (io_bind_ok _ _ _ _ _ Hinit).
  erewrite io_bind_ok; [|apply try_except_ok; exact Hdyn].
  reflexivity.
Qed.

End WarmHybrid.

Section WarmHybridWitness.

Lemma booking_agent_warm_witness :
  BookingPaymentsAgent.init (H:=Doubles.offline) None []
  = (Raise ServiceError, [GetCollection None]) /\
  exists agent reads,
    BookingPaymentsAgent.init (H:=store_answers two_chunks) None []
    = (Ok agent, [GetCollection None] ++ reads) /\
    (reads = [] \/ reads = [ReadCorpus "policy"]).
Proof.
  split.
  - destruct (booking_agent_warm (H:=Doubles.offline) None [])
      as [Hraise _].
    + intros Hi. discriminate Hi.
    + exact (Hraise eq_refl ServiceError eq_refl).
  - destruct (booking_agent_warm (H:=store_answers two_chunks) None [])
      as [_ Hbuilt].
    + intros Hi. discriminate Hi.
    + destruct (Hbuilt (or_intror eq_refl)) as (agent & reads & Hinit & Hreads & _).
      exists agent, reads. split; [exact Hinit|exact Hreads].
Defined.

End WarmHybridWitness.

Section WarmAgentsWitness.

Lemma policy_agent_context_witness :
  exists chosen answer tr',
    PolicyAgent.generate_response (H:=Doubles.offline) "refund?" None 5
      {| PolicyAgent.retriever := two_policies |} []
    = (Ok (answer, {| PolicyAgent.retriever := two_policies |}), tr') /\
    sublist chosen ["Refund Policy: refunds within 14 days.";
                    "Baggage: one bag of 23 kg."] /\
    length chosen <= 5.
Proof.
  destruct (policy_agent_context (H:=Doubles.offline) "refund?" None 5
              {| PolicyAgent.retriever := two_policies |} [] _ eq_refl)
    as (chosen & Hg & Hsub & Hlen & _).
  exists chosen. eexists _, _. split; [exact Hg|]. split; [exact Hsub|exact Hlen].
Defined.

End WarmAgentsWitness.

(** ** The range of the keyword fallback *)

Section FallbackRange.

Import OrchestratorAgent.

Lemma fallback_confidence_values score :
  1 <= score <= 11 ->
  In (fallback_confidence score) [0.6; 0.7; 0.8]%float.
Proof.
  intros Hs. rewrite (fallback_confidence_table score Hs).
  destruct score as [|[|[|score]]]; simpl; auto.
Qed.

(** The keyword fallback ignores the letter case of the query. Its
    confidence is 0.6, 0.7 or 0.8, never more; the reasoning is one of
    three fixed texts, chosen by the category; and [travel_support] is
    returned exactly when no keyword of either list occurs, always
    with confidence 0.6. *)
Theorem fallback_routing_range (query : string) :
  _fallback_routing (PyStr.lower query) = _fallback_routing query /\
  exists d,
    _fallback_routing query = Ok d /\
    In (State.confidence d) [0.6; 0.7; 0.8]%float /\
    State.reasoning d
    = match State.agent_type d with
      | State.booking_payments => "Matched booking/payment keywords"
      | State.policy => "Matched policy keywords"
      | State.travel_support => "Default fallback to travel support"
      end /\
    (State.agent_type d = State.travel_support <->
     keyword_score booking_keywords (PyStr.lower query) = 0 /\
     keyword_score policy_keywords (PyStr.lower query) = 0) /\
    (State.agent_type d = State.travel_support -> State.confidence d = 0.6%float).
Proof.
  split.
  { unfold _fallback_routing. by rewrite lower_idempotent. }
  rewrite fallback_routing_eq. cbv zeta.
  pose proof (booking_score_le (PyStr.lower query)) as Hb.
  pose proof (policy_score_le (PyStr.lower query)) as Hp.
  set (b := keyword_score booking_keywords (PyStr.lower query)) in *.
  set (p := keyword_score policy_keywords (PyStr.lower query)) in *.
  clearbody b p. eexists. split; [reflexivity|].
  destruct (Nat.ltb_spec p b) as [Hpb|Hpb]; destruct (Nat.ltb_spec 0 b) as [H0b|H0b];
    simpl andb; cbv iota.
  - simpl. split; [apply fallback_confidence_values; lia|].
    split; [reflexivity|]. split; [|discriminate].
    split; [discriminate|lia].
  - lia.
  - destruct (Nat.ltb_spec 0 p) as [H0p|H0p]; simpl.
    + split; [apply fallback_confidence_values; lia|].
      split; [reflexivity|]. split; [|discriminate].
      split; [discriminate|lia].
    + lia.
  - destruct (Nat.ltb_spec 0 p) as [H0p|H0p]; simpl.
    + split; [apply fallback_confidence_values; lia|].
      split; [reflexivity|]. split; [|discriminate].
      split; [discriminate|lia].
    + split; [auto|]. split; [reflexivity|]. split; [|reflexivity].
      split; [lia|reflexivity].
Qed.

End FallbackRange.

(** ** The text handed to the JSON parser *)

Section JsonSpan.

Import OrchestratorAgent.

(** A string in which a character does not occur. *)
Fixpoint free_of (c : ascii) (s : string) : bool :=
  match s with
  | EmptyString => true
  | String a s' => negb (Ascii.eqb c a) && free_of c s'
  end.

Lemma startswith_char c a s :
  PyStr.startswith (String c EmptyString) (String a s) = Ascii.eqb c a.
Proof. simpl. by rewrite andb_true_r. Qed.

Lemma find_from_char c prose rest i :
  free_of c prose = true ->
  PyStr.find_from (String c EmptyString) (prose +:+ String c rest) i
  = (i + Z.of_nat (String.length prose))%Z.
Proof.
  revert i. induction prose as [|a prose IH]; intros i Hfree.
  - change (EmptyString +:+ String c rest) with (String c rest).
    unfold PyStr.find_from. rewrite startswith_char, Ascii.eqb_refl. simpl. lia.
  - simpl in Hfree. apply andb_true_iff in Hfree as [Ha Hfree].
    apply negb_true_iff in Ha.
    change (String a prose +:+ String c rest)
      with (String a (prose +:+ String c rest)).
    cbn [PyStr.find_from]. rewrite startswith_char, Ha, (IH _ Hfree).
    cbn [String.length]. lia.
Qed.

Lemma find_from_free c s i :
  free_of c s = true -> PyStr.find_from (String c EmptyString) s i = (-1)%Z.
Proof.
  revert i. induction s as [|a s IH]; intros i Hfree; [reflexivity|].
  simpl in Hfree. apply andb_true_iff in Hfree as [Ha Hfree].
  apply negb_true_iff in Ha.
  cbn [PyStr.find_from]. rewrite startswith_char, Ha. by apply IH.
Qed.

Lemma rfind_from_free c s i :
  free_of c s = true -> PyStr.rfind_from (String c EmptyString) s i = (-1)%Z.
Proof.
  revert i. induction s as [|a s IH]; intros i Hfree; [reflexivity|].
  simpl in Hfree. apply andb_true_iff in Hfree as [Ha Hfree].
  apply negb_true_iff in Ha.
  cbn [PyStr.rfind_from]. rewrite (IH _ Hfree), startswith_char, Ha. reflexivity.
Qed.

Lemma rfind_from_char c before trailer i :
  (0 <= i)%Z ->
  free_of c trailer = true ->
  PyStr.rfind_from (String c EmptyString) (before +:+ String c trailer) i
  = (i + Z.of_nat (String.length before))%Z.
Proof.
  revert i. induction before as [|a before IH]; intros i Hi Hfree.
  - change (EmptyString +:+ String c trailer) with (String c trailer).
    cbn [PyStr.rfind_from]. rewrite (rfind_from_free _ _ _ Hfree).
    rewrite startswith_char, Ascii.eqb_refl. simpl. lia.
  - change (String a before +:+ String c trailer)
      with (String a (before +:+ String c trailer)).
    cbn [PyStr.rfind_from]. rewrite (IH (i + 1)%Z ltac:(lia) Hfree).
    destruct (Z.leb_spec 0 (i + 1 + Z.of_nat (String.length before))); [|lia].
    cbn [String.length]. lia.
Qed.

Lemma substring_middle prose middle trailer :
  String.substring (String.length prose) (String.length middle)
    (prose +:+ middle +:+ trailer) = middle.
Proof.
  induction prose as [|a prose IH]; [|exact IH].
  change (EmptyString +:+ middle +:+ trailer) with (middle +:+ trailer).
  cbn [String.length]. induction middle as [|b middle IHm]; [by destruct trailer|].
  change (String b middle +:+ trailer) with (String b (middle +:+ trailer)).
  cbn [String.length String.substring]. by rewrite IHm.
Qed.

Lemma length_app_string (a b : string) :
  String.length (a +:+ b) = String.length a + String.length b.
Proof.
  induction a as [|c a IH]; [reflexivity|].
  change (String c a +:+ b) with (String c (a +:+ b)).
  cbn [String.length]. by rewrite IH.
Qed.

(** Extra text around the JSON object is cut away: when the stripped
    reply holds an opening brace with none before it and, after it, a
    closing brace with none behind it, [json.loads] is given the text
    from the one to the other, both included. A stripped reply with no
    opening brace is parsed as a whole. *)
Theorem parse_response_span `{Services} (content : string) :
  (forall prose body trailer,
     PyStr.strip content = prose +:+ String "{" (body +:+ String "}" trailer) ->
     free_of "{" prose = true ->
     free_of "}" trailer = true ->
     parse_response content
     = json_loads (String "{" (body +:+ String "}" EmptyString))) /\
  (free_of "{" (PyStr.strip content) = true ->
   parse_response content = json_loads (PyStr.strip content)).
Proof.
  split.
  - intros prose body trailer Hstrip Hprose Htrailer.
    unfold parse_response. cbv zeta.
    rewrite Hstrip. unfold PyStr.find, PyStr.rfind.
    rewrite (find_from_char "{" prose _ 0 Hprose).
    assert (Hsplit : prose +:+ String "{" (body +:+ String "}" trailer)
                     = (prose +:+ String "{" body) +:+ String "}" trailer).
    { clear. induction prose as [|a prose IH]; [reflexivity|].
      change (String a prose +:+ ?x) with (String a (prose +:+ x)).
      change (String a prose +:+ String "{" body)
        with (String a (prose +:+ String "{" body)).
      change (String a ?x +:+ ?y) with (String a (x +:+ y)). by rewrite IH. }
    assert (Hr : PyStr.rfind_from "}"
                   (prose +:+ String "{" (body +:+ String "}" trailer)) 0
                 = (0 + Z.of_nat (String.length prose + S (String.length body)))%Z).
    { rewrite Hsplit.
      rewrite (rfind_from_char "}" (prose +:+ String "{" body) trailer 0
                 ltac:(lia) Htrailer).
      rewrite length_app_string. reflexivity. }
    rewrite Hr.
    set (n := String.length prose). set (k := String.length body).
    destruct (Z.leb_spec 0 (0 + Z.of_nat n)); [|lia].
    destruct (Z.ltb_spec (0 + Z.of_nat n) (0 + Z.of_nat (n + S k) + 1)); [|lia].
    cbn [andb]. unfold PyStr.slice.
    replace (Z.to_nat (0 + Z.of_nat n)) with n by lia.
    replace (Z.to_nat (0 + Z.of_nat (n + S k) + 1 - (0 + Z.of_nat n)))
      with (String.length (String "{" (body +:+ String "}" EmptyString))).
    2:{ cbn [String.length]. rewrite length_app_string. cbn [String.length].
        fold k. lia. }
    assert (Hmid : prose +:+ String "{" (body +:+ String "}" trailer)
                   = prose +:+ String "{" (body +:+ String "}" EmptyString)
                     +:+ trailer).
    { clear. f_equal. change (String "{" ?x +:+ ?y) with (String "{" (x +:+ y)).
      f_equal. induction body as [|b body IH]; [reflexivity|].
      change (String b body +:+ ?x) with (String b (body +:+ x)).
      change (String b ?x +:+ ?y) with (String b (x +:+ y)). by rewrite IH. }
    rewrite Hmid. unfold n. by rewrite substring_middle.
  - intros Hfree. unfold parse_response, PyStr.find. cbv zeta.
    by rewrite (find_from_free "{" _ 0 Hfree).
Qed.

End JsonSpan.

(** ** Streaming a response *)

Section Streaming.

(** A string without whitespace. *)
Fixpoint solid (s : string) : bool :=
  match s with
  | EmptyString => true
  | String c s' => negb (PyStr.isspace c) && solid s'
  end.

Lemma solid_snoc s c :
  solid s = true -> PyStr.isspace c = false ->
  solid (s +:+ String c EmptyString) = true.
Proof.
  intros Hs Hc. induction s as [|a s IH]; simpl in *.
  - by rewrite Hc.
  - apply andb_true_iff in Hs as [Ha Hs]. rewrite Ha. simpl. auto.
Qed.

Lemma snoc_nonempty s c : s +:+ String c EmptyString <> EmptyString.
Proof. by destruct s. Qed.

Lemma split_from_solid s cur :
  solid cur = true ->
  Forall (fun t => t <> EmptyString /\ solid t = true) (PyStr.split_from s cur).
Proof.
  revert cur. induction s as [|c s IH]; intros cur Hcur; simpl.
  - destruct cur; [constructor|]. by repeat constructor.
  - destruct (PyStr.isspace c) eqn:Hc.
    + destruct cur; [by apply IH|].
      constructor; [done|]. by apply IH.
    + apply IH. by apply solid_snoc.
Qed.

Lemma split_from_nonempty s cur :
  cur <> EmptyString \/ blank s = false -> PyStr.split_from s cur <> [].
Proof.
  revert cur. induction s as [|c s IH]; intros cur Hcur; simpl.
  - destruct Hcur as [Hcur|Hb]; [|discriminate Hb]. by destruct cur.
  - destruct (PyStr.isspace c) eqn:Hc.
    + destruct cur; [|discriminate].
      apply IH. destruct Hcur as [Hcur|Hb]; [done|].
      simpl in Hb. rewrite Hc in Hb. by right.
    + apply IH. left. apply snoc_nonempty.
Qed.

Lemma lstrip_blank s : blank s = true -> PyStr.lstrip s = EmptyString.
Proof.
  induction s as [|c s IH]; [reflexivity|]. simpl.
  intros [Hc Hs]%andb_true_iff. rewrite Hc. auto.
Qed.

Lemma lstrip_not_blank s :
  blank s = false ->
  exists c s', PyStr.lstrip s = String c s' /\ PyStr.isspace c = false.
Proof.
  induction s as [|c s IH]; [discriminate|]. simpl.
  destruct (PyStr.isspace c) eqn:Hc; simpl; [exact IH|]. eauto.
Qed.

Lemma rstrip_solid_head c s :
  PyStr.isspace c = false -> PyStr.rstrip (String c s) <> EmptyString.
Proof. intros Hc. simpl. rewrite Hc. by destruct (PyStr.rstrip s). Qed.

(** [not text.strip()] holds exactly of the blank texts. *)
Lemma strip_blank s : PyStr.truthy (PyStr.strip s) = negb (blank s).
Proof.
  unfold PyStr.strip. destruct (blank s) eqn:Hb.
  - by rewrite lstrip_blank.
  - destruct (lstrip_not_blank s Hb) as (c & s' & -> & Hc).
    pose proof (rstrip_solid_head c s' Hc) as Hr.
    by destruct (PyStr.rstrip (String c s')).
Qed.

Lemma effective_response_not_blank response_text :
  blank (Main.effective_response response_text) = false.
Proof.
  unfold Main.effective_response.
  destruct response_text as [text|]; [|reflexivity].
  rewrite strip_blank.
  destruct (PyStr.truthy text); simpl; [|reflexivity].
  destruct (blank text) eqn:Hb; simpl; [reflexivity|exact Hb].
Qed.

Lemma imap_first_rest {A B} (f g : A -> B) (x : A) (l : list A) :
  imap (fun i a => if Nat.eqb i 0 then f a else g a) (x :: l) = f x :: (g <$> l).
Proof.
  simpl. f_equal. rewrite <- imap_const. by apply imap_ext.
Qed.

(** What [stream_response] yields for a response of the graph. The text
    streamed is never blank, so it has a first token and the branch for
    an empty token list is never taken; every event carries one token,
    which is non-empty and holds no whitespace, so no event holds a line
    break besides its terminator; the first event has one space after
    the colon and every later one two. A response that is absent, empty
    or blank is replaced by the apology. *)
Theorem stream_events_spec (response_text : option string) :
  exists first rest,
    PyStr.split (Main.effective_response response_text) = first :: rest /\
    Main.stream_events response_text
    = ("data: " +:+ first +:+ Agent.nl +:+ Agent.nl)
      :: ((fun token => "data:  " +:+ token +:+ Agent.nl +:+ Agent.nl) <$> rest) /\
    Forall (fun t => t <> EmptyString /\ solid t = true) (first :: rest) /\
    (match response_text with
     | Some text => blank text = true
     | None => True
     end ->
     Main.effective_response response_text = Main.no_response) /\
    (forall text, response_text = Some text -> blank text = false ->
                  Main.effective_response response_text = text).
Proof.
  pose proof (split_from_nonempty (Main.effective_response response_text) EmptyString
                (or_intror (effective_response_not_blank response_text))) as Hne.
  pose proof (split_from_solid (Main.effective_response response_text) EmptyString
                eq_refl) as Hsolid.
  fold (PyStr.split (Main.effective_response response_text)) in Hne, Hsolid.
  destruct (PyStr.split (Main.effective_response response_text))
    as [|first rest] eqn:Hsplit; [done|].
  exists first, rest. split; [reflexivity|]. split; [|split; [exact Hsolid|split]].
  - unfold Main.stream_events. cbv zeta. rewrite Hsplit.
    apply (imap_first_rest
             (fun token => "data: " +:+ token +:+ Agent.nl +:+ Agent.nl)
             (fun token => "data:  " +:+ token +:+ Agent.nl +:+ Agent.nl)).
  - unfold Main.effective_response. destruct response_text as [text|]; [|done].
    intros Hb. rewrite strip_blank, Hb. simpl. by rewrite orb_true_r.
  - intros text -> Hb. unfold Main.effective_response.
    rewrite strip_blank, Hb. destruct text; [discriminate Hb|reflexivity].
Qed.

End Streaming.

(** ** Chunks and their metadata *)

Section Chunking.

Import DocumentIngester.

Variable split_text : Z -> Z -> string -> list string.

(** The sizes [chunk_document] hands to the splitter. *)
Definition chunk_sizes (content agent_type : string) : Z * Z :=
  if String.eqb agent_type "policy" then (2000, 100)%Z
  else if String.eqb agent_type "booking_payments" then (1500, 200)%Z
  else if PyStr.contains "faq" (PyStr.lower content)
          || PyStr.contains "question" (PyStr.lower content)
       then (800, 150)%Z
       else (1200, 200)%Z.

Lemma to_uint_nonnil n : Nat.to_uint n <> Decimal.Nil.
Proof.
  intros Hn. pose proof (Unsigned.to_of (Nat.to_uint n)) as Hu.
  rewrite Unsigned.of_to, Hn in Hu. discriminate Hu.
Qed.

Lemma of_nat_inj n m : PyStr.of_nat n = PyStr.of_nat m -> n = m.
Proof.
  unfold PyStr.of_nat. intros Heq.
  apply (f_equal NilZero.uint_of_string) in Heq.
  rewrite !NilZero.usu in Heq by apply to_uint_nonnil.
  injection Heq as Heq.
  by apply Unsigned.to_uint_inj.
Qed.

Lemma chunk_document_eq content agent_type chunk_size chunk_overlap :
  let chunks :=
    split_text (chunk_sizes content agent_type).1 (chunk_sizes content agent_type).2
      content in
  chunk_document split_text content agent_type chunk_size chunk_overlap
  = imap (fun i chunk =>
            (chunk,
             ({[ "agent_type" := agent_type;
                 "chunk_index" := PyStr.of_nat i;
                 "total_chunks" := PyStr.of_nat (length chunks) ]}
              : gmap string string)))
         chunks.
Proof.
  unfold chunk_document, chunk_sizes.
  destruct (String.eqb agent_type "policy"); [reflexivity|].
  destruct (String.eqb agent_type "booking_payments"); [reflexivity|].
  by destruct (_ || _).
Qed.

(** [chunk_document] never uses the sizes it is called with: the chunk
    size is 2000, 1500, 800 or 1200 by the category and the content, and
    the overlap is smaller than it. The result holds the chunks of the
    splitter in their order, the i-th labelled with the category, the
    index i and the number of chunks; no two chunks of a document carry
    the same index. *)
Theorem chunk_document_spec (content agent_type : string)
    (chunk_size chunk_overlap : Z) :
  let sizes := chunk_sizes content agent_type in
  let chunks := split_text sizes.1 sizes.2 content in
  let result := chunk_document split_text content agent_type chunk_size chunk_overlap in
  In sizes.1 [2000; 1500; 800; 1200]%Z /\
  (0 < sizes.2 < sizes.1)%Z /\
  result = chunk_document split_text content agent_type 1000 200 /\
  result.*1 = chunks /\
  (forall i chunk meta,
     result !! i = Some (chunk, meta) ->
     meta !! "agent_type" = Some agent_type /\
     meta !! "chunk_index" = Some (PyStr.of_nat i) /\
     meta !! "total_chunks" = Some (PyStr.of_nat (length chunks))) /\
  (forall i j ci mi cj mj,
     result !! i = Some (ci, mi) -> result !! j = Some (cj, mj) ->
     mi !! "chunk_index" = mj !! "chunk_index" -> i = j).
Proof.
  intros sizes chunks result.
  assert (Hres : forall a b,
    chunk_document split_text content agent_type a b
    = imap (fun i chunk =>
              (chunk,
               ({[ "agent_type" := agent_type;
                   "chunk_index" := PyStr.of_nat i;
                   "total_chunks" := PyStr.of_nat (length chunks) ]}
                : gmap string string)))
           chunks) by (intros a b; apply chunk_document_eq).
  assert (Hlook : forall i chunk meta,
    result !! i = Some (chunk, meta) ->
    meta = {[ "agent_type" := agent_type;
              "chunk_index" := PyStr.of_nat i;
              "total_chunks" := PyStr.of_nat (length chunks) ]}).
  { intros i chunk meta. unfold result. rewrite Hres, list_lookup_imap.
    destruct (chunks !! i); simpl; [|discriminate]. by intros [= _ <-]. }
  split; [|split; [|split; [|split; [|split]]]].
  - unfold sizes, chunk_sizes.
    destruct (String.eqb agent_type "policy"); [simpl; auto|].
    destruct (String.eqb agent_type "booking_payments"); [simpl; auto|].
    destruct (_ || _); simpl; auto.
  - unfold sizes, chunk_sizes.
    destruct (String.eqb agent_type "policy"); [simpl; lia|].
    destruct (String.eqb agent_type "booking_payments"); [simpl; lia|].
    destruct (_ || _); simpl; lia.
  - unfold result. by rewrite !Hres.
  - unfold result. rewrite Hres. clear.
    generalize (length chunks). intros n.
    rewrite fmap_imap. etrans; [|apply list_fmap_id].
    rewrite <- imap_const. by apply imap_ext.
  - intros i chunk meta Hi. rewrite (Hlook i chunk meta Hi).
    split; [|split]; by simplify_map_eq.
  - intros i j ci mi cj mj Hi Hj.
    rewrite (Hlook i ci mi Hi), (Hlook j cj mj Hj).
    intros Heq. apply of_nat_inj.
    assert (Hl : forall k,
      ({[ "agent_type" := agent_type; "chunk_index" := PyStr.of_nat k;
          "total_chunks" := PyStr.of_nat (length chunks) ]} : gmap string string)
      !! "chunk_index" = Some (PyStr.of_nat k)) by (intros k; by simplify_map_eq).
    rewrite !Hl in Heq. by injection Heq.
Qed.

Ltac map_lookup :=
  rewrite ?lookup_union;
  repeat match goal with
         | |- context [<[?k := ?x]> ?d !! ?j] =>
             first [rewrite (lookup_insert_ne d k j x) by discriminate
                   |rewrite (lookup_insert_eq d k x)]
         | |- context [{[?k := ?x]} !! ?j] =>
             first [rewrite (lookup_singleton_ne k j x) by discriminate
                   |rewrite (lookup_singleton_eq k x)]
         end.

(** What ingestion records for a file: every chunk carries exactly
    eight keys; the category is the one of the directory and the file
    name the one of the file, whatever markers the file holds; the
    document type is the marker's or [general]; destination and the two
    dates are the markers' or empty; every other marker is dropped. *)
Theorem file_chunks_spec (parsed : gmap string string)
    (cleaned_content file_name agent_type : string) :
  let sizes := chunk_sizes cleaned_content agent_type in
  let chunks := split_text sizes.1 sizes.2 cleaned_content in
  let result := file_chunks split_text parsed cleaned_content file_name agent_type in
  result.*1 = chunks /\
  forall i chunk meta,
    result !! i = Some (chunk, meta) ->
    dom meta
    = ({[ "agent_type"; "chunk_index"; "total_chunks"; "source_file";
          "document_type"; "destination"; "last_updated"; "effective_date" ]}
       : gset string) /\
    meta !! "agent_type" = Some agent_type /\
    meta !! "source_file" = Some file_name /\
    meta !! "document_type" = Some (default "general" (parsed !! "document_type")) /\
    meta !! "destination" = Some (default EmptyString (parsed !! "destination")) /\
    meta !! "last_updated" = Some (default EmptyString (parsed !! "last_updated")) /\
    meta !! "effective_date"
    = Some (default EmptyString (parsed !! "effective_date")) /\
    meta !! "chunk_index" = Some (PyStr.of_nat i) /\
    meta !! "total_chunks" = Some (PyStr.of_nat (length chunks)).
Proof.
  intros sizes chunks result.
  assert (Hres : result
    = (fun chunk_with_metadata : string * gmap string string =>
         (chunk_with_metadata.1,
          ({[ "source_file" := file_name;
              "document_type" := default "general" (parsed !! "document_type");
              "destination" := default EmptyString (parsed !! "destination");
              "last_updated" := default EmptyString (parsed !! "last_updated");
              "effective_date" := default EmptyString (parsed !! "effective_date") ]}
           : gmap string string) ∪ chunk_with_metadata.2))
      <$> imap (fun i chunk =>
                  (chunk,
                   ({[ "agent_type" := agent_type;
                       "chunk_index" := PyStr.of_nat i;
                       "total_chunks" := PyStr.of_nat (length chunks) ]}
                    : gmap string string)))
               chunks).
  { unfold result, file_chunks.
    rewrite chunk_document_eq.
    apply list_fmap_ext.
    intros i [c m] _.
    cbv beta iota zeta.
    map_lookup.
    cbn [default from_option fst snd id].
    reflexivity. }
  split.
  - rewrite Hres, <- list_fmap_compose, fmap_imap.
    etrans; [|apply list_fmap_id].
    rewrite <- imap_const.
    by apply imap_ext.
  - intros i chunk meta.
    rewrite Hres, list_lookup_fmap, list_lookup_imap.
    destruct (chunks !! i) as [c|]; cbn [fmap option_fmap option_map]; [|discriminate].
    intros [= _ <-].
    cbn [fst snd].
    split.
    { rewrite dom_union_L, !dom_insert_L, !dom_singleton_L.
      apply set_eq.
      intros x.
      rewrite !elem_of_union, !elem_of_singleton.
      tauto. }
    repeat split.
    all: map_lookup.
    all: reflexivity.
Qed.

End Chunking.

(** ** The prompt of the booking agent *)

Section BookingPrompt.

Import BookingPaymentsAgent.

Context `{Services}.

Lemma truthy_app (a b : string) :
  PyStr.truthy a = true -> PyStr.truthy (a +:+ b) = true.
Proof. by destruct a. Qed.

Lemma join_imap_truthy {A} (sep : string) (f : nat -> A -> string) (l : list A) :
  l <> [] ->
  (forall i x, PyStr.truthy (f i x) = true) ->
  PyStr.truthy (PyStr.join sep (imap f l)) = true.
Proof.
  intros Hl Hf. destruct l as [|x l]; [done|].
  unfold PyStr.join. cbn [imap String.concat].
  destruct (imap (f ∘ S) l); [apply Hf|apply truthy_app, Hf].
Qed.

Lemma dynamic_part_truthy i doc : PyStr.truthy (dynamic_part i doc) = true.
Proof. reflexivity. Qed.

Lemma static_part_truthy i doc : PyStr.truthy (static_part i doc) = true.
Proof. reflexivity. Qed.

(** The last two parts of the user prompt of the booking agent. *)
Definition question_part (query : string) : string :=
  "
User question: " +:+ query.

Definition instruction_part : string :=
  "
Provide a helpful response based on the context above. Combine dynamic pricing information with policy information as needed.".

Lemma user_prompt_opening dynamic_context static_context query :
  (dynamic_context = EmptyString -> static_context = EmptyString ->
   user_prompt dynamic_context static_context query
   = PyStr.join (Agent.nl +:+ Agent.nl)
       ["No specific information found in knowledge base.";
        question_part query; instruction_part]) /\
  (PyStr.truthy dynamic_context = true ->
   PyStr.startswith "Dynamic Pricing/Booking Information:"
     (user_prompt dynamic_context static_context query) = true) /\
  (dynamic_context = EmptyString -> PyStr.truthy static_context = true ->
   PyStr.startswith "Policy Information (Static):"
     (user_prompt dynamic_context static_context query) = true).
Proof.
  split; [|split].
  - intros -> ->. reflexivity.
  - intros Hd. unfold user_prompt. rewrite Hd.
    by destruct (PyStr.truthy static_context).
  - intros -> Hs. unfold user_prompt. rewrite Hs. reflexivity.
Qed.

(** The prompt the booking agent sends from an initialized retriever.
    When the semantic retrieval returns nothing and no cached policy
    matches the query, the prompt consists of the notice that nothing
    was found, the question and the instruction. When the retrieval
    returns chunks the prompt opens with the dynamic information, and
    when only policies match it opens with the policy information; then
    the notice is absent. In every case the model is called once and its
    answer returned. *)
Theorem booking_prompt_opening
    (query : string) (history : option (list History.entry)) (top_k : Z)
    (self : t) (tr : list Event) (docs : list string) :
  HybridRetriever.cache_initialized (retriever self) = true ->
  CAGRetriever.cached_documents (HybridRetriever.cag_retriever (retriever self))
    !! "policy" = Some docs ->
  exists dyn evs prompt,
    let messages := Agent.prompt_messages system_prompt history prompt in
    let matches := CAGRetriever.matching_docs query false docs in
    RAGRetriever.retrieve query "booking_payments" top_k None tr
    = (Ok dyn, tr ++ evs) /\
    generate_response query history top_k self tr
    = (Ok (answer_of (llm_invoke (tr ++ evs) llm messages), self),
       (tr ++ evs) ++ [LlmInvoke llm messages]) /\
    (dyn = [] -> matches = [] ->
     prompt = PyStr.join (Agent.nl +:+ Agent.nl)
                ["No specific information found in knowledge base.";
                 question_part query; instruction_part]) /\
    (dyn <> [] ->
     PyStr.startswith "Dynamic Pricing/Booking Information:" prompt = true) /\
    (dyn = [] -> matches <> [] ->
     PyStr.startswith "Policy Information (Static):" prompt = true).
Proof.
  intros Hi Hc. destruct self as [h]. cbn [retriever] in Hi, Hc.
  destruct (hybrid_retrieve_warm query "booking_payments" top_k h tr docs Hi Hc)
    as (dyn & evs & Hdyn & _ & Hr).
  set (sep := Agent.nl +:+ "---" +:+ Agent.nl).
  set (matches := CAGRetriever.matching_docs query false docs) in *.
  set (dynamic_context := PyStr.join sep (imap dynamic_part dyn)).
  set (static_context :=
         PyStr.join sep (imap static_part
                           (HybridRetriever.static_doc <$> take 3 matches))).
  destruct (user_prompt_opening dynamic_context static_context query)
    as (Hnone & Hdynamic & Hstatic).
  exists dyn, evs, (user_prompt dynamic_context static_context query).
  cbv zeta. split; [exact Hdyn|]. split; [|split; [|split]].
  - unfold generate_response. cbn [retriever].
    rewrite (io_bind_ok _ _ _ _ _ Hr). cbv beta iota zeta.
    cbn [HybridRetriever.dynamic HybridRetriever.static].
    fold sep. fold dynamic_context. fold static_context.
    erewrite io_bind_ok; [|apply respond_spec]. reflexivity.
  - intros Hd Hm. apply Hnone.
    + unfold dynamic_context. by rewrite Hd.
    + unfold static_context. by rewrite Hm.
  - intros Hd. apply Hdynamic. unfold dynamic_context.
    apply join_imap_truthy; [exact Hd|apply dynamic_part_truthy].
  - intros Hd Hm. apply Hstatic.
    + unfold dynamic_context. by rewrite Hd.
    + unfold static_context. apply join_imap_truthy; [|apply static_part_truthy].
      destruct matches; [done|discriminate].
Qed.

End BookingPrompt.

Section BookingPromptWitness.

Import BookingPaymentsAgent.

(** An initialized hybrid retriever over the two policy documents. *)
Definition warm_hybrid : HybridRetriever.t :=
  {| HybridRetriever.cag_retriever := two_policies;
     HybridRetriever.static_policy_cache :=
       ["Refund Policy: refunds within 14 days."];
     HybridRetriever.cache_initialized := true |}.

Lemma booking_prompt_opening_witness :
  exists answer tr',
    generate_response (H:=Doubles.offline) "Is there a refund?" None 5
      {| retriever := warm_hybrid |} []
    = (Ok (answer, {| retriever := warm_hybrid |}), tr').
Proof.
  destruct (booking_prompt_opening (H:=Doubles.offline) "Is there a refund?" None 5
              {| retriever := warm_hybrid |} [] _ eq_refl eq_refl)
    as (dyn & evs & prompt & _ & Hg & _).
  eexists _, _. exact Hg.
Defined.

End BookingPromptWitness.

(** ** The orchestrator node and the conditional edge *)

Section OrchestratorNode.

Import Graph.

Context `{Services}.

(** The orchestrator node stores what the router decides: on a non-empty
    query it calls the router once and records its decision and the
    decision's category, so its own handler, which would record
    [travel_support] with confidence 0.5, is never entered; with the
    classifier down the decision recorded is the keyword fallback's.
    Without a query the node does nothing. The conditional edge follows
    the recorded category, and leads to [travel_support] when no
    decision is recorded. *)
Theorem orchestrator_node_routes (state : GraphState) (tr : list Event) :
  (match current_query state with
   | Some (String _ _) => False
   | _ => True
   end -> orchestrator_node state tr = (Ok state, tr)) /\
  (forall c q,
     current_query state = Some (String c q) ->
     let messages := OrchestratorAgent.routing_messages (String c q) in
     let tr' := tr ++ [LlmInvoke OrchestratorAgent.llm messages] in
     exists d,
       OrchestratorAgent.route_query (String c q) tr = (Ok d, tr') /\
       orchestrator_node state tr = (Ok (set_routing d state), tr') /\
       route_agent (set_routing d state) = State.agent_type d /\
       (forall e,
          llm_invoke tr OrchestratorAgent.llm messages = Raise e ->
          OrchestratorAgent._fallback_routing (String c q) = Ok d)) /\
  (routing_decision state = None -> route_agent state = State.travel_support).
Proof.
  split; [|split].
  - unfold orchestrator_node. by destruct (current_query state) as [[|c q]|].
  - intros c q Hq messages tr'.
    destruct (route_query_log (String c q) tr) as (d & Hroute & _).
    exists d. split; [exact Hroute|]. split; [|split; [reflexivity|]].
    + unfold orchestrator_node. rewrite Hq. apply try_except_ok.
      by erewrite io_bind_ok; [|exact Hroute].
    + intros e He.
      rewrite (route_query_classifier_down (String c q) tr e He) in Hroute.
      by injection Hroute.
  - unfold route_agent. by intros ->.
Qed.

End OrchestratorNode.
